(** * DirectLineStreaming: a shallow embedding of [directLineStreaming.ts]

    The streaming Direct Line client is embedded as pure functions over an
    explicit controller state.  A method of one of the two classes
    ([StreamHandler], [DirectLineStreaming]) becomes a function that takes
    the state and returns the new state together with the list of effects
    it performed on its collaborators (the status subject, the activity
    subscriber, the transport, the timers), in program order.

    Asynchronous functions are cut at their [await]s: each piece that runs
    without suspension is one function, and the scheduler is a list of
    events that says in which order the pieces run.  What the outside
    world answers (the transport, the HTTP client, the JSON codec) is an
    input of the piece that consumes it.

    [waitUntilOnline] is where [connectAsync] and [refreshToken] are cut:
    a call suspended there continues only after [Online] has been
    published to its subscription.  A continuation whose promise has
    resolved may run at any later point of a run; the code runs it in
    the next microtask, so the scheduler allows every interleaving the
    code has, and more.

    Not embedded: [commonHeaders] and [setSubscriber] (there is one
    subscriber). *)

From Stdlib Require Import QArith Qround.
From Stdlib Require Import List ZArith String Bool Arith Lia DecimalString Permutation.
Import ListNotations.
Open Scope Z_scope.

(** ** Constants (lines 17-21) *)

Definition DIRECT_LINE_VERSION : string := "DirectLine/3.0".
Definition MAX_RETRY_COUNT : Z := 3.
Definition refreshTokenLifetime : Z := 30 * 60 * 1000.
Definition timeout : Z := 20 * 1000.
Definition refreshTokenInterval : Z := refreshTokenLifetime / 2.

(** ** Data imported from [./directLine] and [botframework-streaming] *)

(** Modelled from the spec: the enum [ConnectionStatus] is declared in
    [directLine.ts]; these are the four values the spec lists and the
    streaming client uses. *)
Inductive ConnectionStatus : Set :=
| Uninitialized
| Connecting
| Online
| Ended.

(** Modelled from the spec: [Media], an attachment carrying a
    [contentType] and a [contentUrl]. *)
Record Media : Set := mkMedia {
  contentType : string;
  contentUrl : string
}.

(** Modelled from the spec: [Activity].  The client reads [type],
    [from.id] and the optional [attachments]; everything else is opaque
    ([rest]).  An absent [attachments] field is [None]. *)
Record Activity : Set := mkActivity {
  type : string;
  from_id : string;
  attachments : option (list Media);
  rest : string
}.

(** Modelled from the spec: [Conversation], the argument of [reconnect]. *)
Record Conversation : Set := mkConversation {
  conv_conversationId : option string;
  conv_token : option string
}.

(** [BFSE.ContentStream]: a content type and the text [readAsString]
    resolves to. *)
Record ContentStream : Set := mkContentStream {
  stream_contentType : string;
  readAsString : string
}.

(** [BFSE.IReceiveRequest]: the ordered streams of a server request. *)
Record IReceiveRequest : Set := mkRequest {
  streams : list ContentStream
}.

(** [BFSE.IReceiveResponse].  [resp_streams] is [None] when the field is
    falsy, which is what the guard [resp.streams && ...] of line 258
    tests. *)
Record IReceiveResponse : Set := mkResponse {
  statusCode : Z;
  resp_streams : option (list ContentStream)
}.

(** [BFSE.HttpContent]: headers [{ type, contentLength }] and the bytes
    written to the stream. *)
Record HttpContent : Set := mkHttpContent {
  hc_type : string;
  hc_contentLength : nat;
  hc_stream : string
}.

(** [BFSE.StreamingRequest]. *)
Record StreamingRequest : Set := mkStreamingRequest {
  verb : string;
  path : string;
  req_streams : list HttpContent
}.

(** The JSON codec is an external collaborator.  [JSON.parse] returns
    [any]; each use site reads one shape out of it, so the interface has
    one typed view per use site.  [None] is a throw ([SyntaxError], or the
    [TypeError] of reading a field of a value that is not an object). *)
Class JSON : Type := {
  (** line 51-53: [JSON.parse(s).activities] *)
  parse_activities : string -> option (list Activity);
  (** line 324-325: [JSON.parse(s).conversationId], possibly [undefined] *)
  parse_conversationId : string -> option (option string);
  (** line 214, 261-262: [({Id: id}) => ...], possibly [undefined] *)
  parse_Id : string -> option (option string);
  (** line 206, 252: [JSON.stringify] *)
  stringify : Activity -> string
}.

(** How an [async] function or a callback finishes. *)
Inductive Completion (A : Type) : Type :=
| Resolved (a : A)
| Rejected (e : string).
Arguments Resolved {A} a.
Arguments Rejected {A} e.

(** ** Effects on the collaborators, in program order *)

Inductive Effect : Type :=
| StatusNext (cs : ConnectionStatus)   (* connectionStatus$.next(cs) *)
| SubscriberNext (a : Activity)        (* subscriber.next(a) *)
| SubscriberError (e : string)         (* subscriber.error(e) *)
| Disconnect                           (* streamConnection.disconnect() *)
| SetTimeoutConnect                    (* setTimeout(() => { setSubscriber; connectAsync() }, getRetryDelay()) *)
| SetTimeoutRefresh (retryCount : Z)   (* setTimeout(() => refreshToken(false, retryCount), refreshTokenInterval) *)
| AjaxPostRefresh (bearer : option string). (* Observable.ajax POST <domain>/tokens/refresh *)

(** ** The controller state (fields of lines 91-106 and of the handler, line 35) *)

Record State : Type := mkState {
  connectionStatus : ConnectionStatus;    (* connectionStatus$.value *)
  retryCount : Z;
  domain : string;
  conversationId : option string;
  token : option string;                  (* None is null *)
  streamConnection : bool;                (* false while the field is undefined *)
  queueActivities : bool;
  activityQueue : list Activity           (* theStreamHandler.activityQueue *)
}.

Definition set_connectionStatus (cs : ConnectionStatus) (s : State) : State :=
  mkState cs (retryCount s) (domain s) (conversationId s) (token s)
          (streamConnection s) (queueActivities s) (activityQueue s).

Definition set_retryCount (n : Z) (s : State) : State :=
  mkState (connectionStatus s) n (domain s) (conversationId s) (token s)
          (streamConnection s) (queueActivities s) (activityQueue s).

Definition set_conversationId (c : option string) (s : State) : State :=
  mkState (connectionStatus s) (retryCount s) (domain s) c (token s)
          (streamConnection s) (queueActivities s) (activityQueue s).

Definition set_token (t : option string) (s : State) : State :=
  mkState (connectionStatus s) (retryCount s) (domain s) (conversationId s) t
          (streamConnection s) (queueActivities s) (activityQueue s).

Definition set_streamConnection (b : bool) (s : State) : State :=
  mkState (connectionStatus s) (retryCount s) (domain s) (conversationId s)
          (token s) b (queueActivities s) (activityQueue s).

Definition set_queueActivities (b : bool) (s : State) : State :=
  mkState (connectionStatus s) (retryCount s) (domain s) (conversationId s)
          (token s) (streamConnection s) b (activityQueue s).

Definition set_activityQueue (q : list Activity) (s : State) : State :=
  mkState (connectionStatus s) (retryCount s) (domain s) (conversationId s)
          (token s) (streamConnection s) (queueActivities s) q.

Definition ConnectionStatus_eqb (a b : ConnectionStatus) : bool :=
  match a, b with
  | Uninitialized, Uninitialized => true
  | Connecting, Connecting => true
  | Online, Online => true
  | Ended, Ended => true
  | _, _ => false
  end.

(** ** class StreamHandler (lines 31-88) *)

Module StreamHandler.

(** Lines 66-68: one turn of the [while] loop, [attachments.push(...)]. *)
Definition push_attachment (attachments : list Media) (stream : ContentStream)
  : list Media :=
  attachments ++
  [ {| contentType := stream_contentType stream;
       contentUrl := String.append "data:text/plain;base64," (readAsString stream) |} ].

(** Lines 61-72.  With no extra stream the activity is left as it is.
    Otherwise [[...activity.attachments]] spreads the field, which throws
    a [TypeError] when the field is absent; the loop then shifts the
    streams one by one. *)
Definition materialize (activity : Activity) (streams : list ContentStream)
  : Completion Activity :=
  if (0 <? List.length streams)%nat then
    match attachments activity with
    | None => Rejected "TypeError: activity.attachments is not iterable"
    | Some spread =>
        Resolved {| type := type activity;
                    from_id := from_id activity;
                    attachments := Some (fold_left push_attachment streams spread);
                    rest := rest activity |}
    end
  else Resolved activity.

(** Lines 47-81.  The result is the new state, the effects and the
    response status the promise resolves to. *)
Definition processRequest `{J : JSON} (s : State) (request : IReceiveRequest)
  : State * list Effect * Completion Z :=
  match streams request with
  | [] => (s, [], Rejected "TypeError: stream0 is undefined")
  | stream0 :: streams =>
      match parse_activities (readAsString stream0) with
      | None => (s, [], Rejected "JSON.parse")
      | Some activities =>
          if negb (List.length activities =? 1)%nat then
            (s, [SubscriberError "there should be exactly one activity"],
             Resolved 500)
          else
            match activities with
            | [] => (s, [], Rejected "unreachable")
            | activity :: _ =>
                match materialize activity streams with
                | Rejected e => (s, [], Rejected e)
                | Resolved activity =>
                    if queueActivities s then
                      (set_activityQueue (activityQueue s ++ [activity]) s, [],
                       Resolved 200)
                    else
                      (s, [SubscriberNext activity], Resolved 200)
                end
            end
      end
  end.

(** Lines 83-87. *)
Definition flush (s : State) : State * list Effect :=
  (set_activityQueue [] s, map SubscriberNext (activityQueue s)).

End StreamHandler.

(** ** class DirectLineStreaming (lines 90-345) *)

(** Line 23-29. *)
Record DirectLineStreamingOptions : Set := mkOptions {
  opt_token : string;
  opt_conversationId : option string;
  opt_domain : string;
  opt_botAgent : option string
}.

(** What [Observable.ajax] hands to the subscriber of [refreshToken]:
    the response's [token] field, or an error with its HTTP [status]. *)
Inductive AjaxReply : Set :=
| AjaxResponse (token : option string)
| AjaxError (status : Z).

(** What [Observable.ajax] hands to one attachment fetch (line 235-239). *)
Inductive AjaxGet : Set :=
| GetResponse (response : string)
| GetError (status : Z).

(** What the awaited transport calls of [connectAsync] (lines 318-320)
    produce: a throw of [connect()] or [send()], or the response. *)
Inductive Handshake : Set :=
| TransportThrows (e : string)
| HandshakeResponse (response : IReceiveResponse).

(** What a subscriber of the observable returned by
    [postMessageWithAttachments] receives. *)
Inductive ResultEvent : Set :=
| ResultNext (id : option string)
| ResultError (e : string).

(** JavaScript truthiness of a string-valued field that may be null or
    undefined: [if (x)], [!x]. *)
Definition truthy (x : option string) : bool :=
  match x with
  | None => false
  | Some v => negb (String.eqb v "")
  end.

(** Template-literal rendering of a field that may be undefined. *)
Definition render (x : option string) : string :=
  match x with
  | None => "undefined"
  | Some v => v
  end.

Definition decimal (n : nat) : string :=
  DecimalString.NilZero.string_of_uint (Nat.to_uint n).

(** A call of [refreshToken] that has not finished: suspended in
    [waitUntilOnline] (line 167) with the promise pending or resolved, or
    waiting for the reply to its request (lines 169-176).  Each carries
    the [retryCount] of the call. *)
Inductive RefreshCall : Set :=
| Waiting (retryCount : Z)
| Ready (retryCount : Z)
| InFlight (retryCount : Z).

Module DirectLineStreaming.

(** Lines 157-167: a call of [refreshToken] up to its [await].  The first
    call only sets the timeout of the first tick; a call on an ended
    controller returns; every other call is suspended in
    [waitUntilOnline], whose promise is resolved at once when the subject
    holds [Online] (a [BehaviorSubject] replays its value to a new
    subscription).  The second component is the suspended call, if any. *)
Definition refreshToken (s : State) (firstCall : bool) (retryCount : Z)
  : list Effect * option RefreshCall :=
  if firstCall then ([SetTimeoutRefresh 0], None)
  else if ConnectionStatus_eqb (connectionStatus s) Ended then ([], None)
  else if ConnectionStatus_eqb (connectionStatus s) Online
       then ([], Some (Ready retryCount))
       else ([], Some (Waiting retryCount)).

(** Lines 169-176: after the wait, the request, with the token the
    controller holds at that time. *)
Definition refreshToken_request (s : State) : list Effect :=
  [AjaxPostRefresh (token s)].

(** Lines 177-196: the two callbacks of the request.  A retry is a new
    call of [refreshToken], which tests the status and waits again. *)
Definition refreshToken_subscriber (s : State) (retryCount : Z) (reply : AjaxReply)
  : State * list Effect * option RefreshCall :=
  match reply with
  | AjaxResponse t =>
      (set_token t s, [SetTimeoutRefresh MAX_RETRY_COUNT], None)
  | AjaxError status =>
      if (status =? 403) || (status =? 404) then (s, [Disconnect], None)
      else if retryCount >? 0 then
        let '(effects, call) := refreshToken s false (retryCount - 1) in
        (s, effects, call)
      else (set_token None s, [Disconnect], None)
  end.

(** Lines 108-121: the constructor, up to the creation of [activity$]. *)
Definition constructor (options : DirectLineStreamingOptions)
  : State * list Effect :=
  let s := {| connectionStatus := Uninitialized;
              retryCount := MAX_RETRY_COUNT;
              domain := opt_domain options;
              conversationId :=
                if truthy (opt_conversationId options)
                then opt_conversationId options else None;
              token := Some (opt_token options);
              streamConnection := false;
              queueActivities := true;
              activityQueue := [] |} in
  (s, fst (refreshToken s true 0)).

(** Lines 135-138.  Before any transport exists the second statement
    throws, after the status has been published. *)
Definition end_ (s : State) : State * list Effect * Completion unit :=
  let s := set_connectionStatus Ended s in
  if streamConnection s then (s, [StatusNext Ended; Disconnect], Resolved tt)
  else (s, [StatusNext Ended], Rejected "TypeError: streamConnection is undefined").

(** Lines 271-292. *)
Definition disconnectionHandler (s : State) (e : string) : State * list Effect :=
  if ConnectionStatus_eqb (connectionStatus s) Ended then (s, [])
  else if negb (truthy (token s)) then (s, [SubscriberError "Token unavailable"])
  else
    let s := set_retryCount (retryCount s - 1) s in
    if retryCount s >? 0 then
      (set_connectionStatus Connecting s, [StatusNext Connecting; SetTimeoutConnect])
    else
      (s, [SubscriberError e]).

(** Lines 303-318: [connectAsync] up to its first [await].  The URL of
    lines 306-309 goes to the transport and is not observed here. *)
Definition connectAsync_start (s : State) : State * Completion unit :=
  if negb (String.prefix "http" (domain s)) then
    (s, Rejected "Domain must begin with http or https")
  else
    (set_queueActivities true (set_streamConnection true s), Resolved tt).

(** Lines 318-330 and the [catch] of lines 335-338: from the transport's
    answer to the [await this.waitUntilOnline()].  The boolean says
    whether the function is now suspended at that [await] (the subject
    replays [Online] to the new subscription, so the wait resolves). *)
Definition connectAsync_response `{J : JSON} (s : State) (h : Handshake)
  : State * list Effect * bool :=
  match h with
  | TransportThrows _ => (s, [Disconnect], false)
  | HandshakeResponse response =>
      if negb (statusCode response =? 200) then (s, [Disconnect], false)
      else
        match resp_streams response with
        | None => (s, [Disconnect], false)
        | Some streams =>
            if negb (List.length streams =? 1)%nat then (s, [Disconnect], false)
            else
              match streams with
              | [] => (s, [Disconnect], false)
              | stream0 :: _ =>
                  match parse_conversationId (readAsString stream0) with
                  | None => (s, [Disconnect], false)
                  | Some conversationId =>
                      (set_connectionStatus Online
                         (set_conversationId conversationId s),
                       [StatusNext Online], true)
                  end
              end
        end
  end.

(** Lines 331-334: after [waitUntilOnline] has resolved. *)
Definition connectAsync_resume (s : State) : State * list Effect :=
  let '(s, effects) := StreamHandler.flush s in
  (set_retryCount MAX_RETRY_COUNT (set_queueActivities false s), effects).

(** Lines 129-133, up to the first [await] of [connectAsync]. *)
Definition reconnect (s : State) (c : Conversation) : State * Completion unit :=
  connectAsync_start (set_token (conv_token c) (set_conversationId (conv_conversationId c) s)).

(** Lines 240-246: the [do] of one attachment fetch. *)
Definition fetched (media : Media) (response : string)
  (httpContentList : list HttpContent) : list HttpContent :=
  httpContentList ++
  [ {| hc_type := contentType media;
       hc_contentLength := String.length response;
       hc_stream := response |} ].

(** Lines 233-246.  [flatMap] subscribes to the fetch of every attachment
    as soon as [Observable.from] emits it, so all requests are in flight
    together and each [do] runs when its own response arrives.
    [completions] lists those arrivals in time order, each with the index
    of the attachment it answers.  An error of one fetch errors the whole
    chain. *)
Fixpoint fetch_attachments (attachments : list Media)
  (completions : list (nat * AjaxGet)) (httpContentList : list HttpContent)
  : Completion (list HttpContent) :=
  match completions with
  | [] => Resolved httpContentList
  | (i, GetError status) :: _ => Rejected "ajax error"
  | (i, GetResponse response) :: completions =>
      match nth_error attachments i with
      | None => Rejected "no such request"
      | Some media =>
          fetch_attachments attachments completions
            (fetched media response httpContentList)
      end
  end.

(** [count()] (line 247) emits once, when every inner fetch has
    completed. *)
Definition all_completed (attachments : list Media)
  (completions : list (nat * AjaxGet)) : bool :=
  forallb (fun i => existsb (Nat.eqb i) (map fst completions))
          (seq 0 (List.length attachments)).

(** Lines 249-254: the upload request. *)
Definition upload_request `{J : JSON} (s : State) (messageWithoutAttachments : Activity)
  (httpContentList : list HttpContent) : StreamingRequest :=
  let url := String.append "/v3/directline/conversations/"
            (String.append (render (conversationId s))
            (String.append "/users/"
            (String.append (from_id messageWithoutAttachments) "/upload"))) in
  let activityStream := stringify messageWithoutAttachments in
  {| verb := "PUT";
     path := url;
     req_streams :=
       {| hc_type := "application/vnd.microsoft.activity";
          hc_contentLength := String.length activityStream;
          hc_stream := activityStream |} :: httpContentList |}.

(** Line 229: [const { attachments, ...messageWithoutAttachments } = message]. *)
Definition without_attachments (message : Activity) : Activity :=
  {| type := type message; from_id := from_id message;
     attachments := None; rest := rest message |}.

(** How far one [postMessageWithAttachments] call has got. *)
Inductive Upload : Set :=
| UploadPending                       (* some fetch has not answered yet *)
| UploadFailed (e : string)           (* a fetch failed: nothing is sent *)
| UploadSent (request : StreamingRequest).

(** Lines 228-256: one subscription of the observable that
    [postMessageWithAttachments] returns, up to the [send].
    [httpContentList] is declared at line 231, outside
    [Observable.create]: it belongs to the call and is shared by the
    subscriptions of its observable.  The argument is the list as this
    subscription finds it, empty on the first one. *)
Definition postMessageWithAttachments `{J : JSON} (s : State) (message : Activity)
  (httpContentList : list HttpContent) (completions : list (nat * AjaxGet)) : Upload :=
  let attachments :=
    match attachments message with Some l => l | None => [] end in
  match fetch_attachments attachments completions httpContentList with
  | Rejected e => UploadFailed e
  | Resolved httpContentList =>
      if all_completed attachments completions then
        UploadSent (upload_request s (without_attachments message) httpContentList)
      else UploadPending
  end.

(** Lines 257-266: the [do] that receives the upload response.
    [Rejected] is a throw inside the [do]; it reaches the inner
    [subscribe(_ => _)], which has no error callback, and not the
    subscriber of the result channel. *)
Definition upload_response `{J : JSON} (resp : IReceiveResponse)
  : Completion (list ResultEvent) :=
  if match resp_streams resp with
     | None => false
     | Some streams => negb (List.length streams =? 1)%nat
     end
  then
    Resolved [ResultError
                (String.append "Invalid stream count "
                   (decimal (List.length
                      (match resp_streams resp with Some l => l | None => [] end))))]
  else
    match resp_streams resp with
    | None => Rejected "TypeError: resp.streams is undefined"
    | Some [] => Rejected "TypeError: resp.streams[0] is undefined"
    | Some (stream0 :: _) =>
        match parse_Id (readAsString stream0) with
        | None => Resolved []                     (* readAsJson rejects *)
        | Some id => Resolved [ResultNext id]
        end
    end.

End DirectLineStreaming.

(** ** The scheduler: one subscription of [activity$]

    The pieces above run one at a time (the code is single-threaded);
    an [Event] names the piece that runs next.  The counters remember how
    many calls are suspended at each [await] and how many reconnect
    timeouts are pending, so that a continuation runs only if its call
    got there; [refreshing] holds the calls of [refreshToken] that have
    not finished.  Two such calls with the same [retryCount] at the same
    place behave alike, so the order in [refreshing] does not matter.
    The timeouts of the refresher (lines 159 and 180) are not tracked: a
    tick may fire at any time, with any budget. *)

Record Machine : Type := mkMachine {
  controller : State;
  connecting : nat;    (* connectAsync calls suspended at lines 318-323 *)
  observing : nat;     (* connectAsync calls suspended at line 330 *)
  timers : nat;        (* pending timeouts of line 284 *)
  refreshing : list RefreshCall  (* refreshToken calls under way *)
}.

Inductive Event : Type :=
| Reconnect (c : Conversation)          (* reconnect(c) is called *)
| End                                   (* end() is called *)
| Answered (h : Handshake)              (* the transport answers a connectAsync *)
| OnlineObserved                        (* a waitUntilOnline of connectAsync resolves *)
| Request (request : IReceiveRequest)   (* the transport invokes processRequest *)
| Disconnected (e : string)             (* the transport invokes disconnectionHandler *)
| RetryTimeout                          (* a timeout of line 284 fires *)
| RefreshTick (retryCount : Z)          (* a refresh timeout fires: refreshToken(false, retryCount) *)
| RefreshResumed (retryCount : Z)       (* a refreshToken call continues after its wait *)
| RefreshReplied (retryCount : Z) (reply : AjaxReply).
                                        (* the request of a refreshToken call is answered *)

Definition RefreshCall_eqb (a b : RefreshCall) : bool :=
  match a, b with
  | Waiting x, Waiting y => x =? y
  | Ready x, Ready y => x =? y
  | InFlight x, InFlight y => x =? y
  | _, _ => false
  end.

(** Takes one occurrence of [call] out of [calls], if there is one. *)
Fixpoint take (call : RefreshCall) (calls : list RefreshCall)
  : option (list RefreshCall) :=
  match calls with
  | [] => None
  | c :: calls =>
      if RefreshCall_eqb call c then Some calls
      else match take call calls with
           | Some calls => Some (c :: calls)
           | None => None
           end
  end.

(** [connectionStatus$.next(Online)] resolves the promise of every
    [waitUntilOnline] that is pending (lines 296-297). *)
Definition resolve (call : RefreshCall) : RefreshCall :=
  match call with
  | Waiting retryCount => Ready retryCount
  | _ => call
  end.

Definition suspended (call : option RefreshCall) : list RefreshCall :=
  match call with Some c => [c] | None => [] end.

Definition is_SetTimeoutConnect (eff : Effect) : bool :=
  match eff with SetTimeoutConnect => true | _ => false end.

Definition is_Disconnect (eff : Effect) : bool :=
  match eff with Disconnect => true | _ => false end.

(** Number of reconnect handshakes scheduled (line 284). *)
Definition scheduled (effects : list Effect) : nat :=
  List.length (filter is_SetTimeoutConnect effects).

(** Number of calls of [streamConnection.disconnect()]. *)
Definition disconnects (effects : list Effect) : nat :=
  List.length (filter is_Disconnect effects).

(** The activities passed to [subscriber.next], in order. *)
Fixpoint nexts (effects : list Effect) : list Activity :=
  match effects with
  | [] => []
  | SubscriberNext a :: effects => a :: nexts effects
  | _ :: effects => nexts effects
  end.

(** The values passed to [connectionStatus$.next], in order. *)
Fixpoint statuses (effects : list Effect) : list ConnectionStatus :=
  match effects with
  | [] => []
  | StatusNext cs :: effects => cs :: statuses effects
  | _ :: effects => statuses effects
  end.

Definition started (c : Completion unit) : nat :=
  match c with Resolved _ => 1%nat | Rejected _ => 0%nat end.

Definition step `{J : JSON} (m : Machine) (ev : Event) : option (Machine * list Effect) :=
  match ev with
  | Reconnect c =>
      let '(s, r) := DirectLineStreaming.reconnect (controller m) c in
      Some (mkMachine s (connecting m + started r) (observing m) (timers m)
                      (refreshing m), [])
  | End =>
      let '(s, effects, _) := DirectLineStreaming.end_ (controller m) in
      Some (mkMachine s (connecting m) (observing m) (timers m) (refreshing m),
            effects)
  | Answered h =>
      match connecting m with
      | O => None
      | S n =>
          let '(s, effects, online) :=
            DirectLineStreaming.connectAsync_response (controller m) h in
          Some (mkMachine s n (observing m + if online then 1 else 0) (timers m)
                          (if online then map resolve (refreshing m)
                           else refreshing m),
                effects)
      end
  | OnlineObserved =>
      match observing m with
      | O => None
      | S n =>
          let '(s, effects) := DirectLineStreaming.connectAsync_resume (controller m) in
          Some (mkMachine s (connecting m) n (timers m) (refreshing m), effects)
      end
  | Request request =>
      let '(s, effects, _) := StreamHandler.processRequest (controller m) request in
      Some (mkMachine s (connecting m) (observing m) (timers m) (refreshing m),
            effects)
  | Disconnected e =>
      let '(s, effects) := DirectLineStreaming.disconnectionHandler (controller m) e in
      Some (mkMachine s (connecting m) (observing m) (timers m + scheduled effects)
                      (refreshing m),
            effects)
  | RetryTimeout =>
      match timers m with
      | O => None
      | S n =>
          let '(s, r) := DirectLineStreaming.connectAsync_start (controller m) in
          Some (mkMachine s (connecting m + started r) (observing m) n
                          (refreshing m), [])
      end
  | RefreshTick retryCount =>
      let '(effects, call) :=
        DirectLineStreaming.refreshToken (controller m) false retryCount in
      Some (mkMachine (controller m) (connecting m) (observing m) (timers m)
                      (suspended call ++ refreshing m),
            effects)
  | RefreshResumed retryCount =>
      match take (Ready retryCount) (refreshing m) with
      | None => None
      | Some calls =>
          Some (mkMachine (controller m) (connecting m) (observing m) (timers m)
                          (InFlight retryCount :: calls),
                DirectLineStreaming.refreshToken_request (controller m))
      end
  | RefreshReplied retryCount reply =>
      match take (InFlight retryCount) (refreshing m) with
      | None => None
      | Some calls =>
          let '(s, effects, call) :=
            DirectLineStreaming.refreshToken_subscriber (controller m) retryCount reply in
          Some (mkMachine s (connecting m) (observing m) (timers m)
                          (suspended call ++ calls),
                effects)
      end
  end.

(** Runs the events in order and concatenates the effects; [None] when an
    event names a continuation that is not suspended. *)
Fixpoint run `{J : JSON} (m : Machine) (evs : list Event)
  : option (Machine * list Effect) :=
  match evs with
  | [] => Some (m, [])
  | ev :: evs =>
      match step m ev with
      | None => None
      | Some (m, effects) =>
          match run m evs with
          | None => None
          | Some (m', effects') => Some (m', effects ++ effects')
          end
      end
  end.

(** Lines 122-126: the first subscription of [activity$] creates the
    handler, with an empty queue, and calls [connectAsync]. *)
Definition subscribe (s : State) : Machine :=
  let '(s, r) := DirectLineStreaming.connectAsync_start (set_activityQueue [] s) in
  mkMachine s (started r) 0 0 [].

Definition init (options : DirectLineStreamingOptions) : Machine :=
  subscribe (fst (DirectLineStreaming.constructor options)).

(** The activity of a request that gets as far as line 74, where it is
    queued or published. *)
Definition routed `{J : JSON} (request : IReceiveRequest) : option Activity :=
  match streams request with
  | [] => None
  | stream0 :: streams =>
      match parse_activities (readAsString stream0) with
      | Some [activity] =>
          match StreamHandler.materialize activity streams with
          | Resolved activity => Some activity
          | Rejected _ => None
          end
      | _ => None
      end
  end.

(** The activities that got as far as line 74, in arrival order. *)
Fixpoint arrivals `{J : JSON} (evs : list Event) : list Activity :=
  match evs with
  | [] => []
  | Request request :: evs =>
      match routed request with
      | Some a => a :: arrivals evs
      | None => arrivals evs
      end
  | _ :: evs => arrivals evs
  end.

Definition is_OnlineObserved (ev : Event) : bool :=
  match ev with OnlineObserved => true | _ => false end.

Definition is_RetryTimeout (ev : Event) : bool :=
  match ev with RetryTimeout => true | _ => false end.




(** The queue is empty whenever activities are not being queued. *)
Definition queue_gated (m : Machine) : Prop :=
  queueActivities (controller m) = false -> activityQueue (controller m) = [].

Definition is_Online (cs : ConnectionStatus) : bool := ConnectionStatus_eqb cs Online.

Definition is_Connecting (cs : ConnectionStatus) : bool :=
  ConnectionStatus_eqb cs Connecting.

(** Number of times [Online] was published. *)
Definition onlines (effects : list Effect) : nat :=
  List.length (filter is_Online (statuses effects)).

(** Number of times [Connecting] was published. *)
Definition connectings (effects : list Effect) : nat :=
  List.length (filter is_Connecting (statuses effects)).

(** Number of flushes (lines 331-334) in a run. *)
Definition flushes (evs : list Event) : nat :=
  List.length (filter is_OnlineObserved evs).

(** Number of reconnect handshakes started by a timeout of line 284. *)
Definition retries (evs : list Event) : nat :=
  List.length (filter is_RetryTimeout evs).

(** Reconnects the disconnection callback can still schedule before the
    counter reaches zero. *)
Definition budget (s : State) : nat := Z.to_nat (retryCount s - 1).


(** The attachment the spec describes for one extra stream:
    [{ contentType: stream.contentType,
       contentUrl: "data:text/plain;base64," + payload }]. *)
Definition spec_attachment (stream : ContentStream) : Media :=
  {| contentType := stream_contentType stream;
     contentUrl := String.append "data:text/plain;base64," (readAsString stream) |}.



(** The stream the upload request carries for one fetched attachment. *)
Definition attachment_stream (attachments : list Media) (c : nat * AjaxGet)
  : list HttpContent :=
  match c with
  | (i, GetResponse response) =>
      match nth_error attachments i with
      | Some media => [ {| hc_type := contentType media;
                           hc_contentLength := String.length response;
                           hc_stream := response |} ]
      | None => []
      end
  | (_, GetError _) => []
  end.

Definition is_GetResponse (c : nat * AjaxGet) : bool :=
  match c with (_, GetResponse _) => true | _ => false end.

Definition is_fatal (status : Z) : bool := (status =? 403) || (status =? 404).

Definition is_retryable (r : AjaxReply) : bool :=
  match r with
  | AjaxError status => negb (is_fatal status)
  | AjaxResponse _ => false
  end.

(** ** A small codec for the examples

    The wire texts are written without quotation marks. *)

Definition demo_activity (id : string) (attachments : option (list Media)) : Activity :=
  {| type := "message"; from_id := "user"; attachments := attachments; rest := id |}.

Definition demo_parse_activities (s : string) : option (list Activity) :=
  if String.eqb s "{activities:[]}" then Some []
  else if String.eqb s "{activities:[{attachments:[]}]}" then
    Some [demo_activity "" (Some [])]
  else if String.eqb s "{activities:[{type:message}]}" then
    Some [demo_activity "" None]
  else if String.eqb s "{activities:[{id:A},{id:B}]}" then
    Some [demo_activity "A" None; demo_activity "B" None]
  else if String.prefix "{activities:[{id:" s then
    Some [demo_activity (String.substring 17 1 s) None]
  else None.

Definition demo_parse_field (field s : string) : option (option string) :=
  if String.eqb s "{}" then Some None
  else if String.prefix (String.append "{" (String.append field ":")) s then
    Some (Some (String.substring (String.length field + 2)
                  (String.length s - String.length field - 3) s))
  else None.

Definition demo_stringify (a : Activity) : string :=
  String.append "{type:" (String.append (type a)
    (String.append ",from:{id:" (String.append (from_id a)
      (String.append "},id:" (String.append (rest a)
        (match attachments a with
         | None => "}"
         | Some _ => ",attachments:[...]}"
         end)))))).

Definition demo_JSON : JSON :=
  {| parse_activities := demo_parse_activities;
     parse_conversationId := demo_parse_field "conversationId";
     parse_Id := demo_parse_field "Id";
     stringify := demo_stringify |}.

Definition demo_options : DirectLineStreamingOptions :=
  {| opt_token := "secret"; opt_conversationId := None;
     opt_domain := "https://example.com/v3/directline"; opt_botAgent := None |}.

(** The controller once the first handshake has succeeded and the queue
    has been flushed. *)
Definition demo_online_state : State :=
  {| connectionStatus := Online; retryCount := 3;
     domain := "https://example.com/v3/directline";
     conversationId := Some "c1"%string; token := Some "secret"%string;
     streamConnection := true; queueActivities := false; activityQueue := [] |}.

Definition demo_online : Machine :=
  {| controller := demo_online_state; connecting := 0; observing := 0; timers := 0;
             refreshing := [] |}.

Definition demo_request (text : string) (extra : list ContentStream) : IReceiveRequest :=
  {| streams := {| stream_contentType := "application/json"; readAsString := text |}
                :: extra |}.

Definition demo_handshake : Handshake :=
  HandshakeResponse
    {| statusCode := 200;
       resp_streams := Some [ {| stream_contentType := "application/json";
                                 readAsString := "{conversationId:c1}" |} ] |}.

(** ** Further methods of [DirectLineStreaming] *)

(** Lines 147-155.  The default parameter [customAgent = ''] stands in
    for an argument that is undefined. *)
Definition getBotAgent (customAgent : option string) : string :=
  let customAgent := match customAgent with Some c => c | None => ""%string end in
  let clientAgent :=
    if negb (String.eqb customAgent "")
    then String.append "directlineStreaming" (String.append "; " customAgent)
    else "directlineStreaming"%string in
  String.append DIRECT_LINE_VERSION
    (String.append " (" (String.append clientAgent ")")).

(** Lines 342-344: [Math.floor(3000 + Math.random() * 12000)].  Doubles
    are rationals; [fl] rounds the exact result of an operation to a
    double, and [random] is what [Math.random()] returned. *)
Definition getRetryDelay (fl : Q -> Q) (random : Q) : Z :=
  Qfloor (fl (3000 + fl (random * 12000))%Q).

(** Line 309: [domain.replace(/^http(s?)/, 'ws$1')].  The group takes the
    [s] when there is one. *)
Definition replace_scheme (domain : string) : string :=
  if String.prefix "https" domain then
    String.append "ws"
      (String.append "s" (String.substring 5 (String.length domain - 5) domain))
  else if String.prefix "http" domain then
    String.append "ws"
      (String.append "" (String.substring 4 (String.length domain - 4) domain))
  else domain.

(** Template-literal and [String()] rendering of a field that may be
    null. *)
Definition render_null (x : option string) : string :=
  match x with
  | None => "null"%string
  | Some v => v
  end.

(** Lines 306-308: [new URLSearchParams(params).toString()], with
    [encode] the form encoding of one value.  [conversationId] is added to
    [params] only when it is truthy. *)
Definition urlSearchParams (encode : string -> string) (s : State) : string :=
  String.append "token="
    (String.append (encode (render_null (token s)))
       (if truthy (conversationId s)
        then String.append "&conversationId=" (encode (render (conversationId s)))
        else ""%string)).

(** Lines 304-309: the URL [connectAsync] hands to the transport, or the
    throw of line 305. *)
Definition wsUrl (encode : string -> string) (s : State) : Completion string :=
  if negb (String.prefix "http" (domain s)) then
    Rejected "Domain must begin with http or https"
  else
    Resolved (String.append (replace_scheme (domain s))
                (String.append "/conversations/connect?" (urlSearchParams encode s))).

(** What the awaited [send] of [postActivity] (line 207) produces. *)
Inductive Sent : Set :=
| SendThrows (e : string)
| SendResponse (resp : IReceiveResponse).

(** Line 200: whether [postActivity] hands the activity to
    [postMessageWithAttachments]. *)
Definition has_attachments (activity : Activity) : bool :=
  String.eqb (type activity) "message"
  && match attachments activity with
     | None => false
     | Some l => (0 <? List.length l)%nat
     end.

Definition decimalZ (z : Z) : string :=
  DecimalString.NilZero.string_of_int (Z.to_int z).

(** Lines 204-224: the plain path of [postActivity], from the answer of
    [send] on.  The [await] of line 207 is outside the [try]: a throw of
    [send] rejects the async function and reaches neither the [catch] nor
    the subscriber.  Inside the [try] every throw is caught: the transport
    is disconnected and the error goes to the subscriber. *)
Definition postActivity_plain `{J : JSON} (sent : Sent)
  : Completion (list Effect * list ResultEvent) :=
  match sent with
  | SendThrows e => Rejected e
  | SendResponse resp =>
      if negb (statusCode resp =? 200) then
        Resolved ([Disconnect],
                  [ResultError (String.append "PostActivity returned "
                                  (decimalZ (statusCode resp)))])
      else
        match resp_streams resp with
        | None =>
            Resolved ([Disconnect], [ResultError "TypeError: resp.streams is undefined"])
        | Some streams =>
            if negb (List.length streams =? 1)%nat then
              Resolved ([Disconnect],
                        [ResultError (String.append "Expected one stream but got "
                                        (decimal (List.length streams)))])
            else
              match streams with
              | [] => Resolved ([Disconnect], [ResultError "unreachable"])
              | stream0 :: _ =>
                  match parse_Id (readAsString stream0) with
                  | None => Resolved ([Disconnect], [ResultError "JSON.parse"])
                  | Some id => Resolved ([], [ResultNext id])
                  end
              end
        end
  end.

(** Lines 204-206: the request of the plain path: verb, path and body. *)
Definition postActivity_request `{J : JSON} (s : State) (activity : Activity)
  : string * string * string :=
  ("POST"%string,
   String.append "/v3/directline/conversations/"
     (String.append (render (conversationId s)) "/activities"),
   stringify activity).

(** ** The test helper [lazyConcat] (test file, lines 69-99)

    An observable is taken with what it emits and how it ends; the
    iterator is the list of what its successive [next()] calls do. *)

Inductive Ending : Set :=
| Completes
| Errors (e : string)
| Silent.                          (* neither completes nor errors *)

Record Source (T : Type) : Type := mkSource {
  emitted : list T;
  ending : Ending
}.
Arguments mkSource {T} emitted ending.
Arguments emitted {T} s.
Arguments ending {T} s.

Inductive Pull (T : Type) : Type :=
| Yields (o : Source T)            (* { done: false, value: o } *)
| Throws (e : string).             (* the generator throws *)
Arguments Yields {T} o.
Arguments Throws {T} e.

Inductive Notification (T : Type) : Type :=
| Next (v : T)
| Error (e : string)
| Complete.
Arguments Next {T} v.
Arguments Error {T} e.
Arguments Complete {T}.

(** [pump]: pull the next observable and forward it; pump again when it
    completes.  The result is what the subscriber receives. *)
Fixpoint lazyConcat {T : Type} (items : list (Pull T)) : list (Notification T) :=
  match items with
  | [] => [Complete]
  | Throws e :: _ => [Error e]
  | Yields o :: items =>
      map Next (emitted o) ++
      match ending o with
      | Completes => lazyConcat items
      | Errors e => [Error e]
      | Silent => []
      end
  end.

(** How many times [iterator.next()] is called. *)
Fixpoint pulls {T : Type} (items : list (Pull T)) : nat :=
  match items with
  | [] => 1
  | Throws _ :: _ => 1
  | Yields o :: items =>
      match ending o with
      | Completes => S (pulls items)
      | _ => 1
      end
  end.

Definition is_terminal {T : Type} (n : Notification T) : bool :=
  match n with Next _ => false | _ => true end.

Fixpoint values {T : Type} (ns : list (Notification T)) : list T :=
  match ns with
  | [] => []
  | Next v :: ns => v :: values ns
  | _ :: ns => values ns
  end.

Definition completes {T : Type} (p : Pull T) : bool :=
  match p with
  | Yields o => match ending o with Completes => true | _ => false end
  | Throws _ => false
  end.

Definition yielded {T : Type} (p : Pull T) : list T :=
  match p with
  | Yields o => emitted o
  | Throws _ => []
  end.

Definition is_AjaxPostRefresh (eff : Effect) : bool :=
  match eff with AjaxPostRefresh _ => true | _ => false end.

Definition is_SetTimeoutRefresh (eff : Effect) : bool :=
  match eff with SetTimeoutRefresh _ => true | _ => false end.

(** Number of [POST /tokens/refresh] requests. *)
Definition posts (effects : list Effect) : nat :=
  List.length (filter is_AjaxPostRefresh effects).

(** Number of refresh ticks scheduled. *)
Definition reschedules (effects : list Effect) : nat :=
  List.length (filter is_SetTimeoutRefresh effects).

Definition is_Request (ev : Event) : bool :=
  match ev with Request _ => true | _ => false end.

(** The events of one call [refreshToken(false, retryCount)] that runs
    through its retries: the wait resolves, the request is made, the reply
    arrives, and after an error that is retried the same happens to the
    new call, whose budget is one less. *)
Fixpoint refresh_events (retryCount : Z) (replies : list AjaxReply) : list Event :=
  match replies with
  | [] => []
  | reply :: replies =>
      RefreshResumed retryCount :: RefreshReplied retryCount reply
      :: refresh_events (retryCount - 1) replies
  end.

(** The continuations of [refreshToken] calls. *)
Definition is_refresh_event (ev : Event) : bool :=
  match ev with RefreshResumed _ | RefreshReplied _ _ => true | _ => false end.

Definition is_Waiting (call : RefreshCall) : bool :=
  match call with Waiting _ => true | _ => false end.

(** The successful replies among the events. *)
Fixpoint refreshed (evs : list Event) : list (option string) :=
  match evs with
  | [] => []
  | RefreshReplied _ (AjaxResponse t) :: evs => t :: refreshed evs
  | _ :: evs => refreshed evs
  end.

(** Requests a call can still make: the one it is about to make, if it
    has not made it, and one per retry left. *)
Definition requests_left (call : RefreshCall) : nat :=
  match call with
  | Waiting retryCount | Ready retryCount => S (Z.to_nat retryCount)
  | InFlight retryCount => Z.to_nat retryCount
  end.

Fixpoint requests_pending (calls : list RefreshCall) : nat :=
  match calls with
  | [] => 0
  | call :: calls => requests_left call + requests_pending calls
  end.

(** Requests the ticks among the events allow: one per tick and one per
    unit of its budget. *)
Fixpoint requests_allowed (evs : list Event) : nat :=
  match evs with
  | [] => 0
  | RefreshTick retryCount :: evs => S (Z.to_nat retryCount) + requests_allowed evs
  | _ :: evs => requests_allowed evs
  end.

(** The state of a controller whose domain does not begin with [http]. *)
Definition never_connected (m : Machine) : Prop :=
  String.prefix "http" (domain (controller m)) = false /\
  connecting m = 0%nat /\ observing m = 0%nat /\
  streamConnection (controller m) = false /\
  queueActivities (controller m) = true /\
  connectionStatus (controller m) <> Online /\
  forallb is_Waiting (refreshing m) = true.

(** * Properties *)

(** ** The inbound handler *)

Section InboundHandler.
Context `{J : JSON}.

(** The [while] loop of lines 65-69 appends one attachment per stream, in
    stream order, after the ones already there. *)
Lemma fold_push_attachment (streams : list ContentStream) (spread : list Media) :
  fold_left StreamHandler.push_attachment streams spread
  = spread ++ map spec_attachment streams.
Proof.
  revert spread.
  induction streams as [|stream streams IH]; intros spread; simpl.
  - now rewrite app_nil_r.
  - rewrite IH. unfold StreamHandler.push_attachment, spec_attachment.
    now rewrite <- app_assoc.
Qed.

(** An activity that carries an [attachments] array gets one attachment
    per extra stream, in stream order, after the ones it had. *)
Lemma materialize_appends (activity : Activity) (pre : list Media)
  (streams : list ContentStream) :
  attachments activity = Some pre ->
  streams <> [] ->
  StreamHandler.materialize activity streams
  = Resolved {| type := type activity; from_id := from_id activity;
                attachments := Some (pre ++ map spec_attachment streams);
                rest := rest activity |}.
Proof.
  intros Hpre Hne. unfold StreamHandler.materialize.
  destruct streams as [|stream streams]; [congruence|].
  cbn [List.length Nat.ltb Nat.leb]. rewrite Hpre.
  now rewrite fold_push_attachment.
Qed.

(** With no extra stream the activity is left untouched, whether or not
    it has an [attachments] field. *)
Lemma materialize_no_stream (activity : Activity) :
  StreamHandler.materialize activity [] = Resolved activity.
Proof. reflexivity. Qed.

(** Spreading an absent [attachments] field throws. *)
Lemma materialize_throws (activity : Activity) (streams : list ContentStream) :
  attachments activity = None ->
  streams <> [] ->
  StreamHandler.materialize activity streams
  = Rejected "TypeError: activity.attachments is not iterable".
Proof.
  intros Hnone Hne. unfold StreamHandler.materialize.
  destruct streams as [|stream streams]; [congruence|].
  cbn [List.length Nat.ltb Nat.leb]. now rewrite Hnone.
Qed.

(** [materialize] throws in that case only. *)
Lemma materialize_resolves (activity : Activity) (streams : list ContentStream) :
  streams = [] \/ attachments activity <> None ->
  exists activity', StreamHandler.materialize activity streams = Resolved activity'.
Proof.
  intros [-> | Hsome].
  - now exists activity.
  - unfold StreamHandler.materialize.
    destruct (0 <? List.length streams)%nat; [|now eexists].
    destruct (attachments activity); [now eexists | congruence].
Qed.

(** The request whose single activity has no [attachments] field and
    which carries extra streams: the handler throws before it routes the
    activity or builds a response. *)
Lemma processRequest_throws (s : State) (stream0 : ContentStream)
  (activity : Activity) (extra : list ContentStream) :
  parse_activities (readAsString stream0) = Some [activity] ->
  attachments activity = None ->
  extra <> [] ->
  StreamHandler.processRequest s {| streams := stream0 :: extra |}
  = (s, [], Rejected "TypeError: activity.attachments is not iterable").
Proof.
  intros Hparse Hnone Hne. unfold StreamHandler.processRequest. cbn [streams].
  rewrite Hparse. cbn [List.length Nat.eqb negb].
  now rewrite (materialize_throws _ _ Hnone Hne).
Qed.

(** A set with a number of activities other than one: the handler errors
    the subscriber and answers 500. *)
Lemma processRequest_malformed (s : State) (stream0 : ContentStream)
  (activities : list Activity) (extra : list ContentStream) :
  parse_activities (readAsString stream0) = Some activities ->
  List.length activities <> 1%nat ->
  StreamHandler.processRequest s {| streams := stream0 :: extra |}
  = (s, [SubscriberError "there should be exactly one activity"], Resolved 500).
Proof.
  intros Hparse Hlen. unfold StreamHandler.processRequest. cbn [streams].
  rewrite Hparse.
  destruct (Nat.eqb_spec (List.length activities) 1) as [Heq|Hneq]; [contradiction|].
  reflexivity.
Qed.

(** A set with one activity whose attachments materialize: the activity
    is queued or published, and the handler answers 200. *)
Lemma processRequest_single (s : State) (stream0 : ContentStream)
  (activity activity' : Activity) (extra : list ContentStream) :
  parse_activities (readAsString stream0) = Some [activity] ->
  StreamHandler.materialize activity extra = Resolved activity' ->
  StreamHandler.processRequest s {| streams := stream0 :: extra |}
  = if queueActivities s
    then (set_activityQueue (activityQueue s ++ [activity']) s, [], Resolved 200)
    else (s, [SubscriberNext activity'], Resolved 200).
Proof.
  intros Hparse Hmat. unfold StreamHandler.processRequest. cbn [streams].
  rewrite Hparse. cbn [List.length Nat.eqb negb]. now rewrite Hmat.
Qed.

(** [routed] names exactly the requests that reach line 74. *)
Lemma processRequest_routed (s : State) (request : IReceiveRequest) (a : Activity) :
  routed request = Some a ->
  StreamHandler.processRequest s request
  = if queueActivities s
    then (set_activityQueue (activityQueue s ++ [a]) s, [], Resolved 200)
    else (s, [SubscriberNext a], Resolved 200).
Proof.
  unfold routed. destruct request as [l]. cbn [streams].
  destruct l as [|stream0 extra]; [discriminate|].
  destruct (parse_activities (readAsString stream0)) as [acts|] eqn:Hparse;
    [|discriminate].
  destruct acts as [|activity [|? ?]]; try discriminate.
  destruct (StreamHandler.materialize activity extra) as [a'|e] eqn:Hmat;
    [|discriminate].
  intros [= <-]. now apply processRequest_single with (activity := activity).
Qed.

(** A request that does not reach line 74 neither queues nor publishes;
    at most it errors the subscriber. *)
Lemma processRequest_not_routed (s : State) (request : IReceiveRequest) :
  routed request = None ->
  exists effects r,
    StreamHandler.processRequest s request = (s, effects, r) /\
    (effects = [] \/
     effects = [SubscriberError "there should be exactly one activity"]).
Proof.
  unfold routed, StreamHandler.processRequest. destruct request as [l]. cbn [streams].
  destruct l as [|stream0 extra]; [now eexists _, _; split; [|left]|].
  destruct (parse_activities (readAsString stream0)) as [acts|];
    [|now eexists _, _; split; [|left]].
  destruct acts as [|activity [|? ?]];
    try (intros _; now eexists _, _; split; [|right]).
  cbn [List.length Nat.eqb negb].
  destruct (StreamHandler.materialize activity extra); [discriminate|].
  intros _. now eexists _, _; split; [|left].
Qed.

End InboundHandler.

(** ** Frames: what each piece of the controller leaves alone *)

Lemma nexts_app (l1 l2 : list Effect) : nexts (l1 ++ l2) = nexts l1 ++ nexts l2.
Proof.
  induction l1 as [|eff l1 IH]; [reflexivity|].
  destruct eff; simpl; now rewrite ?IH.
Qed.

Lemma statuses_app (l1 l2 : list Effect) :
  statuses (l1 ++ l2) = statuses l1 ++ statuses l2.
Proof.
  induction l1 as [|eff l1 IH]; [reflexivity|].
  destruct eff; simpl; now rewrite ?IH.
Qed.

Lemma scheduled_app (l1 l2 : list Effect) :
  scheduled (l1 ++ l2) = (scheduled l1 + scheduled l2)%nat.
Proof. unfold scheduled. now rewrite filter_app, length_app. Qed.

Lemma disconnects_app (l1 l2 : list Effect) :
  disconnects (l1 ++ l2) = (disconnects l1 + disconnects l2)%nat.
Proof. unfold disconnects. now rewrite filter_app, length_app. Qed.

Lemma nexts_map_SubscriberNext (q : list Activity) : nexts (map SubscriberNext q) = q.
Proof. induction q as [|a q IH]; simpl; congruence. Qed.

Lemma statuses_map_SubscriberNext (q : list Activity) :
  statuses (map SubscriberNext q) = [].
Proof. induction q as [|a q IH]; simpl; congruence. Qed.

Lemma scheduled_map_SubscriberNext (q : list Activity) :
  scheduled (map SubscriberNext q) = 0%nat.
Proof. induction q as [|a q IH]; simpl; auto. Qed.

Lemma disconnects_map_SubscriberNext (q : list Activity) :
  disconnects (map SubscriberNext q) = 0%nat.
Proof. induction q as [|a q IH]; simpl; auto. Qed.

(** What a call of [refreshToken] does up to its wait. *)
Lemma refreshToken_cases (s : State) (retryCount0 : Z) :
  (connectionStatus s = Ended /\
   DirectLineStreaming.refreshToken s false retryCount0 = ([], None))
  \/
  (connectionStatus s = Online /\
   DirectLineStreaming.refreshToken s false retryCount0
   = ([], Some (Ready retryCount0)))
  \/
  (connectionStatus s <> Ended /\ connectionStatus s <> Online /\
   DirectLineStreaming.refreshToken s false retryCount0
   = ([], Some (Waiting retryCount0))).
Proof.
  unfold DirectLineStreaming.refreshToken.
  destruct (connectionStatus s); cbn [ConnectionStatus_eqb]; auto;
    right; right; repeat split; auto; discriminate.
Qed.

(** The callbacks of the refresh request touch the token only, and
    publish neither a status nor an activity nor an error, and schedule
    no reconnect. *)
Lemma refreshToken_subscriber_frame (s s' : State) (retryCount0 : Z)
  (reply : AjaxReply) (effects : list Effect) (call : option RefreshCall) :
  DirectLineStreaming.refreshToken_subscriber s retryCount0 reply = (s', effects, call) ->
  activityQueue s' = activityQueue s /\
  queueActivities s' = queueActivities s /\
  retryCount s' = retryCount s /\
  connectionStatus s' = connectionStatus s /\
  streamConnection s' = streamConnection s /\
  nexts effects = [] /\ statuses effects = [] /\ scheduled effects = 0%nat.
Proof.
  unfold DirectLineStreaming.refreshToken_subscriber. intros H.
  destruct reply as [t|status].
  { inversion H; subst; clear H. now repeat split. }
  destruct ((status =? 403) || (status =? 404)).
  { inversion H; subst; clear H. now repeat split. }
  destruct (retryCount0 >? 0).
  - destruct (refreshToken_cases s (retryCount0 - 1)) as [(_ & E)|[(_ & E)|(_ & _ & E)]];
      rewrite E in H; inversion H; subst; clear H; now repeat split.
  - inversion H; subst; clear H. now repeat split.
Qed.

(** The four shapes of a disconnection callback. *)
Lemma disconnectionHandler_cases (s : State) (e : string) :
  (connectionStatus s = Ended /\
   DirectLineStreaming.disconnectionHandler s e = (s, []))
  \/
  (connectionStatus s <> Ended /\ truthy (token s) = false /\
   DirectLineStreaming.disconnectionHandler s e
   = (s, [SubscriberError "Token unavailable"]))
  \/
  (connectionStatus s <> Ended /\ truthy (token s) = true /\ retryCount s - 1 > 0 /\
   DirectLineStreaming.disconnectionHandler s e
   = (set_connectionStatus Connecting (set_retryCount (retryCount s - 1) s),
      [StatusNext Connecting; SetTimeoutConnect]))
  \/
  (connectionStatus s <> Ended /\ truthy (token s) = true /\ retryCount s - 1 <= 0 /\
   DirectLineStreaming.disconnectionHandler s e
   = (set_retryCount (retryCount s - 1) s, [SubscriberError e])).
Proof.
  unfold DirectLineStreaming.disconnectionHandler.
  destruct (connectionStatus s) eqn:Hcs; cbn [ConnectionStatus_eqb];
    try (left; now split);
    (right; destruct (truthy (token s)) eqn:Ht; cbn [negb];
     [ right; cbn [retryCount set_retryCount];
       destruct (Z.gtb_spec (retryCount s - 1) 0);
       [ left | right ]; repeat split; auto; try congruence; lia
     | left; repeat split; auto; congruence ]).
Qed.

(** What an answer of the transport does to a suspended [connectAsync]. *)
Lemma connectAsync_response_cases `{J : JSON} (s : State) (h : Handshake) :
  DirectLineStreaming.connectAsync_response s h = (s, [Disconnect], false)
  \/
  exists conversationId0,
    DirectLineStreaming.connectAsync_response s h
    = (set_connectionStatus Online (set_conversationId conversationId0 s),
       [StatusNext Online], true).
Proof.
  unfold DirectLineStreaming.connectAsync_response.
  destruct h as [e|response]; [now left|].
  destruct (negb (statusCode response =? 200)); [now left|].
  destruct (resp_streams response) as [l|]; [|now left].
  destruct (negb (List.length l =? 1)%nat); [now left|].
  destruct l as [|stream0 l]; [now left|].
  destruct (parse_conversationId (readAsString stream0)) as [c|]; [|now left].
  right. now exists c.
Qed.

Lemma connectAsync_start_cases (s : State) :
  DirectLineStreaming.connectAsync_start s
  = (s, Rejected "Domain must begin with http or https")
  \/
  DirectLineStreaming.connectAsync_start s
  = (set_queueActivities true (set_streamConnection true s), Resolved tt).
Proof.
  unfold DirectLineStreaming.connectAsync_start.
  destruct (negb (String.prefix "http" (domain s))); [now left | now right].
Qed.

(** ** Runs of the scheduler *)

Section Scheduler.
Context `{J : JSON}.

(** Induction over a run, one step at a time. *)
Lemma run_induction (P : Machine -> list Event -> Machine -> list Effect -> Prop) :
  (forall m, P m [] m []) ->
  (forall m ev m1 o1 evs m2 o2,
      step m ev = Some (m1, o1) -> run m1 evs = Some (m2, o2) ->
      P m1 evs m2 o2 -> P m (ev :: evs) m2 (o1 ++ o2)) ->
  forall evs m m' out, run m evs = Some (m', out) -> P m evs m' out.
Proof.
  intros Hnil Hcons. induction evs as [|ev evs IH]; intros m m' out Hrun.
  - simpl in Hrun. inversion Hrun; subst. apply Hnil.
  - simpl in Hrun.
    destruct (step m ev) as [[m1 o1]|] eqn:Hstep; [|discriminate].
    destruct (run m1 evs) as [[m2 o2]|] eqn:Hrest; [|discriminate].
    inversion Hrun; subst. eapply Hcons; eauto.
Qed.

Lemma run_app (evs1 evs2 : list Event) (m : Machine) :
  run m (evs1 ++ evs2)
  = match run m evs1 with
    | None => None
    | Some (m1, o1) =>
        match run m1 evs2 with
        | None => None
        | Some (m2, o2) => Some (m2, o1 ++ o2)
        end
    end.
Proof.
  revert m. induction evs1 as [|ev evs1 IH]; intros m; simpl.
  - destruct (run m evs2) as [[m2 o2]|]; reflexivity.
  - destruct (step m ev) as [[m1 o1]|]; [|reflexivity].
    rewrite IH. destruct (run m1 evs1) as [[m1' o1']|]; [|reflexivity].
    destruct (run m1' evs2) as [[m2 o2]|]; [|reflexivity].
    now rewrite app_assoc.
Qed.

End Scheduler.

(** Splits a step into the cases of the piece of code it runs. *)
Ltac step_cases H :=
  unfold step, DirectLineStreaming.reconnect, DirectLineStreaming.end_,
         DirectLineStreaming.connectAsync_resume, StreamHandler.flush,
         DirectLineStreaming.refreshToken_request in H;
  repeat
    match type of H with
    | context [DirectLineStreaming.disconnectionHandler ?s ?e] =>
        let E := fresh "Hhandler" in
        destruct (disconnectionHandler_cases s e)
          as [(? & E)|[(? & ? & E)|[(? & ? & ? & E)|(? & ? & ? & E)]]];
        rewrite E in H; clear E
    | context [DirectLineStreaming.connectAsync_response ?s ?h] =>
        let E := fresh "Hresponse" in
        destruct (connectAsync_response_cases s h) as [E|(? & E)];
        rewrite E in H; clear E
    | context [DirectLineStreaming.connectAsync_start ?s] =>
        let E := fresh "Hstart" in
        destruct (connectAsync_start_cases s) as [E|E];
        rewrite E in H; clear E
    | context [DirectLineStreaming.refreshToken_subscriber ?s ?rc ?reply] =>
        let E := fresh "Hrefresh" in
        destruct (DirectLineStreaming.refreshToken_subscriber s rc reply)
          as [[? ?] ?] eqn:E;
        apply refreshToken_subscriber_frame in E;
        destruct E as (? & ? & ? & ? & ? & ? & ? & ?)
    | context [DirectLineStreaming.refreshToken ?s false ?rc] =>
        let E := fresh "Htick" in
        destruct (refreshToken_cases s rc) as [(? & E)|[(? & E)|(? & ? & E)]];
        rewrite E in H; clear E
    | context [match take ?c ?l with _ => _ end] => destruct (take c l) eqn:?
    | context [StreamHandler.processRequest ?s ?r] =>
        let E := fresh "Hrouted" in
        let E' := fresh "Hrequest" in
        destruct (routed r) as [?|] eqn:E;
        [ rewrite (processRequest_routed s r _ E) in H;
          destruct (queueActivities s) eqn:?
        | destruct (processRequest_not_routed s r E) as (? & ? & E' & [? | ?]);
          rewrite E' in H; clear E' ]
    | context [match connecting ?m with _ => _ end] => destruct (connecting m) eqn:?
    | context [match observing ?m with _ => _ end] => destruct (observing m) eqn:?
    | context [match timers ?m with _ => _ end] => destruct (timers m) eqn:?
    | context [if streamConnection ?s then _ else _] =>
        destruct (streamConnection s) eqn:?
    end;
  try discriminate H;
  inversion H; subst; clear H;
  cbn [controller connecting observing timers refreshing connectionStatus
       retryCount domain
       conversationId token streamConnection queueActivities activityQueue
       set_connectionStatus set_retryCount set_conversationId set_token
       set_streamConnection set_queueActivities set_activityQueue] in *;
  try match goal with
      | E : activityQueue _ = activityQueue (controller _) |- _ => rewrite ?E
      end;
  try match goal with
      | E : queueActivities _ = queueActivities (controller _) |- _ => rewrite ?E
      end;
  try match goal with
      | E : retryCount _ = retryCount (controller _) |- _ => rewrite ?E
      end;
  try match goal with
      | E : connectionStatus _ = connectionStatus (controller _) |- _ => rewrite ?E
      end;
  try match goal with
      | E : streamConnection _ = streamConnection (controller _) |- _ => rewrite ?E
      end;
  try match goal with
      | E : nexts ?o = [] |- _ => rewrite ?E
      end;
  try match goal with
      | E : statuses ?o = [] |- _ => rewrite ?E
      end;
  try match goal with
      | E : scheduled ?o = 0%nat |- _ => rewrite ?E
      end.

Section Invariants.
Context `{J : JSON}.

Lemma step_queue_gated (m m' : Machine) (ev : Event) (out : list Effect) :
  step m ev = Some (m', out) -> queue_gated m -> queue_gated m'.
Proof.
  unfold queue_gated. intros Hstep Hinv.
  destruct ev; step_cases Hstep; auto; try congruence.
Qed.

Lemma step_fifo (m m' : Machine) (ev : Event) (out : list Effect) :
  step m ev = Some (m', out) -> queue_gated m ->
  activityQueue (controller m) ++ arrivals [ev]
  = nexts out ++ activityQueue (controller m').
Proof.
  unfold queue_gated. intros Hstep Hinv.
  destruct ev; cbn [arrivals]; step_cases Hstep;
    rewrite ?app_nil_r, ?nexts_map_SubscriberNext; cbn [nexts app];
    rewrite ?app_nil_r;
    try reflexivity; try congruence.
  rewrite Hinv by reflexivity. reflexivity.
Qed.

Lemma step_onlines (m m' : Machine) (ev : Event) (out : list Effect) :
  step m ev = Some (m', out) ->
  (onlines out + observing m = observing m' + flushes [ev])%nat.
Proof.
  intros Hstep. unfold onlines, flushes.
  destruct ev; cbn [filter is_OnlineObserved List.length]; step_cases Hstep;
    rewrite ?statuses_map_SubscriberNext; cbn; try lia.
Qed.

Lemma step_connectings (m m' : Machine) (ev : Event) (out : list Effect) :
  step m ev = Some (m', out) ->
  (connectings out + timers m = timers m' + retries [ev])%nat /\
  scheduled out = connectings out.
Proof.
  intros Hstep. unfold connectings, retries.
  destruct ev; cbn [filter is_RetryTimeout List.length]; step_cases Hstep;
    rewrite ?statuses_map_SubscriberNext, ?scheduled_map_SubscriberNext;
    cbn; try lia.
Qed.

(** Without a flush the counter only goes down, and every reconnect the
    callback schedules uses up one unit of the budget. *)
Lemma step_budget (m m' : Machine) (ev : Event) (out : list Effect) :
  step m ev = Some (m', out) -> is_OnlineObserved ev = false ->
  (scheduled out + budget (controller m') <= budget (controller m))%nat /\
  retryCount (controller m') <= retryCount (controller m).
Proof.
  intros Hstep Hev. unfold budget.
  destruct ev; try discriminate Hev; step_cases Hstep;
    rewrite ?scheduled_map_SubscriberNext; cbn; try lia.
Qed.

(** The counter never exceeds [MAX_RETRY_COUNT]. *)
Lemma step_retryCount_max (m m' : Machine) (ev : Event) (out : list Effect) :
  step m ev = Some (m', out) ->
  retryCount (controller m) <= MAX_RETRY_COUNT ->
  retryCount (controller m') <= MAX_RETRY_COUNT.
Proof.
  intros Hstep Hle.
  destruct ev; step_cases Hstep; unfold MAX_RETRY_COUNT in *; cbn; try lia.
Qed.


End Invariants.

Section Runs.
Context `{J : JSON}.

Lemma arrivals_cons (ev : Event) (evs : list Event) :
  arrivals (ev :: evs) = arrivals [ev] ++ arrivals evs.
Proof.
  destruct ev; try reflexivity.
  cbn [arrivals]. destruct (routed request); reflexivity.
Qed.

Lemma onlines_app (l1 l2 : list Effect) :
  onlines (l1 ++ l2) = (onlines l1 + onlines l2)%nat.
Proof. unfold onlines. now rewrite statuses_app, filter_app, length_app. Qed.

Lemma connectings_app (l1 l2 : list Effect) :
  connectings (l1 ++ l2) = (connectings l1 + connectings l2)%nat.
Proof. unfold connectings. now rewrite statuses_app, filter_app, length_app. Qed.

Lemma flushes_cons (ev : Event) (evs : list Event) :
  flushes (ev :: evs) = (flushes [ev] + flushes evs)%nat.
Proof. unfold flushes. cbn [filter]. destruct (is_OnlineObserved ev); reflexivity. Qed.

Lemma retries_cons (ev : Event) (evs : list Event) :
  retries (ev :: evs) = (retries [ev] + retries evs)%nat.
Proof. unfold retries. cbn [filter]. destruct (is_RetryTimeout ev); reflexivity. Qed.

Lemma flushes_zero_cons (ev : Event) (evs : list Event) :
  flushes (ev :: evs) = 0%nat -> is_OnlineObserved ev = false /\ flushes evs = 0%nat.
Proof.
  unfold flushes. cbn [filter]. destruct (is_OnlineObserved ev); cbn; [lia|auto].
Qed.

Lemma run_queue_gated (evs : list Event) (m m' : Machine) (out : list Effect) :
  run m evs = Some (m', out) -> queue_gated m -> queue_gated m'.
Proof.
  revert evs m m' out.
  apply (run_induction (fun m _ m' _ => queue_gated m -> queue_gated m')); auto.
  intros m ev m1 o1 evs m2 o2 Hstep _ IH Hinv.
  apply IH. eapply step_queue_gated; eauto.
Qed.

(** Over a whole run: what was queued at the start, then the arrivals of
    the run in order, is what the run published followed by what is
    still queued. *)
Lemma run_fifo (evs : list Event) (m m' : Machine) (out : list Effect) :
  run m evs = Some (m', out) -> queue_gated m ->
  activityQueue (controller m) ++ arrivals evs
  = nexts out ++ activityQueue (controller m').
Proof.
  revert evs m m' out.
  apply (run_induction (fun m evs m' out =>
    queue_gated m ->
    activityQueue (controller m) ++ arrivals evs
    = nexts out ++ activityQueue (controller m'))).
  - intros m _. cbn. now rewrite app_nil_r.
  - intros m ev m1 o1 evs m2 o2 Hstep _ IH Hinv.
    rewrite arrivals_cons, nexts_app, app_assoc.
    rewrite (step_fifo _ _ _ _ Hstep Hinv), <- !app_assoc.
    f_equal. apply IH. eapply step_queue_gated; eauto.
Qed.

Lemma run_onlines (evs : list Event) (m m' : Machine) (out : list Effect) :
  run m evs = Some (m', out) ->
  (onlines out + observing m = observing m' + flushes evs)%nat.
Proof.
  revert evs m m' out.
  apply (run_induction (fun m evs m' out =>
    (onlines out + observing m = observing m' + flushes evs)%nat)).
  - intros m. cbn. lia.
  - intros m ev m1 o1 evs m2 o2 Hstep _ IH.
    rewrite onlines_app, flushes_cons.
    pose proof (step_onlines _ _ _ _ Hstep). lia.
Qed.

Lemma run_connectings (evs : list Event) (m m' : Machine) (out : list Effect) :
  run m evs = Some (m', out) ->
  (connectings out + timers m = timers m' + retries evs)%nat /\
  scheduled out = connectings out.
Proof.
  revert evs m m' out.
  apply (run_induction (fun m evs m' out =>
    (connectings out + timers m = timers m' + retries evs)%nat /\
    scheduled out = connectings out)).
  - intros m. cbn. lia.
  - intros m ev m1 o1 evs m2 o2 Hstep _ IH.
    rewrite connectings_app, scheduled_app, retries_cons.
    pose proof (step_connectings _ _ _ _ Hstep). lia.
Qed.

Lemma run_budget (evs : list Event) (m m' : Machine) (out : list Effect) :
  run m evs = Some (m', out) -> flushes evs = 0%nat ->
  (scheduled out + budget (controller m') <= budget (controller m))%nat /\
  retryCount (controller m') <= retryCount (controller m).
Proof.
  revert evs m m' out.
  apply (run_induction (fun m evs m' out =>
    flushes evs = 0%nat ->
    (scheduled out + budget (controller m') <= budget (controller m))%nat /\
    retryCount (controller m') <= retryCount (controller m))).
  - intros m _. cbn. lia.
  - intros m ev m1 o1 evs m2 o2 Hstep _ IH Hfl.
    apply flushes_zero_cons in Hfl. destruct Hfl as [Hev Hfl].
    rewrite scheduled_app.
    pose proof (step_budget _ _ _ _ Hstep Hev). specialize (IH Hfl). lia.
Qed.

Lemma run_retryCount_max (evs : list Event) (m m' : Machine) (out : list Effect) :
  run m evs = Some (m', out) ->
  retryCount (controller m) <= MAX_RETRY_COUNT ->
  retryCount (controller m') <= MAX_RETRY_COUNT.
Proof.
  revert evs m m' out.
  apply (run_induction (fun m _ m' _ =>
    retryCount (controller m) <= MAX_RETRY_COUNT ->
    retryCount (controller m') <= MAX_RETRY_COUNT)); auto.
  intros m ev m1 o1 evs m2 o2 Hstep _ IH Hle.
  apply IH. eapply step_retryCount_max; eauto.
Qed.





(** The machine right after the subscription. *)
Lemma init_facts (options : DirectLineStreamingOptions) :
  queue_gated (init options) /\
  observing (init options) = 0%nat /\
  timers (init options) = 0%nat /\
  retryCount (controller (init options)) = MAX_RETRY_COUNT /\
  connectionStatus (controller (init options)) = Uninitialized /\
  activityQueue (controller (init options)) = [].
Proof.
  unfold init, subscribe, queue_gated, DirectLineStreaming.constructor.
  cbn [fst].
  match goal with
  | |- context [DirectLineStreaming.connectAsync_start ?s] =>
      destruct (connectAsync_start_cases s) as [-> | ->]
  end; cbn; repeat split; auto; discriminate.
Qed.

End Runs.

(** ** Startup gating *)

Section StartupGating.
Context `{J : JSON}.

Lemma onlines_positive (out : list Effect) :
  (0 < onlines out)%nat -> In (StatusNext Online) out.
Proof.
  unfold onlines. induction out as [|eff out IH]; cbn; [lia|].
  destruct eff as [cs| | | | | |]; cbn; auto.
  destruct cs; cbn; auto.
Qed.

(** Once a handshake has published [Online], its flush can run. *)
Lemma flush_follows_online (m m' : Machine) (h : Handshake) :
  step m (Answered h) = Some (m', [StatusNext Online]) ->
  exists m'' : Machine,
    step m' OnlineObserved
    = Some (m'', map SubscriberNext (activityQueue (controller m'))).
Proof.
  intros Hstep. cbn [step] in Hstep.
  destruct (connecting m); [discriminate|].
  destruct (connectAsync_response_cases (controller m) h) as [E|(c & E)];
    rewrite E in Hstep; inversion Hstep; subst; clear Hstep.
  cbn [step observing]. rewrite Nat.add_1_r.
  unfold DirectLineStreaming.connectAsync_resume, StreamHandler.flush.
  eexists. reflexivity.
Qed.

(** C1.  While [queueActivities] is true an inbound activity is appended
    to the queue and not published.  A handshake that publishes [Online]
    is followed by its flush.  In every run of the controller that
    contains a flush: [Online] was published before the flush (once more
    than there were earlier flushes); the flush publishes exactly the
    activities that had arrived and were not yet published, in arrival
    order and once each, and leaves the queue empty and [queueActivities]
    false; the activities that arrive later are published after them. *)
Theorem startup_queue_flushed_in_order
  (options : DirectLineStreamingOptions) (evs1 evs2 : list Event)
  (m : Machine) (out : list Effect) :
  run (init options) (evs1 ++ OnlineObserved :: evs2) = Some (m, out) ->
  (forall (s : State) (request : IReceiveRequest) (a : Activity),
      routed request = Some a -> queueActivities s = true ->
      StreamHandler.processRequest s request
      = (set_activityQueue (activityQueue s ++ [a]) s, [], Resolved 200)) /\
  (forall (m0 m0' : Machine) (h : Handshake),
      step m0 (Answered h) = Some (m0', [StatusNext Online]) ->
      exists m0'' : Machine,
        step m0' OnlineObserved
        = Some (m0'', map SubscriberNext (activityQueue (controller m0')))) /\
  exists (m1 : Machine) (out1 : list Effect) (m2 : Machine) (out2 : list Effect),
    run (init options) evs1 = Some (m1, out1) /\
    step m1 OnlineObserved
    = Some (m2, map SubscriberNext (activityQueue (controller m1))) /\
    run m2 evs2 = Some (m, out2) /\
    out = out1 ++ map SubscriberNext (activityQueue (controller m1)) ++ out2 /\
    In (StatusNext Online) out1 /\ (flushes evs1 < onlines out1)%nat /\
    nexts out1 ++ activityQueue (controller m1) = arrivals evs1 /\
    activityQueue (controller m2) = [] /\
    queueActivities (controller m2) = false /\
    nexts out2 ++ activityQueue (controller m) = arrivals evs2 /\
    nexts out ++ activityQueue (controller m)
    = arrivals (evs1 ++ OnlineObserved :: evs2).
Proof.
  intros Hrun. pose proof Hrun as Hrun0. split.
  { intros s request a Hrouted Hq.
    rewrite (processRequest_routed s request a Hrouted). now rewrite Hq. }
  split; [exact flush_follows_online|].
  rewrite run_app in Hrun.
  destruct (run (init options) evs1) as [[m1 out1]|] eqn:Hrun1; [|discriminate].
  cbn [run] in Hrun.
  destruct (step m1 OnlineObserved) as [[m2 o]|] eqn:Hstep; [|discriminate].
  destruct (run m2 evs2) as [[m3 out2]|] eqn:Hrun2; [|discriminate].
  inversion Hrun; subst m3 out; clear Hrun.
  destruct (init_facts options) as (Hgate & Hobs & _ & _ & _ & Hq0).
  pose proof (run_queue_gated _ _ _ _ Hrun1 Hgate) as Hgate1.
  pose proof (run_fifo _ _ _ _ Hrun1 Hgate) as Hfifo1.
  pose proof (run_onlines _ _ _ _ Hrun1) as Hon1.
  pose proof (step_queue_gated _ _ _ _ Hstep Hgate1) as Hgate2.
  pose proof (run_fifo _ _ _ _ Hrun2 Hgate2) as Hfifo2.
  rewrite Hq0 in Hfifo1. cbn [app] in Hfifo1. rewrite Hobs in Hon1.
  assert (o = map SubscriberNext (activityQueue (controller m1)) /\
          activityQueue (controller m2) = [] /\
          queueActivities (controller m2) = false /\
          (0 < observing m1)%nat) as (-> & Hq2 & Hqa2 & Hobs1).
  { cbn [step] in Hstep. destruct (observing m1) eqn:Hobs1; [discriminate|].
    unfold DirectLineStreaming.connectAsync_resume, StreamHandler.flush in Hstep.
    inversion Hstep; subst. cbn. repeat split; auto; lia. }
  rewrite Hq2 in Hfifo2. cbn [app] in Hfifo2.
  pose proof (run_fifo _ _ _ _ Hrun0 Hgate) as Hfifo.
  rewrite Hq0 in Hfifo. cbn [app] in Hfifo.
  exists m1, out1, m2, out2.
  repeat split; auto.
  - apply onlines_positive. lia.
  - lia.
Qed.

End StartupGating.

(** The queued-inbound scenario of the spec: A arrives before the
    handshake is answered, B between the answer and the flush, C after
    the flush. *)
Lemma startup_queue_flushed_in_order_witness :
  run (J := demo_JSON) (init demo_options)
      ([Request (demo_request "{activities:[{id:A}]}" []);
        Answered demo_handshake;
        Request (demo_request "{activities:[{id:B}]}" [])]
       ++ OnlineObserved :: [Request (demo_request "{activities:[{id:C}]}" [])])
  = Some (demo_online,
          [StatusNext Online;
           SubscriberNext (demo_activity "A" None);
           SubscriberNext (demo_activity "B" None);
           SubscriberNext (demo_activity "C" None)]) /\
  exists (m1 : Machine) (out1 : list Effect),
    In (StatusNext Online) out1 /\
    nexts out1 ++ activityQueue (controller m1)
    = [demo_activity "A" None; demo_activity "B" None].
Proof.
  assert (run (J := demo_JSON) (init demo_options)
            ([Request (demo_request "{activities:[{id:A}]}" []);
              Answered demo_handshake;
              Request (demo_request "{activities:[{id:B}]}" [])]
             ++ OnlineObserved :: [Request (demo_request "{activities:[{id:C}]}" [])])
          = Some (demo_online,
                  [StatusNext Online;
                   SubscriberNext (demo_activity "A" None);
                   SubscriberNext (demo_activity "B" None);
                   SubscriberNext (demo_activity "C" None)])) as Hrun
    by (vm_compute; reflexivity).
  split; [exact Hrun|].
  destruct (startup_queue_flushed_in_order (J := demo_JSON) demo_options _ _ _ _ Hrun)
    as (_ & _ & m1 & out1 & m2 & out2 & _ & _ & _ & _ & Hin & _ & Hfifo & _).
  exists m1, out1. split; [exact Hin|].
  vm_compute in Hfifo. exact Hfifo.
Defined.

(** ** Retry budget *)

Section RetryBudget.
Context `{J : JSON}.

(** One disconnection callback on a controller that has not ended and
    still has a token: the counter goes down by one, and a reconnect is
    scheduled exactly when the counter is still positive; otherwise the
    error is signalled. *)
Lemma disconnectionHandler_decrements (s : State) (e : string) :
  connectionStatus s <> Ended -> truthy (token s) = true ->
  retryCount (fst (DirectLineStreaming.disconnectionHandler s e)) = retryCount s - 1 /\
  (retryCount s - 1 > 0 ->
   snd (DirectLineStreaming.disconnectionHandler s e)
   = [StatusNext Connecting; SetTimeoutConnect]) /\
  (retryCount s - 1 <= 0 ->
   snd (DirectLineStreaming.disconnectionHandler s e) = [SubscriberError e]).
Proof.
  intros Hcs Htok.
  destruct (disconnectionHandler_cases s e)
    as [(? & E)|[(? & ? & E)|[(? & ? & ? & E)|(? & ? & ? & E)]]];
    rewrite E; cbn; try congruence; repeat split; auto; intros; lia.
Qed.

(** C2.  The counter starts at [MAX_RETRY_COUNT] = 3 and every flush
    that completes a successful handshake sets it back to 3.  A
    disconnection callback takes one off the counter and schedules at most
    one reconnect handshake, and signals the error instead once the
    counter has reached zero.  So between two resets the controller
    schedules at most [MAX_RETRY_COUNT] reconnect handshakes (in fact at
    most [MAX_RETRY_COUNT - 1]), and starts no more of them than were
    scheduled or already pending. *)
Theorem retry_budget_bounded
  (options : DirectLineStreamingOptions) (evs1 evs2 : list Event)
  (m1 m2 : Machine) (out1 out2 : list Effect) :
  run (init options) evs1 = Some (m1, out1) ->
  run m1 evs2 = Some (m2, out2) ->
  flushes evs2 = 0%nat ->
  MAX_RETRY_COUNT = 3 /\
  retryCount (controller (init options)) = MAX_RETRY_COUNT /\
  (forall (m m' : Machine) (out : list Effect),
      step m OnlineObserved = Some (m', out) ->
      retryCount (controller m') = MAX_RETRY_COUNT) /\
  (forall (s : State) (e : string),
      connectionStatus s <> Ended -> truthy (token s) = true ->
      retryCount (fst (DirectLineStreaming.disconnectionHandler s e))
      = retryCount s - 1 /\
      (scheduled (snd (DirectLineStreaming.disconnectionHandler s e)) <= 1)%nat /\
      (retryCount s - 1 <= 0 ->
       snd (DirectLineStreaming.disconnectionHandler s e) = [SubscriberError e])) /\
  (scheduled out2 <= Z.to_nat MAX_RETRY_COUNT)%nat /\
  (scheduled out2 <= Z.to_nat (MAX_RETRY_COUNT - 1))%nat /\
  (retries evs2 <= timers m1 + scheduled out2)%nat.
Proof.
  intros Hrun1 Hrun2 Hfl.
  destruct (init_facts options) as (_ & _ & _ & Hrc & _ & _).
  split; [reflexivity|]. split; [exact Hrc|]. split.
  { intros m m' out Hstep. cbn [step] in Hstep.
    destruct (observing m); [discriminate|].
    unfold DirectLineStreaming.connectAsync_resume, StreamHandler.flush in Hstep.
    inversion Hstep; subst. reflexivity. }
  split.
  { intros s e Hcs Htok.
    destruct (disconnectionHandler_decrements s e Hcs Htok) as (Hdec & Hpos & Hzero).
    split; [exact Hdec|]. split; [|exact Hzero].
    destruct (Z_gt_le_dec (retryCount s - 1) 0) as [Hgt|Hle].
    - rewrite (Hpos Hgt). cbn. lia.
    - rewrite (Hzero Hle). cbn. lia. }
  assert (retryCount (controller m1) <= MAX_RETRY_COUNT) as Hmax.
  { eapply run_retryCount_max; [exact Hrun1|]. rewrite Hrc. lia. }
  destruct (run_budget _ _ _ _ Hrun2 Hfl) as [Hbudget _].
  destruct (run_connectings _ _ _ _ Hrun2) as [Hcount Hsched].
  unfold budget, MAX_RETRY_COUNT in *. repeat split; lia.
Qed.

(** From a full counter, three disconnection callbacks in a row: two
    reconnects, then the terminal error. *)
Lemma three_disconnections (m : Machine) (e1 e2 e3 : string) :
  retryCount (controller m) = MAX_RETRY_COUNT ->
  connectionStatus (controller m) <> Ended ->
  truthy (token (controller m)) = true ->
  exists m', run m [Disconnected e1; Disconnected e2; Disconnected e3]
             = Some (m', [StatusNext Connecting; SetTimeoutConnect;
                          StatusNext Connecting; SetTimeoutConnect;
                          SubscriberError e3]) /\
             retryCount (controller m') = 0.
Proof.
  intros Hrc Hcs Htok. destruct m as [s c o t]. cbn in Hrc, Hcs, Htok.
  unfold MAX_RETRY_COUNT in Hrc.
  cbn [run step controller connecting observing timers].
  unfold DirectLineStreaming.disconnectionHandler.
  destruct (connectionStatus s) eqn:Hs; try congruence;
    cbn [ConnectionStatus_eqb]; rewrite Htok; cbn [negb];
    cbn [retryCount set_retryCount set_connectionStatus connectionStatus token];
    rewrite Hrc; cbn; repeat (rewrite Htok; cbn); eexists; split; reflexivity.
Qed.

End RetryBudget.

(** A forced close, then two reconnect handshakes that fail, then the
    terminal error. *)
Lemma retry_budget_bounded_witness :
  run (J := demo_JSON) (init demo_options) [Answered demo_handshake; OnlineObserved]
  = Some (demo_online, [StatusNext Online]) /\
  run (J := demo_JSON) demo_online
      [Disconnected "closed";
       RetryTimeout; Answered (TransportThrows "refused"); Disconnected "refused";
       RetryTimeout; Answered (TransportThrows "refused"); Disconnected "refused"]
  = Some ({| controller :=
               set_queueActivities true
                 (set_connectionStatus Connecting (set_retryCount 0 demo_online_state));
             connecting := 0; observing := 0; timers := 0;
             refreshing := [] |},
          [StatusNext Connecting; SetTimeoutConnect; Disconnect;
           StatusNext Connecting; SetTimeoutConnect; Disconnect;
           SubscriberError "refused"]) /\
  (scheduled [StatusNext Connecting; SetTimeoutConnect; Disconnect;
              StatusNext Connecting; SetTimeoutConnect; Disconnect;
              SubscriberError "refused"] <= Z.to_nat MAX_RETRY_COUNT)%nat.
Proof.
  assert (run (J := demo_JSON) (init demo_options) [Answered demo_handshake; OnlineObserved]
          = Some (demo_online, [StatusNext Online])) as Hrun1
    by (vm_compute; reflexivity).
  assert (run (J := demo_JSON) demo_online
            [Disconnected "closed";
             RetryTimeout; Answered (TransportThrows "refused"); Disconnected "refused";
             RetryTimeout; Answered (TransportThrows "refused"); Disconnected "refused"]
          = Some ({| controller :=
                       set_queueActivities true
                         (set_connectionStatus Connecting
                            (set_retryCount 0 demo_online_state));
                     connecting := 0; observing := 0; timers := 0;
             refreshing := [] |},
                  [StatusNext Connecting; SetTimeoutConnect; Disconnect;
                   StatusNext Connecting; SetTimeoutConnect; Disconnect;
                   SubscriberError "refused"])) as Hrun2
    by (vm_compute; reflexivity).
  split; [exact Hrun1|]. split; [exact Hrun2|].
  apply (retry_budget_bounded (J := demo_JSON) demo_options _ _ _ _ _ _
           Hrun1 Hrun2 eq_refl).
Defined.

(** ** end() *)

Section EndIsFinal.
Context `{J : JSON}.


End EndIsFinal.



(** ** The published statuses *)

Section Statuses.
Context `{J : JSON}.



End Statuses.



(** ** The token refresher *)

Section Refresher.
Context `{J : JSON}.

Lemma RefreshCall_eqb_refl (call : RefreshCall) : RefreshCall_eqb call call = true.
Proof. destruct call; cbn; apply Z.eqb_refl. Qed.

Lemma take_head (call : RefreshCall) (calls : list RefreshCall) :
  take call (call :: calls) = Some calls.
Proof. cbn [take]. now rewrite RefreshCall_eqb_refl. Qed.

(** A tick on a controller that is online: the wait of the new call is
    resolved already. *)
Lemma refresh_tick_online (m : Machine) (retryCount0 : Z) (evs : list Event) :
  connectionStatus (controller m) = Online ->
  run m (RefreshTick retryCount0 :: evs)
  = run (mkMachine (controller m) (connecting m) (observing m) (timers m)
                   (Ready retryCount0 :: refreshing m)) evs.
Proof.
  intros Hcs. cbn [run step]. unfold DirectLineStreaming.refreshToken.
  rewrite Hcs. cbn [ConnectionStatus_eqb suspended app].
  now destruct (run _ evs) as [[m' out]|].
Qed.

(** One round of a call whose wait has resolved: the request goes out
    with the current token, and the reply runs the callbacks. *)
Lemma refresh_round (m : Machine) (retryCount0 : Z) (reply : AjaxReply)
  (calls : list RefreshCall) (evs : list Event) :
  refreshing m = Ready retryCount0 :: calls ->
  run m (RefreshResumed retryCount0 :: RefreshReplied retryCount0 reply :: evs)
  = let '(s, effects, call) :=
      DirectLineStreaming.refreshToken_subscriber (controller m) retryCount0 reply in
    match run (mkMachine s (connecting m) (observing m) (timers m)
                         (suspended call ++ calls)) evs with
    | None => None
    | Some (m', out) =>
        Some (m', AjaxPostRefresh (token (controller m)) :: effects ++ out)
    end.
Proof.
  intros Hcalls. cbn [run step]. rewrite Hcalls, take_head.
  cbn [refreshing controller connecting observing timers]. rewrite take_head.
  destruct (DirectLineStreaming.refreshToken_subscriber (controller m) retryCount0 reply)
    as [[s effects] call].
  destruct (run _ evs) as [[m' out]|]; reflexivity.
Qed.

(** A tick on a controller that is online, the request and its reply. *)
Lemma refresh_once (m : Machine) (retryCount0 : Z) (reply : AjaxReply)
  (evs : list Event) :
  connectionStatus (controller m) = Online ->
  run m (RefreshTick retryCount0 :: RefreshResumed retryCount0
         :: RefreshReplied retryCount0 reply :: evs)
  = let '(s, effects, call) :=
      DirectLineStreaming.refreshToken_subscriber (controller m) retryCount0 reply in
    match run (mkMachine s (connecting m) (observing m) (timers m)
                         (suspended call ++ refreshing m)) evs with
    | None => None
    | Some (m', out) =>
        Some (m', AjaxPostRefresh (token (controller m)) :: effects ++ out)
    end.
Proof.
  intros Hcs. rewrite refresh_tick_online by exact Hcs.
  now rewrite (refresh_round _ _ _ (refreshing m)) by reflexivity.
Qed.

(** What the error callback does with an error that is not fatal, on a
    controller that is online. *)
Lemma refreshToken_subscriber_retryable (s : State) (retryCount0 status : Z) :
  connectionStatus s = Online ->
  is_fatal status = false ->
  DirectLineStreaming.refreshToken_subscriber s retryCount0 (AjaxError status)
  = if retryCount0 >? 0 then (s, [], Some (Ready (retryCount0 - 1)))
    else (set_token None s, [Disconnect], None).
Proof.
  intros Hcs Hfatal. unfold DirectLineStreaming.refreshToken_subscriber.
  unfold is_fatal in Hfatal. rewrite Hfatal.
  destruct (retryCount0 >? 0); [|reflexivity].
  unfold DirectLineStreaming.refreshToken. now rewrite Hcs.
Qed.

(** Errors that are not fatal, no more of them than the budget: one
    request each, and the call is ready for the next request. *)
Lemma refresh_retries (errs : list AjaxReply) :
  forall (m : Machine) (retryCount0 : Z) (calls : list RefreshCall) (evs : list Event),
    connectionStatus (controller m) = Online ->
    refreshing m = Ready retryCount0 :: calls ->
    forallb is_retryable errs = true ->
    Z.of_nat (List.length errs) <= retryCount0 ->
    run m (refresh_events retryCount0 errs ++ evs)
    = match run (mkMachine (controller m) (connecting m) (observing m) (timers m)
                   (Ready (retryCount0 - Z.of_nat (List.length errs)) :: calls)) evs with
      | None => None
      | Some (m', out) =>
          Some (m', repeat (AjaxPostRefresh (token (controller m))) (List.length errs)
                    ++ out)
      end.
Proof.
  induction errs as [|r errs IH]; intros m rc calls evs Hcs Hcalls Hall Hlen.
  - cbn [refresh_events app List.length repeat]. rewrite Z.sub_0_r.
    rewrite <- Hcalls. replace (mkMachine _ _ _ _ _) with m by now destruct m.
    now destruct (run m evs) as [[m' out]|].
  - cbn [forallb] in Hall. apply andb_true_iff in Hall. destruct Hall as [Hr Hall].
    cbn [List.length] in Hlen.
    destruct r as [t|status]; [discriminate Hr|].
    cbn [is_retryable] in Hr. apply negb_true_iff in Hr.
    cbn [refresh_events app]. rewrite (refresh_round m rc _ calls) by exact Hcalls.
    rewrite refreshToken_subscriber_retryable by assumption.
    replace (rc >? 0) with true by (symmetry; apply Z.gtb_lt; lia).
    cbn [suspended app].
    rewrite (IH _ (rc - 1) calls evs) by (cbn; auto; lia).
    cbn [controller connecting observing timers List.length repeat app].
    replace (rc - 1 - Z.of_nat (List.length errs))
      with (rc - Z.of_nat (S (List.length errs))) by lia.
    now destruct (run _ evs) as [[m' out]|].
Qed.

Lemma refresh_events_app (errs replies : list AjaxReply) :
  forall retryCount0 : Z,
    refresh_events retryCount0 (errs ++ replies)
    = refresh_events retryCount0 errs
      ++ refresh_events (retryCount0 - Z.of_nat (List.length errs)) replies.
Proof.
  induction errs as [|r errs IH]; intros rc.
  - cbn. now rewrite Z.sub_0_r.
  - cbn [app refresh_events List.length]. rewrite IH.
    replace (rc - 1 - Z.of_nat (List.length errs))
      with (rc - Z.of_nat (S (List.length errs))) by lia.
    reflexivity.
Qed.

(** With a budget of [n], [n + 1] errors that are not fatal: [n + 1]
    requests, then the token is cleared and the transport disconnected. *)
Lemma refresh_exhausts (m : Machine) (retryCount0 : Z) (errs : list AjaxReply) :
  connectionStatus (controller m) = Online ->
  0 <= retryCount0 ->
  forallb is_retryable errs = true ->
  List.length errs = S (Z.to_nat retryCount0) ->
  run m (RefreshTick retryCount0 :: refresh_events retryCount0 errs)
  = Some (mkMachine (set_token None (controller m)) (connecting m) (observing m)
                    (timers m) (refreshing m),
          repeat (AjaxPostRefresh (token (controller m))) (S (Z.to_nat retryCount0))
          ++ [Disconnect]).
Proof.
  intros Hcs Hnn Hall Hlen.
  destruct (exists_last (l := errs)) as (errs' & r & ->);
    [intros ->; discriminate Hlen|].
  rewrite length_app in Hlen. cbn [List.length] in Hlen.
  rewrite forallb_app in Hall. apply andb_true_iff in Hall.
  destruct Hall as [Hall Hr]. cbn [forallb] in Hr. rewrite andb_true_r in Hr.
  destruct r as [t|status]; [discriminate Hr|].
  cbn [is_retryable] in Hr. apply negb_true_iff in Hr.
  rewrite refresh_tick_online by exact Hcs.
  rewrite refresh_events_app.
  rewrite (refresh_retries errs' _ retryCount0 (refreshing m)); auto; [|lia].
  cbn [controller connecting observing timers refresh_events].
  rewrite (refresh_round _ _ _ (refreshing m)) by reflexivity.
  cbn [controller connecting observing timers].
  rewrite refreshToken_subscriber_retryable by assumption.
  destruct (Z.gtb_spec (retryCount0 - Z.of_nat (List.length errs')) 0); [lia|].
  cbn [suspended app run].
  replace (S (Z.to_nat retryCount0)) with (List.length errs' + 1)%nat by lia.
  rewrite repeat_app. cbn [repeat]. now rewrite <- app_assoc.
Qed.




End Refresher.



(** ** Attachment upload *)

Section Upload.
Context `{J : JSON}.

(** The [do]s of the fetches push their streams in the order of the
    replies, and a fetch that fails leaves nothing to send. *)
Lemma fetch_attachments_resolved (attachments0 : list Media)
  (completions : list (nat * AjaxGet)) :
  forall (acc httpContentList : list HttpContent),
    DirectLineStreaming.fetch_attachments attachments0 completions acc
    = Resolved httpContentList ->
    httpContentList = acc ++ flat_map (attachment_stream attachments0) completions /\
    forallb is_GetResponse completions = true.
Proof.
  induction completions as [|[i r] completions IH]; intros acc l H.
  - cbn in H. inversion H; subst. now rewrite app_nil_r.
  - cbn [DirectLineStreaming.fetch_attachments] in H.
    destruct r as [response|status]; [|discriminate H].
    cbn [flat_map attachment_stream forallb is_GetResponse].
    destruct (nth_error attachments0 i) as [media|]; [|discriminate H].
    apply IH in H. destruct H as [-> Hall]. split; [|exact Hall].
    unfold DirectLineStreaming.fetched. now rewrite <- app_assoc.
Qed.

Lemma all_completed_In (attachments0 : list Media)
  (completions : list (nat * AjaxGet)) (i : nat) :
  DirectLineStreaming.all_completed attachments0 completions = true ->
  (i < List.length attachments0)%nat -> In i (map fst completions).
Proof.
  unfold DirectLineStreaming.all_completed. intros Hall Hi.
  rewrite forallb_forall in Hall.
  specialize (Hall i). rewrite in_seq in Hall.
  assert (existsb (Nat.eqb i) (map fst completions) = true) as Hex
    by (apply Hall; lia).
  apply existsb_exists in Hex. destruct Hex as (j & Hj & Heq).
  apply Nat.eqb_eq in Heq. now subst j.
Qed.

(** Replies that come in the order of the array give the streams of the
    array, in its order. *)
Lemma streams_in_source_order (rest pre : list Media)
  (completions : list (nat * AjaxGet)) :
  map fst completions = seq (List.length pre) (List.length rest) ->
  forallb is_GetResponse completions = true ->
  map hc_type (flat_map (attachment_stream (pre ++ rest)) completions)
  = map contentType rest.
Proof.
  revert pre completions.
  induction rest as [|media rest IH]; intros pre completions Hidx Hall.
  - destruct completions; [reflexivity | discriminate Hidx].
  - destruct completions as [|[i r] completions]; [discriminate Hidx|].
    cbn [map fst seq List.length] in Hidx. injection Hidx as -> Hidx.
    cbn [forallb] in Hall. apply andb_true_iff in Hall. destruct Hall as [Hr Hall].
    destruct r as [response|status]; [|discriminate Hr].
    cbn [flat_map attachment_stream].
    rewrite nth_error_app2 by lia. rewrite Nat.sub_diag. cbn [nth_error app map hc_type].
    f_equal.
    replace (pre ++ media :: rest) with ((pre ++ [media]) ++ rest)
      by now rewrite <- app_assoc.
    apply IH; [|exact Hall].
    rewrite length_app. cbn [List.length]. now rewrite Nat.add_1_r.
Qed.

(** C6 (as amended).  Whenever a subscription of
    [postMessageWithAttachments] sends the upload, every attachment has
    been fetched before.  The request is a [PUT] whose first stream is the
    JSON of the message without its [attachments] field, typed
    [application/vnd.microsoft.activity]; then come the streams that were
    already in the shared list (none on the first subscription), then the
    attachment streams of this subscription in the order in which the
    fetches completed, each with the content type of its attachment.  On
    the first subscription that is the order of the [attachments] array
    when the fetches complete in that order. *)
Theorem upload_streams_in_completion_order (s : State) (message : Activity)
  (httpContentList : list HttpContent) (completions : list (nat * AjaxGet))
  (request : StreamingRequest) :
  DirectLineStreaming.postMessageWithAttachments s message httpContentList completions
  = DirectLineStreaming.UploadSent request ->
  let sources := match attachments message with Some l => l | None => [] end in
  let envelope := DirectLineStreaming.without_attachments message in
  (forall i : nat, (i < List.length sources)%nat -> In i (map fst completions)) /\
  forallb is_GetResponse completions = true /\
  verb request = "PUT"%string /\
  attachments envelope = None /\
  req_streams request
  = {| hc_type := "application/vnd.microsoft.activity";
       hc_contentLength := String.length (stringify envelope);
       hc_stream := stringify envelope |}
    :: httpContentList ++ flat_map (attachment_stream sources) completions /\
  (httpContentList = [] ->
   map fst completions = seq 0 (List.length sources) ->
   map hc_type (tl (req_streams request)) = map contentType sources).
Proof.
  intros Hsent sources envelope.
  unfold DirectLineStreaming.postMessageWithAttachments in Hsent.
  fold sources in Hsent.
  destruct (DirectLineStreaming.fetch_attachments sources completions httpContentList)
    as [l|e] eqn:Hfetch; [|discriminate Hsent].
  destruct (DirectLineStreaming.all_completed sources completions) eqn:Hall;
    [|discriminate Hsent].
  injection Hsent as <-.
  apply fetch_attachments_resolved in Hfetch. destruct Hfetch as [-> Hresp].
  cbn [DirectLineStreaming.upload_request verb req_streams tl].
  split; [intros i Hi; now apply (all_completed_In sources)|].
  split; [exact Hresp|]. split; [reflexivity|]. split; [reflexivity|].
  split; [reflexivity|].
  intros -> Horder. cbn [app]. now apply (streams_in_source_order sources []).
Qed.

(** C7 (as amended).  When the upload response carries a stream list,
    exactly one stream is required.  With one stream the [Id] read from
    its JSON is published to the result channel.  With any other number
    of streams, zero included, an [Invalid stream count] error is
    signalled on the result channel and no id is published. *)
Theorem upload_response_requires_one_stream (resp : IReceiveResponse)
  (streams0 : list ContentStream) :
  resp_streams resp = Some streams0 ->
  (forall (stream0 : ContentStream) (id : option string),
      streams0 = [stream0] -> parse_Id (readAsString stream0) = Some id ->
      DirectLineStreaming.upload_response resp = Resolved [ResultNext id]) /\
  (List.length streams0 <> 1%nat ->
   DirectLineStreaming.upload_response resp
   = Resolved [ResultError
                 (String.append "Invalid stream count " (decimal (List.length streams0)))]) /\
  (streams0 = [] ->
   DirectLineStreaming.upload_response resp
   = Resolved [ResultError "Invalid stream count 0"]).
Proof.
  intros Hstreams. unfold DirectLineStreaming.upload_response. rewrite Hstreams.
  split; [|split].
  - intros stream0 id -> Hid. cbn. now rewrite Hid.
  - intros Hlen.
    destruct (Nat.eqb_spec (List.length streams0) 1); [contradiction|]. reflexivity.
  - intros ->. reflexivity.
Qed.

End Upload.

(** Two attachments fetched in the order of the array. *)
Lemma upload_streams_in_completion_order_witness :
  DirectLineStreaming.postMessageWithAttachments (J := demo_JSON) demo_online_state
    (demo_activity "m" (Some [mkMedia "image/png" "http://host/a.png";
                              mkMedia "application/pdf" "http://host/b.pdf"]))
    [] [(0%nat, GetResponse "PNG"); (1%nat, GetResponse "PDF")]
  = DirectLineStreaming.UploadSent
      {| verb := "PUT";
         path := "/v3/directline/conversations/c1/users/user/upload";
         req_streams :=
           [ {| hc_type := "application/vnd.microsoft.activity";
                hc_contentLength := 34;
                hc_stream := "{type:message,from:{id:user},id:m}" |};
             {| hc_type := "image/png"; hc_contentLength := 3; hc_stream := "PNG" |};
             {| hc_type := "application/pdf"; hc_contentLength := 3;
                hc_stream := "PDF" |} ] |} /\
  map hc_type
      [ {| hc_type := "image/png"; hc_contentLength := 3; hc_stream := "PNG" |};
        {| hc_type := "application/pdf"; hc_contentLength := 3; hc_stream := "PDF" |} ]
  = ["image/png"; "application/pdf"]%string.
Proof.
  assert (DirectLineStreaming.postMessageWithAttachments (J := demo_JSON) demo_online_state
            (demo_activity "m" (Some [mkMedia "image/png" "http://host/a.png";
                                      mkMedia "application/pdf" "http://host/b.pdf"]))
            [] [(0%nat, GetResponse "PNG"); (1%nat, GetResponse "PDF")]
          = DirectLineStreaming.UploadSent
              {| verb := "PUT";
                 path := "/v3/directline/conversations/c1/users/user/upload";
                 req_streams :=
                   [ {| hc_type := "application/vnd.microsoft.activity";
                        hc_contentLength := 34;
                        hc_stream := "{type:message,from:{id:user},id:m}" |};
                     {| hc_type := "image/png"; hc_contentLength := 3;
                        hc_stream := "PNG" |};
                     {| hc_type := "application/pdf"; hc_contentLength := 3;
                        hc_stream := "PDF" |} ] |}) as Hsent
    by (vm_compute; reflexivity).
  split; [exact Hsent|].
  destruct (upload_streams_in_completion_order (J := demo_JSON) _ _ _ _ _ Hsent)
    as (_ & _ & _ & _ & _ & Horder).
  exact (Horder eq_refl eq_refl).
Defined.

(** C6 fails as stated.  With two attachments whose second fetch
    completes first, the upload of the first subscription carries the
    second attachment before the first: the streams are not in the order
    of the [attachments] array. *)
Lemma upload_streams_not_in_source_order :
  DirectLineStreaming.postMessageWithAttachments (J := demo_JSON) demo_online_state
    (demo_activity "m" (Some [mkMedia "image/png" "http://host/a.png";
                              mkMedia "application/pdf" "http://host/b.pdf"]))
    [] [(1%nat, GetResponse "PDF"); (0%nat, GetResponse "PNG")]
  = DirectLineStreaming.UploadSent
      {| verb := "PUT";
         path := "/v3/directline/conversations/c1/users/user/upload";
         req_streams :=
           [ {| hc_type := "application/vnd.microsoft.activity";
                hc_contentLength := 34;
                hc_stream := "{type:message,from:{id:user},id:m}" |};
             {| hc_type := "application/pdf"; hc_contentLength := 3;
                hc_stream := "PDF" |};
             {| hc_type := "image/png"; hc_contentLength := 3; hc_stream := "PNG" |} ] |}
  /\
  map hc_type
      [ {| hc_type := "application/pdf"; hc_contentLength := 3; hc_stream := "PDF" |};
        {| hc_type := "image/png"; hc_contentLength := 3; hc_stream := "PNG" |} ]
  <> map contentType [mkMedia "image/png" "http://host/a.png";
                      mkMedia "application/pdf" "http://host/b.pdf"].
Proof.
  split; [vm_compute; reflexivity|]. cbn. intros H. discriminate H.
Qed.

(** A response with one stream holding an id. *)
Lemma upload_response_requires_one_stream_witness :
  resp_streams {| statusCode := 200;
                  resp_streams := Some [mkContentStream "application/json" "{Id:42}"] |}
  = Some [mkContentStream "application/json" "{Id:42}"] /\
  DirectLineStreaming.upload_response (J := demo_JSON)
    {| statusCode := 200;
       resp_streams := Some [mkContentStream "application/json" "{Id:42}"] |}
  = Resolved [ResultNext (Some "42"%string)].
Proof.
  split; [reflexivity|].
  destruct (upload_response_requires_one_stream (J := demo_JSON)
              {| statusCode := 200;
                 resp_streams := Some [mkContentStream "application/json" "{Id:42}"] |}
              [mkContentStream "application/json" "{Id:42}"] eq_refl)
    as (Hone & _).
  apply (Hone (mkContentStream "application/json" "{Id:42}") (Some "42"%string) eq_refl).
  vm_compute. reflexivity.
Defined.

(** C7 fails as stated.  A response whose stream list is empty is not
    passed over in silence: the result channel receives an error. *)
Lemma upload_response_empty_streams_is_an_error :
  DirectLineStreaming.upload_response (J := demo_JSON)
    {| statusCode := 200; resp_streams := Some [] |}
  = Resolved [ResultError "Invalid stream count 0"] /\
  DirectLineStreaming.upload_response (J := demo_JSON)
    {| statusCode := 200; resp_streams := Some [] |}
  <> Resolved [].
Proof.
  split; [vm_compute; reflexivity|]. vm_compute. intros H. discriminate H.
Qed.

(** ** Inbound requests: attachments and the response *)

Section InboundRequests.
Context `{J : JSON}.

(** A single activity that carries an [attachments] array, with extra
    streams: the activity that is queued or published has one more
    attachment per extra stream, in stream order, after the ones it had,
    and the handler answers 200. *)
Lemma attachments_appended_in_stream_order (s : State) (stream0 : ContentStream)
  (activity : Activity) (pre : list Media) (extra : list ContentStream) :
  parse_activities (readAsString stream0) = Some [activity] ->
  attachments activity = Some pre ->
  extra <> [] ->
  let activity' := {| type := type activity; from_id := from_id activity;
                      attachments := Some (pre ++ map spec_attachment extra);
                      rest := rest activity |} in
  StreamHandler.processRequest s {| streams := stream0 :: extra |}
  = if queueActivities s
    then (set_activityQueue (activityQueue s ++ [activity']) s, [], Resolved 200)
    else (s, [SubscriberNext activity'], Resolved 200).
Proof.
  intros Hparse Hpre Hne activity'.
  apply processRequest_single with (activity := activity); [exact Hparse|].
  now apply materialize_appends.
Qed.

(** The response of the handler, for every request whose first stream
    parses: 500 and an error on the subscriber when the set does not hold
    exactly one activity; 200 and the activity queued or published when
    it holds one and its attachments materialize. *)
Lemma processRequest_responds (s : State) (stream0 : ContentStream)
  (activities : list Activity) (extra : list ContentStream) :
  parse_activities (readAsString stream0) = Some activities ->
  (List.length activities <> 1%nat ->
   StreamHandler.processRequest s {| streams := stream0 :: extra |}
   = (s, [SubscriberError "there should be exactly one activity"], Resolved 500)) /\
  (forall activity : Activity,
      activities = [activity] ->
      extra = [] \/ attachments activity <> None ->
      exists activity' : Activity,
        StreamHandler.materialize activity extra = Resolved activity' /\
        StreamHandler.processRequest s {| streams := stream0 :: extra |}
        = if queueActivities s
          then (set_activityQueue (activityQueue s ++ [activity']) s, [], Resolved 200)
          else (s, [SubscriberNext activity'], Resolved 200)).
Proof.
  intros Hparse. split.
  - intros Hlen. now apply processRequest_malformed with (activities := activities).
  - intros activity -> Hok.
    destruct (materialize_resolves activity extra Hok) as [activity' Hmat].
    exists activity'. split; [exact Hmat|].
    now apply processRequest_single with (activity := activity).
Qed.

(** C3 (failing input).  A request with exactly one activity that has no
    [attachments] field, and with at least one extra stream: the spread
    of line 62 throws.  No attachment is appended; the activity is neither
    queued nor published. *)
Theorem absent_attachments_not_appended (s : State) (stream0 : ContentStream)
  (activity : Activity) (extra : list ContentStream) :
  parse_activities (readAsString stream0) = Some [activity] ->
  attachments activity = None ->
  extra <> [] ->
  StreamHandler.materialize activity extra
  = Rejected "TypeError: activity.attachments is not iterable" /\
  routed {| streams := stream0 :: extra |} = None /\
  fst (StreamHandler.processRequest s {| streams := stream0 :: extra |}) = (s, []).
Proof.
  intros Hparse Hnone Hne.
  pose proof (materialize_throws activity extra Hnone Hne) as Hmat.
  split; [exact Hmat|]. split.
  - unfold routed. cbn [streams]. now rewrite Hparse, Hmat.
  - now rewrite (processRequest_throws s stream0 activity extra Hparse Hnone Hne).
Qed.

(** C4 (failing input).  On the same request, whose set holds exactly
    one activity, the handler resolves to no response at all: neither 200
    nor 500. *)
Theorem single_activity_request_gets_no_response (s : State)
  (stream0 : ContentStream) (activity : Activity) (extra : list ContentStream) :
  parse_activities (readAsString stream0) = Some [activity] ->
  attachments activity = None ->
  extra <> [] ->
  forall code : Z,
    snd (StreamHandler.processRequest s {| streams := stream0 :: extra |})
    <> Resolved code.
Proof.
  intros Hparse Hnone Hne code.
  rewrite (processRequest_throws s stream0 activity extra Hparse Hnone Hne).
  cbn. discriminate.
Qed.

End InboundRequests.

(** The attachment-materialization example of the spec: an activity with
    [attachments: []] and two streams typed [image/png] and
    [application/pdf]. *)
Lemma attachment_materialization_example :
  StreamHandler.processRequest (J := demo_JSON) demo_online_state
    (demo_request "{activities:[{attachments:[]}]}"
       [mkContentStream "image/png" "iVBORw0KGgo=";
        mkContentStream "application/pdf" "JVBERi0xLjQ="])
  = (demo_online_state,
     [SubscriberNext
        (demo_activity ""
           (Some [mkMedia "image/png" "data:text/plain;base64,iVBORw0KGgo=";
                  mkMedia "application/pdf" "data:text/plain;base64,JVBERi0xLjQ="]))],
     Resolved 200).
Proof. vm_compute. reflexivity. Qed.

(** The handler on an activity without [attachments] and one stream. *)
Lemma absent_attachments_not_appended_witness :
  parse_activities (JSON := demo_JSON)
    (readAsString (mkContentStream "application/json" "{activities:[{type:message}]}"))
  = Some [demo_activity "" None] /\
  StreamHandler.processRequest (J := demo_JSON) demo_online_state
    (demo_request "{activities:[{type:message}]}" [mkContentStream "image/png" "iVBORw0KGgo="])
  = (demo_online_state, [], Rejected "TypeError: activity.attachments is not iterable") /\
  routed (J := demo_JSON)
    (demo_request "{activities:[{type:message}]}" [mkContentStream "image/png" "iVBORw0KGgo="])
  = None.
Proof.
  split; [vm_compute; reflexivity|]. split; [vm_compute; reflexivity|].
  apply (absent_attachments_not_appended (J := demo_JSON) demo_online_state
           (mkContentStream "application/json" "{activities:[{type:message}]}")
           (demo_activity "" None) [mkContentStream "image/png" "iVBORw0KGgo="]).
  - vm_compute. reflexivity.
  - reflexivity.
  - discriminate.
Defined.

Lemma single_activity_request_gets_no_response_witness :
  snd (StreamHandler.processRequest (J := demo_JSON) demo_online_state
         (demo_request "{activities:[{type:message}]}"
            [mkContentStream "image/png" "iVBORw0KGgo="]))
  <> Resolved 200.
Proof.
  apply (single_activity_request_gets_no_response (J := demo_JSON) demo_online_state
           (mkContentStream "application/json" "{activities:[{type:message}]}")
           (demo_activity "" None) [mkContentStream "image/png" "iVBORw0KGgo="]).
  - vm_compute. reflexivity.
  - reflexivity.
  - discriminate.
Defined.

(** * Further properties *)

(** ** The inbound handler *)

Section InboundHandlerMore.
Context `{J : JSON}.

Lemma prefix_append (p s : string) : String.prefix p (String.append p s) = true.
Proof.
  induction p as [|c p IH]; cbn; [now destruct s|].
  destruct (Ascii.ascii_dec c c) as [_|Hne]; [exact IH | now elim Hne].
Qed.

(** X1.  A request with one activity that carries an [attachments] array
    reaches the routing step with the same type, sender and content, and
    with one more attachment per extra stream: the ones it had come first,
    then one per stream in stream order, each with the content type of its
    stream and a [contentUrl] that begins with [data:text/plain;base64,]. *)
Theorem inbound_attachments_materialized (stream0 : ContentStream)
  (activity : Activity) (pre : list Media) (extra : list ContentStream) :
  parse_activities (readAsString stream0) = Some [activity] ->
  attachments activity = Some pre ->
  exists activity' : Activity,
    routed {| streams := stream0 :: extra |} = Some activity' /\
    type activity' = type activity /\
    from_id activity' = from_id activity /\
    rest activity' = rest activity /\
    (exists added : list Media,
        attachments activity' = Some (pre ++ added) /\
        map contentType added = map stream_contentType extra /\
        map contentUrl added
        = map (fun stream => String.append "data:text/plain;base64," (readAsString stream))
              extra /\
        (forall media : Media, In media added ->
           String.prefix "data:text/plain;base64," (contentUrl media) = true)).
Proof.
  intros Hparse Hpre. unfold routed. cbn [streams]. rewrite Hparse.
  destruct extra as [|stream extra].
  - cbn. exists activity. do 4 (split; [reflexivity|]).
    exists []. rewrite app_nil_r. do 3 (split; [auto|]). intros media [].
  - rewrite (materialize_appends activity pre (stream :: extra) Hpre) by discriminate.
    eexists. split; [reflexivity|]. cbn [type from_id rest attachments].
    do 3 (split; [reflexivity|]).
    exists (map spec_attachment (stream :: extra)). split; [reflexivity|].
    rewrite !map_map. cbn [spec_attachment contentType contentUrl].
    do 2 (split; [reflexivity|]).
    intros media Hin. apply in_map_iff in Hin. destruct Hin as (st & <- & _).
    cbn [spec_attachment contentUrl]. apply prefix_append.
Qed.

(** X2.  What the handler does with a request, whatever it is.  Either
    it throws and nothing has happened; or it answers 500, after one error
    on the subscriber, and the first stream parsed to a set that does not
    hold exactly one activity; or it answers 200 and the activity of the
    request has been queued (while [queueActivities] is true) or published
    (otherwise).  It changes nothing but the queue, publishes no status,
    never disconnects and schedules nothing. *)
Theorem inbound_request_outcomes (s : State) (request : IReceiveRequest) :
  ((exists e : string,
       StreamHandler.processRequest s request = (s, [], Rejected e)) /\
   routed request = None)
  \/
  (StreamHandler.processRequest s request
   = (s, [SubscriberError "there should be exactly one activity"], Resolved 500) /\
   routed request = None /\
   exists (stream0 : ContentStream) (extra : list ContentStream)
          (activities : list Activity),
     streams request = stream0 :: extra /\
     parse_activities (readAsString stream0) = Some activities /\
     List.length activities <> 1%nat)
  \/
  (exists a : Activity,
      routed request = Some a /\
      StreamHandler.processRequest s request
      = if queueActivities s
        then (set_activityQueue (activityQueue s ++ [a]) s, [], Resolved 200)
        else (s, [SubscriberNext a], Resolved 200)).
Proof.
  destruct (routed request) as [a|] eqn:Hrouted.
  { right. right. exists a. split; [reflexivity|].
    now apply processRequest_routed. }
  revert Hrouted. unfold routed, StreamHandler.processRequest.
  destruct request as [l]. cbn [streams].
  destruct l as [|stream0 extra]; [intros _; left; split; [now eexists | reflexivity]|].
  destruct (parse_activities (readAsString stream0)) as [acts|] eqn:Hparse;
    [|intros _; left; split; [now eexists | reflexivity]].
  destruct acts as [|activity [|activity2 acts]].
  - intros _. right. left. repeat split.
    exists stream0, extra, []. repeat split; auto.
  - cbn [List.length Nat.eqb negb].
    destruct (StreamHandler.materialize activity extra) as [a'|e]; [discriminate|].
    intros _. left. split; [now eexists | reflexivity].
  - intros _. right. left. repeat split.
    exists stream0, extra, (activity :: activity2 :: acts). repeat split; auto.
    cbn. discriminate.
Qed.

End InboundHandlerMore.

Lemma inbound_attachments_materialized_witness :
  parse_activities (JSON := demo_JSON)
    (readAsString (mkContentStream "application/json" "{activities:[{attachments:[]}]}"))
  = Some [demo_activity "" (Some [])] /\
  attachments (demo_activity "" (Some [])) = Some [] /\
  exists activity' : Activity,
    routed (J := demo_JSON)
      {| streams := mkContentStream "application/json" "{activities:[{attachments:[]}]}"
                    :: [mkContentStream "image/png" "iVBORw0KGgo=";
                        mkContentStream "application/pdf" "JVBERi0xLjQ="] |}
    = Some activity' /\
    type activity' = "message"%string.
Proof.
  assert (parse_activities (JSON := demo_JSON)
            (readAsString
               (mkContentStream "application/json" "{activities:[{attachments:[]}]}"))
          = Some [demo_activity "" (Some [])]) as Hparse
    by (vm_compute; reflexivity).
  split; [exact Hparse|]. split; [reflexivity|].
  destruct (inbound_attachments_materialized (J := demo_JSON)
              (mkContentStream "application/json" "{activities:[{attachments:[]}]}")
              (demo_activity "" (Some [])) []
              [mkContentStream "image/png" "iVBORw0KGgo=";
               mkContentStream "application/pdf" "JVBERi0xLjQ="]
              Hparse eq_refl)
    as (activity' & Hrouted & Htype & _).
  exists activity'. split; [exact Hrouted | exact Htype].
Defined.

(** ** Runs of the controller *)

Section RunsMore.
Context `{J : JSON}.

(** X3.  In every run of the controller, from the first subscription
    on and across reconnects, every activity that reached the routing
    step has been passed to the subscriber or is still in the queue:
    none is lost, none is passed twice, and the order is the order of
    arrival.  The queue is empty whenever [queueActivities] is false. *)
Theorem every_run_keeps_arrival_order (options : DirectLineStreamingOptions)
  (evs : list Event) (m : Machine) (out : list Effect) :
  run (init options) evs = Some (m, out) ->
  nexts out ++ activityQueue (controller m) = arrivals evs /\
  (queueActivities (controller m) = false -> activityQueue (controller m) = []) /\
  (List.length (nexts out) <= List.length (arrivals evs))%nat.
Proof.
  intros Hrun.
  destruct (init_facts options) as (Hgate & _ & _ & _ & _ & Hq0).
  pose proof (run_fifo _ _ _ _ Hrun Hgate) as Hfifo.
  rewrite Hq0 in Hfifo. cbn [app] in Hfifo.
  split; [now symmetry|]. split; [exact (run_queue_gated _ _ _ _ Hrun Hgate)|].
  rewrite Hfifo, length_app. lia.
Qed.


(** Disconnection callbacks on a controller without a usable token. *)
Lemma run_token_unavailable (es : list string) (m : Machine) :
  truthy (token (controller m)) = false ->
  connectionStatus (controller m) <> Ended ->
  run m (map Disconnected es)
  = Some (m, map (fun _ => SubscriberError "Token unavailable") es).
Proof.
  intros Htok Hcs. induction es as [|e es IH]; [reflexivity|].
  cbn [map run step].
  destruct (disconnectionHandler_cases (controller m) e)
    as [(? & E)|[(_ & _ & E)|[(_ & ? & _)|(_ & ? & _)]]];
    try congruence.
  rewrite E. cbn [scheduled filter is_SetTimeoutConnect List.length].
  replace (mkMachine (controller m) (connecting m) (observing m) (timers m + 0)
             (refreshing m)) with m
    by (destruct m; cbn; now rewrite Nat.add_0_r).
  now rewrite IH.
Qed.

(** X5.  Without a usable token (null, or the empty string) the
    disconnection callback signals "Token unavailable" on the activity
    subscriber and does nothing else: the counter is not touched, no
    status is published and no reconnect is scheduled, however many
    disconnections follow. *)
Theorem token_unavailable_ends_reconnection (m : Machine) (es : list string) :
  truthy (token (controller m)) = false ->
  connectionStatus (controller m) <> Ended ->
  run m (map Disconnected es)
  = Some (m, map (fun _ => SubscriberError "Token unavailable") es) /\
  statuses (map (fun _ => SubscriberError "Token unavailable") es) = [] /\
  scheduled (map (fun _ => SubscriberError "Token unavailable") es) = 0%nat.
Proof.
  intros Htok Hcs. split; [now apply run_token_unavailable|].
  split; induction es as [|e es IH]; cbn; auto.
Qed.

End RunsMore.

(** Activities either side of a reconnect: A queued during the first
    handshake, B published while online, C queued during the reconnect. *)
Lemma every_run_keeps_arrival_order_witness :
  run (J := demo_JSON) (init demo_options)
      [Request (demo_request "{activities:[{id:A}]}" []);
       Answered demo_handshake; OnlineObserved;
       Request (demo_request "{activities:[{id:B}]}" []);
       Disconnected "closed"; RetryTimeout;
       Request (demo_request "{activities:[{id:C}]}" []);
       Answered demo_handshake; OnlineObserved]
  = Some ({| controller := set_retryCount 3 demo_online_state;
             connecting := 0; observing := 0; timers := 0;
             refreshing := [] |},
          [StatusNext Online; SubscriberNext (demo_activity "A" None);
           SubscriberNext (demo_activity "B" None);
           StatusNext Connecting; SetTimeoutConnect;
           StatusNext Online; SubscriberNext (demo_activity "C" None)]) /\
  nexts [StatusNext Online; SubscriberNext (demo_activity "A" None);
         SubscriberNext (demo_activity "B" None);
         StatusNext Connecting; SetTimeoutConnect;
         StatusNext Online; SubscriberNext (demo_activity "C" None)] ++ []
  = [demo_activity "A" None; demo_activity "B" None; demo_activity "C" None].
Proof.
  assert (run (J := demo_JSON) (init demo_options)
            [Request (demo_request "{activities:[{id:A}]}" []);
             Answered demo_handshake; OnlineObserved;
             Request (demo_request "{activities:[{id:B}]}" []);
             Disconnected "closed"; RetryTimeout;
             Request (demo_request "{activities:[{id:C}]}" []);
             Answered demo_handshake; OnlineObserved]
          = Some ({| controller := set_retryCount 3 demo_online_state;
                     connecting := 0; observing := 0; timers := 0;
             refreshing := [] |},
                  [StatusNext Online; SubscriberNext (demo_activity "A" None);
                   SubscriberNext (demo_activity "B" None);
                   StatusNext Connecting; SetTimeoutConnect;
                   StatusNext Online; SubscriberNext (demo_activity "C" None)])) as Hrun
    by (vm_compute; reflexivity).
  split; [exact Hrun|].
  destruct (every_run_keeps_arrival_order (J := demo_JSON) demo_options _ _ _ Hrun)
    as (Hfifo & _).
  cbn [controller activityQueue set_retryCount demo_online_state] in Hfifo.
  rewrite Hfifo. vm_compute. reflexivity.
Defined.


(** A controller whose token is the empty string. *)
Lemma token_unavailable_ends_reconnection_witness :
  truthy (token (set_token (Some ""%string) demo_online_state)) = false /\
  connectionStatus (set_token (Some ""%string) demo_online_state) <> Ended /\
  run (J := demo_JSON)
      {| controller := set_token (Some ""%string) demo_online_state;
         connecting := 0; observing := 0; timers := 0;
             refreshing := [] |}
      (map Disconnected ["closed"; "closed again"]%string)
  = Some ({| controller := set_token (Some ""%string) demo_online_state;
             connecting := 0; observing := 0; timers := 0;
             refreshing := [] |},
          [SubscriberError "Token unavailable"; SubscriberError "Token unavailable"]).
Proof.
  assert (connectionStatus (set_token (Some ""%string) demo_online_state) <> Ended)
    as Hcs by (cbn; discriminate).
  split; [reflexivity|]. split; [exact Hcs|].
  apply (token_unavailable_ends_reconnection (J := demo_JSON)
           {| controller := set_token (Some ""%string) demo_online_state;
              connecting := 0; observing := 0; timers := 0;
             refreshing := [] |}
           ["closed"; "closed again"]%string eq_refl Hcs).
Defined.

(** ** The handshake *)

Section HandshakeMore.
Context `{J : JSON}.

(** X6.  The answer of the transport makes [connectAsync] publish
    [Online] exactly when it is a response with status 200 and exactly
    one stream whose JSON parses; the conversation id is then replaced by
    the one of the response, even an undefined one, and nothing else
    changes.  In every other case the only effect is one [disconnect] and
    the state is untouched. *)
Theorem handshake_answer_characterized (s : State) (h : Handshake) :
  (forall (response : IReceiveResponse) (stream0 : ContentStream) (c : option string),
      h = HandshakeResponse response ->
      statusCode response = 200 ->
      resp_streams response = Some [stream0] ->
      parse_conversationId (readAsString stream0) = Some c ->
      DirectLineStreaming.connectAsync_response s h
      = (set_connectionStatus Online (set_conversationId c s),
         [StatusNext Online], true)) /\
  (DirectLineStreaming.connectAsync_response s h = (s, [Disconnect], false) \/
   exists (response : IReceiveResponse) (stream0 : ContentStream) (c : option string),
     h = HandshakeResponse response /\
     statusCode response = 200 /\
     resp_streams response = Some [stream0] /\
     parse_conversationId (readAsString stream0) = Some c /\
     DirectLineStreaming.connectAsync_response s h
     = (set_connectionStatus Online (set_conversationId c s),
        [StatusNext Online], true)).
Proof.
  split.
  - intros response stream0 c -> Hcode Hstreams Hparse.
    unfold DirectLineStreaming.connectAsync_response.
    rewrite Hcode, Hstreams. cbn. now rewrite Hparse.
  - unfold DirectLineStreaming.connectAsync_response.
    destruct h as [e|response]; [now left|].
    destruct (Z.eqb_spec (statusCode response) 200) as [Hcode|Hcode]; [|now left].
    cbn [negb].
    destruct (resp_streams response) as [l|] eqn:Hstreams; [|now left].
    destruct l as [|stream0 [|stream1 l]]; try (now left).
    cbn [List.length Nat.eqb negb].
    destruct (parse_conversationId (readAsString stream0)) as [c|] eqn:Hparse;
      [|now left].
    right. exists response, stream0, c. repeat split; auto.
Qed.

(** X7.  A whole successful connection on a domain that begins with
    [http]: [connectAsync] up to the send, a good answer, and the rest
    after the wait.  Together they publish [Online] and then the queued
    activities in order, and leave the controller online with the
    conversation id of the response, an empty queue, [queueActivities]
    false and the retry counter at [MAX_RETRY_COUNT]; the token and the
    domain are as before. *)
Theorem successful_connection_cycle (s : State) (response : IReceiveResponse)
  (stream0 : ContentStream) (c : option string) :
  String.prefix "http" (domain s) = true ->
  statusCode response = 200 ->
  resp_streams response = Some [stream0] ->
  parse_conversationId (readAsString stream0) = Some c ->
  let s1 := fst (DirectLineStreaming.connectAsync_start s) in
  let r2 := DirectLineStreaming.connectAsync_response s1 (HandshakeResponse response) in
  let r3 := DirectLineStreaming.connectAsync_resume (fst (fst r2)) in
  snd (DirectLineStreaming.connectAsync_start s) = Resolved tt /\
  snd r2 = true /\
  snd (fst r2) ++ snd r3 = StatusNext Online :: map SubscriberNext (activityQueue s) /\
  fst r3 = {| connectionStatus := Online;
              retryCount := MAX_RETRY_COUNT;
              domain := domain s;
              conversationId := c;
              token := token s;
              streamConnection := true;
              queueActivities := false;
              activityQueue := [] |}.
Proof.
  intros Hdom Hcode Hstreams Hparse s1 r2 r3.
  assert (DirectLineStreaming.connectAsync_start s
          = (set_queueActivities true (set_streamConnection true s), Resolved tt))
    as Hstart.
  { unfold DirectLineStreaming.connectAsync_start. now rewrite Hdom. }
  assert (r2 = (set_connectionStatus Online (set_conversationId c s1),
                [StatusNext Online], true)) as Hr2.
  { unfold r2, DirectLineStreaming.connectAsync_response.
    rewrite Hcode, Hstreams. cbn. now rewrite Hparse. }
  unfold r3. rewrite Hr2. unfold s1. rewrite Hstart.
  repeat split.
Qed.

End HandshakeMore.

Lemma successful_connection_cycle_witness :
  String.prefix "http" (domain demo_online_state) = true /\
  parse_conversationId (JSON := demo_JSON) "{conversationId:c2}" = Some (Some "c2"%string) /\
  fst (DirectLineStreaming.connectAsync_resume
         (fst (fst (DirectLineStreaming.connectAsync_response (J := demo_JSON)
                      (fst (DirectLineStreaming.connectAsync_start demo_online_state))
                      (HandshakeResponse
                         {| statusCode := 200;
                            resp_streams :=
                              Some [mkContentStream "application/json"
                                      "{conversationId:c2}"] |})))))
  = {| connectionStatus := Online; retryCount := MAX_RETRY_COUNT;
       domain := domain demo_online_state;
       conversationId := Some "c2"%string;
       token := token demo_online_state;
       streamConnection := true; queueActivities := false; activityQueue := [] |}.
Proof.
  assert (parse_conversationId (JSON := demo_JSON) "{conversationId:c2}"
          = Some (Some "c2"%string)) as Hparse by (vm_compute; reflexivity).
  split; [reflexivity|]. split; [exact Hparse|].
  destruct (successful_connection_cycle (J := demo_JSON) demo_online_state
              {| statusCode := 200;
                 resp_streams :=
                   Some [mkContentStream "application/json" "{conversationId:c2}"] |}
              (mkContentStream "application/json" "{conversationId:c2}")
              (Some "c2"%string) eq_refl eq_refl eq_refl Hparse)
    as (_ & _ & _ & Hfinal).
  exact Hfinal.
Defined.

(** ** The domain and the transport *)

Section DomainMore.
Context `{J : JSON}.

(** Among calls that all wait, there is none to continue. *)
Lemma take_among_waiting (call : RefreshCall) (calls : list RefreshCall) :
  forallb is_Waiting calls = true -> is_Waiting call = false ->
  take call calls = None.
Proof.
  intros Hall Hcall. induction calls as [|c calls IH]; [reflexivity|].
  cbn [forallb] in Hall. apply andb_true_iff in Hall. destruct Hall as [Hc Hall].
  cbn [take]. rewrite (IH Hall).
  destruct call, c; try discriminate; reflexivity.
Qed.

Lemma connectAsync_start_invalid (s : State) :
  String.prefix "http" (domain s) = false ->
  DirectLineStreaming.connectAsync_start s
  = (s, Rejected "Domain must begin with http or https").
Proof.
  intros Hdom. unfold DirectLineStreaming.connectAsync_start. now rewrite Hdom.
Qed.

Lemma step_never_connected (m m' : Machine) (ev : Event) (out : list Effect) :
  never_connected m -> step m ev = Some (m', out) ->
  never_connected m' /\ onlines out = 0%nat /\ nexts out = [] /\
  posts out = 0%nat /\ disconnects out = 0%nat.
Proof.
  unfold never_connected. intros (Hdom & Hc & Ho & Hsc & Hq & Hcs & Hw) Hstep.
  destruct ev; cbn [step] in Hstep.
  - unfold DirectLineStreaming.reconnect in Hstep.
    rewrite connectAsync_start_invalid in Hstep by exact Hdom.
    inversion Hstep; subst; clear Hstep. cbn. repeat split; auto; lia.
  - unfold DirectLineStreaming.end_ in Hstep.
    cbn [streamConnection set_connectionStatus] in Hstep. rewrite Hsc in Hstep.
    inversion Hstep; subst; clear Hstep. cbn. repeat split; auto; discriminate.
  - rewrite Hc in Hstep. discriminate.
  - rewrite Ho in Hstep. discriminate.
  - destruct (routed request) as [a|] eqn:Hrouted.
    + rewrite (processRequest_routed _ _ _ Hrouted), Hq in Hstep.
      inversion Hstep; subst; clear Hstep. cbn. repeat split; auto.
    + destruct (processRequest_not_routed (controller m) request Hrouted)
        as (effs & r & E & [-> | ->]); rewrite E in Hstep;
        inversion Hstep; subst; clear Hstep; cbn; repeat split; auto.
  - destruct (disconnectionHandler_cases (controller m) e)
      as [(? & E)|[(? & ? & E)|[(? & ? & ? & E)|(? & ? & ? & E)]]];
      rewrite E in Hstep; inversion Hstep; subst; clear Hstep; cbn;
      repeat split; auto; try lia; discriminate.
  - destruct (timers m); [discriminate|].
    rewrite connectAsync_start_invalid in Hstep by exact Hdom.
    inversion Hstep; subst; clear Hstep. cbn. repeat split; auto; lia.
  - destruct (refreshToken_cases (controller m) retryCount0)
      as [(_ & E)|[(? & _)|(_ & _ & E)]]; [|contradiction|];
      rewrite E in Hstep; inversion Hstep; subst; clear Hstep; cbn;
      repeat split; auto.
  - rewrite take_among_waiting in Hstep by auto. discriminate.
  - rewrite take_among_waiting in Hstep by auto. discriminate.
Qed.

Lemma posts_app (l1 l2 : list Effect) : posts (l1 ++ l2) = (posts l1 + posts l2)%nat.
Proof. unfold posts. now rewrite filter_app, length_app. Qed.

Lemma run_never_connected (evs : list Event) (m0 m : Machine) (out : list Effect) :
  run m0 evs = Some (m, out) -> never_connected m0 ->
  never_connected m /\ onlines out = 0%nat /\ nexts out = [] /\
  posts out = 0%nat /\ disconnects out = 0%nat.
Proof.
  revert evs m0 m out.
  apply (run_induction (fun m0 _ m out =>
    never_connected m0 ->
    never_connected m /\ onlines out = 0%nat /\ nexts out = [] /\
    posts out = 0%nat /\ disconnects out = 0%nat)).
  - intros m0 H0. split; [exact H0|]. now repeat split.
  - intros m0 ev m1 o1 evs0 m2 o2 Hstep _ IH H0.
    destruct (step_never_connected _ _ _ _ H0 Hstep) as (H1 & Ha & Hb & Hc & Hd).
    destruct (IH H1) as (H2 & Ha2 & Hb2 & Hc2 & Hd2).
    rewrite onlines_app, nexts_app, posts_app, disconnects_app.
    rewrite Ha, Ha2, Hb, Hb2, Hc, Hc2, Hd, Hd2. split; [exact H2|]. now repeat split.
Qed.

(** X8.  With a domain that does not begin with [http], [connectAsync]
    throws before it creates a transport, at the subscription and at
    every reconnect: no handshake is ever in flight, [Online] is never
    published, no activity is ever passed to the subscriber, no refresh
    request is sent and [disconnect] is never called; [end()] publishes
    [Ended] and then throws, since there is no transport. *)
Theorem invalid_domain_never_connects (options : DirectLineStreamingOptions)
  (evs : list Event) (m : Machine) (out : list Effect) :
  String.prefix "http" (opt_domain options) = false ->
  run (init options) evs = Some (m, out) ->
  connecting m = 0%nat /\ observing m = 0%nat /\
  streamConnection (controller m) = false /\
  onlines out = 0%nat /\ nexts out = [] /\
  posts out = 0%nat /\ disconnects out = 0%nat /\
  exists e : string,
    DirectLineStreaming.end_ (controller m)
    = (set_connectionStatus Ended (controller m), [StatusNext Ended], Rejected e).
Proof.
  intros Hdom Hrun.
  assert (never_connected (init options)) as Hinit.
  { unfold never_connected, init, subscribe, DirectLineStreaming.constructor.
    cbn [fst].
    rewrite connectAsync_start_invalid by exact Hdom.
    cbn. repeat split; auto. discriminate. }
  destruct (run_never_connected _ _ _ _ Hrun Hinit) as (Hm & Hon & Hnx & Hp & Hd).
  destruct Hm as (_ & Hc & Ho & Hsc & _ & _ & _).
  repeat split; auto.
  unfold DirectLineStreaming.end_. cbn [streamConnection set_connectionStatus].
  rewrite Hsc. now eexists.
Qed.

Lemma step_streamConnection (m m' : Machine) (ev : Event) (out : list Effect) :
  step m ev = Some (m', out) ->
  streamConnection (controller m) = true -> streamConnection (controller m') = true.
Proof.
  intros Hstep Hsc. destruct ev; step_cases Hstep; auto; congruence.
Qed.

Lemma run_streamConnection (evs : list Event) (m0 m : Machine) (out : list Effect) :
  run m0 evs = Some (m, out) ->
  streamConnection (controller m0) = true -> streamConnection (controller m) = true.
Proof.
  revert evs m0 m out.
  apply (run_induction (fun m0 _ m _ =>
    streamConnection (controller m0) = true ->
    streamConnection (controller m) = true)); auto.
  intros m0 ev m1 o1 evs0 m2 o2 Hstep _ IH H0.
  apply IH. eapply step_streamConnection; eauto.
Qed.

(** X9.  With a domain that begins with [http] the subscription creates
    the transport, and nothing ever removes it: in every state the
    controller reaches, [end()] publishes [Ended], calls [disconnect]
    once and does not throw. *)
Theorem valid_domain_end_disconnects (options : DirectLineStreamingOptions)
  (evs : list Event) (m : Machine) (out : list Effect) :
  String.prefix "http" (opt_domain options) = true ->
  run (init options) evs = Some (m, out) ->
  streamConnection (controller m) = true /\
  DirectLineStreaming.end_ (controller m)
  = (set_connectionStatus Ended (controller m), [StatusNext Ended; Disconnect],
     Resolved tt).
Proof.
  intros Hdom Hrun.
  assert (streamConnection (controller (init options)) = true) as Hinit.
  { unfold init, subscribe, DirectLineStreaming.constructor,
      DirectLineStreaming.connectAsync_start.
    cbn [fst domain set_activityQueue].
    rewrite Hdom. reflexivity. }
  pose proof (run_streamConnection _ _ _ _ Hrun Hinit) as Hsc.
  split; [exact Hsc|].
  unfold DirectLineStreaming.end_. cbn [streamConnection set_connectionStatus].
  now rewrite Hsc.
Qed.

End DomainMore.

(** A controller configured with a websocket URL instead of an http one. *)
Lemma invalid_domain_never_connects_witness :
  String.prefix "http"
    (opt_domain {| opt_token := "secret"; opt_conversationId := None;
                   opt_domain := "wss://example.com"; opt_botAgent := None |})
  = false /\
  run (J := demo_JSON)
      (init {| opt_token := "secret"; opt_conversationId := None;
               opt_domain := "wss://example.com"; opt_botAgent := None |})
      [Reconnect {| conv_conversationId := Some "c1"%string;
                    conv_token := Some "fresh"%string |};
       Request (demo_request "{activities:[{id:A}]}" []);
       End]
  = Some ({| controller :=
               {| connectionStatus := Ended; retryCount := 3;
                  domain := "wss://example.com";
                  conversationId := Some "c1"%string;
                  token := Some "fresh"%string;
                  streamConnection := false; queueActivities := true;
                  activityQueue := [demo_activity "A" None] |};
             connecting := 0; observing := 0; timers := 0;
             refreshing := [] |},
          [StatusNext Ended]) /\
  onlines [StatusNext Ended] = 0%nat.
Proof.
  assert (run (J := demo_JSON)
            (init {| opt_token := "secret"; opt_conversationId := None;
                     opt_domain := "wss://example.com"; opt_botAgent := None |})
            [Reconnect {| conv_conversationId := Some "c1"%string;
                          conv_token := Some "fresh"%string |};
             Request (demo_request "{activities:[{id:A}]}" []);
             End]
          = Some ({| controller :=
                       {| connectionStatus := Ended; retryCount := 3;
                          domain := "wss://example.com";
                          conversationId := Some "c1"%string;
                          token := Some "fresh"%string;
                          streamConnection := false; queueActivities := true;
                          activityQueue := [demo_activity "A" None] |};
                     connecting := 0; observing := 0; timers := 0;
             refreshing := [] |},
                  [StatusNext Ended])) as Hrun
    by (vm_compute; reflexivity).
  split; [reflexivity|]. split; [exact Hrun|].
  destruct (invalid_domain_never_connects (J := demo_JSON)
              {| opt_token := "secret"; opt_conversationId := None;
                 opt_domain := "wss://example.com"; opt_botAgent := None |}
              _ _ _ eq_refl Hrun)
    as (_ & _ & _ & Hon & _).
  exact Hon.
Defined.

Lemma valid_domain_end_disconnects_witness :
  String.prefix "http" (opt_domain demo_options) = true /\
  run (J := demo_JSON) (init demo_options) [Answered (TransportThrows "refused")]
  = Some ({| controller :=
               {| connectionStatus := Uninitialized; retryCount := 3;
                  domain := "https://example.com/v3/directline";
                  conversationId := None; token := Some "secret"%string;
                  streamConnection := true; queueActivities := true;
                  activityQueue := [] |};
             connecting := 0; observing := 0; timers := 0;
             refreshing := [] |},
          [Disconnect]) /\
  streamConnection
    {| connectionStatus := Uninitialized; retryCount := 3;
       domain := "https://example.com/v3/directline";
       conversationId := None; token := Some "secret"%string;
       streamConnection := true; queueActivities := true;
       activityQueue := [] |} = true.
Proof.
  assert (run (J := demo_JSON) (init demo_options) [Answered (TransportThrows "refused")]
          = Some ({| controller :=
                       {| connectionStatus := Uninitialized; retryCount := 3;
                          domain := "https://example.com/v3/directline";
                          conversationId := None; token := Some "secret"%string;
                          streamConnection := true; queueActivities := true;
                          activityQueue := [] |};
                     connecting := 0; observing := 0; timers := 0;
             refreshing := [] |},
                  [Disconnect])) as Hrun
    by (vm_compute; reflexivity).
  split; [reflexivity|]. split; [exact Hrun|].
  destruct (valid_domain_end_disconnects (J := demo_JSON) demo_options _ _ _
              eq_refl Hrun) as (Hsc & _).
  exact Hsc.
Defined.

(** ** The URL of the transport *)

Section Url.

Lemma prefix_split (p s : string) :
  String.prefix p s = true ->
  s = String.append p (String.substring (String.length p)
                         (String.length s - String.length p) s).
Proof.
  revert s. induction p as [|c p IH]; intros s H.
  - cbn. rewrite Nat.sub_0_r.
    clear H. induction s as [|d s IHs]; cbn; [reflexivity|]. now rewrite <- IHs.
  - destruct s as [|d s]; [discriminate H|].
    cbn in H. destruct (Ascii.ascii_dec c d) as [->|]; [|discriminate H].
    cbn. f_equal. now apply IH.
Qed.

Lemma prefix_cons (a b : Ascii.ascii) (p s : string) :
  String.prefix (String a p) (String b s) = true -> a = b /\ String.prefix p s = true.
Proof.
  change (String.prefix (String a p) (String b s))
    with (if Ascii.ascii_dec a b then String.prefix p s else false).
  destruct (Ascii.ascii_dec a b); [auto | discriminate].
Qed.

Lemma append_assoc (a b c : string) :
  String.append (String.append a b) c = String.append a (String.append b c).
Proof. induction a as [|x a IH]; cbn; [reflexivity|]. now rewrite IH. Qed.

Lemma substring_all (r : string) : String.substring 0 (String.length r) r = r.
Proof. induction r as [|c r IH]; cbn; [reflexivity|]. now rewrite IH. Qed.

Lemma substring_append (p r : string) :
  String.substring (String.length p)
    (String.length (String.append p r) - String.length p) (String.append p r) = r.
Proof.
  induction p as [|c p IH]; cbn [String.length String.append].
  - rewrite Nat.sub_0_r. apply substring_all.
  - cbn [String.substring Nat.sub]. exact IH.
Qed.

(** The regular expression and its replacement swap [http] for [ws]
    and keep the rest, the [s] of [https] included. *)
Lemma replace_scheme_http (rest : string) :
  replace_scheme (String.append "http" rest) = String.append "ws" rest.
Proof.
  unfold replace_scheme.
  destruct (String.prefix "https" (String.append "http" rest)) eqn:Hs.
  - assert (exists rest', rest = String.append "s" rest') as (rest' & ->).
    { destruct rest as [|c rest']; [discriminate Hs|].
      cbn [String.append] in Hs.
      do 4 (apply prefix_cons in Hs; destruct Hs as [_ Hs]).
      apply prefix_cons in Hs. destruct Hs as [<- _]. now exists rest'. }
    change (String.append "http" (String.append "s" rest'))
      with (String.append "https" rest').
    pose proof (substring_append "https" rest') as E.
    cbn [String.length] in E. rewrite E. reflexivity.
  - rewrite prefix_append.
    pose proof (substring_append "http" rest) as E.
    cbn [String.length] in E. rewrite E. reflexivity.
Qed.

(** X10.  For a domain that begins with [http], the URL handed to the
    transport is the domain with [http] swapped for [ws] (so [https]
    gives [wss]) and the rest of the domain, path included, untouched,
    followed by [/conversations/connect?token=...]; the domain can be read
    back from it.  The [conversationId] parameter is there exactly when
    the controller has a non-empty conversation id, and [connectAsync]
    goes on to create the transport.  A domain that does not begin with
    [http] gives no URL: [connectAsync] throws "Domain must begin with
    http or https" and changes nothing.  The expression does not ask for
    [://]: any text that begins with [http] passes. *)
Theorem transport_url (encode : string -> string) (s : State) :
  String.prefix "http" (domain s) = true ->
  (exists rest : string,
    domain s = String.append "http" rest /\
    replace_scheme (domain s) = String.append "ws" rest /\
    String.prefix "ws" (replace_scheme (domain s)) = true /\
    (String.prefix "https" (domain s) = true ->
     String.prefix "wss" (replace_scheme (domain s)) = true) /\
    wsUrl encode s
    = Resolved
        (String.append "ws"
           (String.append rest
              (String.append "/conversations/connect?token="
                 (String.append (encode (render_null (token s)))
                    (match conversationId s with
                     | None => ""
                     | Some c =>
                         if String.eqb c "" then ""
                         else String.append "&conversationId=" (encode c)
                     end)))))) /\
  DirectLineStreaming.connectAsync_start s
  = (set_queueActivities true (set_streamConnection true s), Resolved tt) /\
  (forall s0 : State,
      String.prefix "http" (domain s0) = false ->
      wsUrl encode s0 = Rejected "Domain must begin with http or https" /\
      DirectLineStreaming.connectAsync_start s0
      = (s0, Rejected "Domain must begin with http or https")) /\
  (forall (s0 : State) (rest : string),
      domain s0 = String.append "http" rest ->
      exists url : string, wsUrl encode s0 = Resolved url).
Proof.
  intros Hdom.
  split; [|split; [|split]];
    [| unfold DirectLineStreaming.connectAsync_start; now rewrite Hdom
     | intros s0 Hdom0; unfold wsUrl, DirectLineStreaming.connectAsync_start;
       now rewrite Hdom0
     | intros s0 rest0 Hrest; unfold wsUrl; rewrite Hrest, prefix_append;
       now eexists ].
  pose proof (prefix_split _ _ Hdom) as Hsplit.
  cbn [String.length] in Hsplit.
  set (rest := String.substring 4 (String.length (domain s) - 4) (domain s)) in *.
  clearbody rest.
  exists rest. split; [exact Hsplit|].
  assert (replace_scheme (domain s) = String.append "ws" rest) as Hrep
    by (rewrite Hsplit; apply replace_scheme_http).
  split; [exact Hrep|]. split; [rewrite Hrep; apply prefix_append|]. split.
  - intros Hs. rewrite Hrep. rewrite Hsplit in Hs.
    destruct rest as [|c rest']; [discriminate Hs|].
    cbn [String.append] in Hs.
    do 4 (apply prefix_cons in Hs; destruct Hs as [_ Hs]).
    apply prefix_cons in Hs. destruct Hs as [<- _].
    exact (prefix_append "wss" rest').
  - unfold wsUrl. rewrite Hdom. cbn [negb]. rewrite Hrep. unfold urlSearchParams.
    f_equal. rewrite append_assoc. do 2 f_equal.
    rewrite <- append_assoc.
    change (String.append "/conversations/connect?" "token=")
      with "/conversations/connect?token="%string.
    do 2 f_equal. unfold truthy, render.
    destruct (conversationId s) as [c|]; [|reflexivity].
    now destruct (String.eqb c "").
Qed.

End Url.

(** The URL-rewrite example of the spec, with the identity as encoding. *)
Lemma transport_url_witness :
  String.prefix "http" (domain demo_online_state) = true /\
  wsUrl (fun v => v) demo_online_state
  = Resolved
      "wss://example.com/v3/directline/conversations/connect?token=secret&conversationId=c1"%string.
Proof.
  split; [reflexivity|].
  destruct (transport_url (fun v => v) demo_online_state eq_refl)
    as ((rest & Hsplit & _ & _ & _ & Hurl) & _).
  rewrite Hurl. cbn [demo_online_state domain] in Hsplit.
  cbn [String.append] in Hsplit. injection Hsplit as <-.
  vm_compute. reflexivity.
Defined.

(** ** reconnect() *)

Section ReconnectMore.


End ReconnectMore.


(** ** The token refresher, further *)

Section RefresherMore.
Context `{J : JSON}.

Lemma posts_map_SubscriberNext (q : list Activity) :
  posts (map SubscriberNext q) = 0%nat.
Proof. induction q as [|a q IH]; simpl; auto. Qed.

Lemma requests_pending_resolve (calls : list RefreshCall) :
  requests_pending (map resolve calls) = requests_pending calls.
Proof.
  induction calls as [|c calls IH]; [reflexivity|].
  cbn [map requests_pending]. rewrite IH. now destruct c.
Qed.

Lemma take_requests_pending (call : RefreshCall) (calls : list RefreshCall) :
  forall rest : list RefreshCall,
    take call calls = Some rest ->
    requests_pending calls = (requests_left call + requests_pending rest)%nat.
Proof.
  induction calls as [|c calls IH]; intros rest H; [discriminate H|].
  cbn [take] in H. destruct (RefreshCall_eqb call c) eqn:Heq.
  - injection H as <-. cbn [requests_pending]. f_equal.
    destruct call, c; try discriminate Heq; cbn in Heq;
      apply Z.eqb_eq in Heq; now subst.
  - destruct (take call calls) as [rest'|]; [|discriminate H].
    injection H as <-. cbn [requests_pending]. rewrite (IH rest' eq_refl). lia.
Qed.

(** The callbacks of a request send nothing themselves, and leave at
    most a call that may send as many requests as there are retries left. *)
Lemma refreshToken_subscriber_requests (s s' : State) (retryCount0 : Z)
  (reply : AjaxReply) (effects : list Effect) (call : option RefreshCall) :
  DirectLineStreaming.refreshToken_subscriber s retryCount0 reply = (s', effects, call) ->
  posts effects = 0%nat /\
  (requests_pending (suspended call) <= Z.to_nat retryCount0)%nat.
Proof.
  unfold DirectLineStreaming.refreshToken_subscriber. intros H.
  destruct reply as [t|status].
  { inversion H; subst; clear H. cbn. split; [reflexivity | lia]. }
  destruct ((status =? 403) || (status =? 404)).
  { inversion H; subst; clear H. cbn. split; [reflexivity | lia]. }
  destruct (Z.gtb_spec retryCount0 0).
  - destruct (refreshToken_cases s (retryCount0 - 1)) as [(_ & E)|[(_ & E)|(_ & _ & E)]];
      rewrite E in H; inversion H; subst; clear H; cbn; split; auto; lia.
  - inversion H; subst; clear H. cbn. split; [reflexivity | lia].
Qed.

Lemma step_requests (m m' : Machine) (ev : Event) (out : list Effect) :
  step m ev = Some (m', out) ->
  (posts out + requests_pending (refreshing m')
   <= requests_pending (refreshing m) + requests_allowed [ev])%nat.
Proof.
  intros Hstep.
  destruct ev;
    try solve [ step_cases Hstep;
                rewrite ?posts_map_SubscriberNext, ?requests_pending_resolve;
                cbn -[Z.to_nat]; lia ].
  - cbn [step] in Hstep.
    destruct (take (Ready retryCount0) (refreshing m)) as [calls|] eqn:Htake;
      [|discriminate].
    inversion Hstep; subst; clear Hstep.
    rewrite (take_requests_pending _ _ _ Htake). cbn -[Z.to_nat]. lia.
  - cbn [step] in Hstep.
    destruct (take (InFlight retryCount0) (refreshing m)) as [calls|] eqn:Htake;
      [|discriminate].
    destruct (DirectLineStreaming.refreshToken_subscriber (controller m) retryCount0 reply)
      as [[s effects] call] eqn:E.
    inversion Hstep; subst; clear Hstep.
    apply refreshToken_subscriber_requests in E. destruct E as [-> Hcall].
    rewrite (take_requests_pending _ _ _ Htake).
    cbn -[Z.to_nat requests_pending].
    assert (forall a b, requests_pending (a ++ b)
                        = (requests_pending a + requests_pending b)%nat) as Happ.
    { induction a as [|c a IH]; intros b; cbn [app requests_pending];
        [reflexivity|]. rewrite IH. lia. }
    rewrite Happ. lia.
Qed.

Lemma run_requests (evs : list Event) (m0 m : Machine) (out : list Effect) :
  run m0 evs = Some (m, out) ->
  (posts out + requests_pending (refreshing m)
   <= requests_pending (refreshing m0) + requests_allowed evs)%nat.
Proof.
  revert evs m0 m out.
  apply (run_induction (fun m0 evs m out =>
    (posts out + requests_pending (refreshing m)
     <= requests_pending (refreshing m0) + requests_allowed evs)%nat)).
  - intros m0. cbn. lia.
  - intros m0 ev m1 o1 evs0 m2 o2 Hstep _ IH.
    pose proof (step_requests _ _ _ _ Hstep) as H1.
    rewrite posts_app.
    assert (requests_allowed (ev :: evs0)
            = (requests_allowed [ev] + requests_allowed evs0)%nat) as ->
      by (destruct ev; cbn -[Z.to_nat]; lia).
    lia.
Qed.

(** Until [Online] is published the controller is not online and every
    call waits, so no request is sent. *)
Lemma step_before_online (m m' : Machine) (ev : Event) (out : list Effect) :
  step m ev = Some (m', out) ->
  connectionStatus (controller m) <> Online ->
  forallb is_Waiting (refreshing m) = true ->
  onlines out = 0%nat ->
  connectionStatus (controller m') <> Online /\
  forallb is_Waiting (refreshing m') = true /\
  posts out = 0%nat.
Proof.
  intros Hstep Hcs Hw Hon.
  destruct ev;
    try solve [ step_cases Hstep; rewrite ?posts_map_SubscriberNext;
                try discriminate Hon;
                repeat split; auto; try congruence; discriminate ].
  - cbn [step] in Hstep. rewrite take_among_waiting in Hstep by auto. discriminate.
  - cbn [step] in Hstep. rewrite take_among_waiting in Hstep by auto. discriminate.
Qed.

Lemma run_before_online (evs : list Event) (m0 m : Machine) (out : list Effect) :
  run m0 evs = Some (m, out) ->
  connectionStatus (controller m0) <> Online ->
  forallb is_Waiting (refreshing m0) = true ->
  onlines out = 0%nat ->
  posts out = 0%nat.
Proof.
  revert evs m0 m out.
  apply (run_induction (fun m0 _ m out =>
    connectionStatus (controller m0) <> Online ->
    forallb is_Waiting (refreshing m0) = true ->
    onlines out = 0%nat -> posts out = 0%nat)).
  - reflexivity.
  - intros m0 ev m1 o1 evs0 m2 o2 Hstep _ IH Hcs Hw Hon.
    rewrite onlines_app in Hon.
    destruct (step_before_online _ _ _ _ Hstep Hcs Hw) as (Hcs1 & Hw1 & Hp1); [lia|].
    rewrite posts_app, Hp1. apply IH; auto. lia.
Qed.

(** X12.  In every run the refresher sends at most one request per
    tick and one more per unit of the tick's budget, beyond what the calls
    already under way may send.  Only the continuation of a call after
    its wait sends a request, and the request carries the token the
    controller holds at that moment.  A tick that fires while the
    controller is neither online nor ended waits, and its request goes out
    once [Online] is published.  While the controller is not online and
    every call waits, nothing is sent until [Online] is published; so
    from the first subscription on, no request is sent before the first
    [Online]. *)
Theorem refresh_tick_requests_bounded (evs : list Event) (m m' : Machine)
  (out : list Effect) :
  run m evs = Some (m', out) ->
  (posts out + requests_pending (refreshing m')
   <= requests_pending (refreshing m) + requests_allowed evs)%nat /\
  (forall (m0 m1 : Machine) (ev : Event) (o : list Effect) (b : option string),
      step m0 ev = Some (m1, o) ->
      In (AjaxPostRefresh b) o ->
      (exists retryCount0 : Z, ev = RefreshResumed retryCount0) /\
      o = [AjaxPostRefresh (token (controller m0))] /\
      controller m1 = controller m0) /\
  (forall (m0 : Machine) (retryCount0 : Z) (n : nat) (h : Handshake) (s : State),
      connectionStatus (controller m0) <> Online ->
      connectionStatus (controller m0) <> Ended ->
      connecting m0 = S n ->
      DirectLineStreaming.connectAsync_response (controller m0) h
      = (s, [StatusNext Online], true) ->
      step m0 (RefreshTick retryCount0)
      = Some (mkMachine (controller m0) (connecting m0) (observing m0) (timers m0)
                        (Waiting retryCount0 :: refreshing m0), []) /\
      run m0 [RefreshTick retryCount0; Answered h; RefreshResumed retryCount0]
      = Some (mkMachine s n (observing m0 + 1) (timers m0)
                        (InFlight retryCount0 :: map resolve (refreshing m0)),
              [StatusNext Online; AjaxPostRefresh (token s)])) /\
  (forall (m0 m1 : Machine) (evs0 : list Event) (out0 : list Effect),
      connectionStatus (controller m0) <> Online ->
      forallb is_Waiting (refreshing m0) = true ->
      run m0 evs0 = Some (m1, out0) ->
      onlines out0 = 0%nat -> posts out0 = 0%nat) /\
  (forall (options : DirectLineStreamingOptions) (evs0 : list Event)
          (m0 : Machine) (out0 : list Effect),
      run (init options) evs0 = Some (m0, out0) ->
      onlines out0 = 0%nat -> posts out0 = 0%nat).
Proof.
  intros Hrun. split; [now apply run_requests|]. split; [|split; [|split]].
  - intros m0 m1 ev o b Hstep Hin.
    destruct ev;
      try solve [ step_cases Hstep;
                  repeat match goal with
                         | H : In _ (map SubscriberNext _) |- _ =>
                             apply in_map_iff in H; destruct H as (? & H & _)
                         | H : In _ (_ :: _) |- _ => destruct H as [H|H]
                         | H : In _ [] |- _ => destruct H
                         end; discriminate ].
    + cbn [step] in Hstep.
      destruct (take (Ready retryCount0) (refreshing m0)); [|discriminate].
      inversion Hstep; subst; clear Hstep.
      split; [now exists retryCount0|]. split; reflexivity.
    + cbn [step] in Hstep.
      destruct (take (InFlight retryCount0) (refreshing m0)); [|discriminate].
      destruct (DirectLineStreaming.refreshToken_subscriber (controller m0)
                  retryCount0 reply) as [[s effects] call] eqn:E.
      inversion Hstep; subst; clear Hstep.
      apply refreshToken_subscriber_requests in E. destruct E as [Hp _].
      exfalso. clear -Hp Hin. unfold posts in Hp.
      induction o as [|eff o IH]; [destruct Hin|].
      destruct Hin as [->|Hin]; [discriminate Hp|].
      cbn [filter] in Hp. destruct (is_AjaxPostRefresh eff); [discriminate Hp | auto].
  - intros m0 rc n h s Hcs Hended Hconn Hresp.
    assert (DirectLineStreaming.refreshToken (controller m0) false rc
            = ([], Some (Waiting rc))) as E.
    { destruct (refreshToken_cases (controller m0) rc)
        as [(? & _)|[(? & _)|(_ & _ & E)]]; [contradiction | contradiction | exact E]. }
    split.
    + cbn [step]. now rewrite E.
    + cbn [run step]. rewrite E.
      cbn [controller connecting observing timers refreshing suspended app map resolve].
      rewrite Hconn, Hresp.
      cbn [controller connecting observing timers refreshing]. rewrite take_head.
      reflexivity.
  - intros m0 m1 evs0 out0 Hcs Hw Hrun0 Hon.
    now apply (run_before_online _ _ _ _ Hrun0).
  - intros options evs0 m0 out0 Hrun0 Hon.
    destruct (init_facts options) as (_ & _ & _ & _ & Hcs0 & _).
    apply (run_before_online _ _ _ _ Hrun0); auto.
    + rewrite Hcs0. discriminate.
    + unfold init, subscribe.
      now destruct (DirectLineStreaming.connectAsync_start _).
Qed.

(** With no call under way there is nothing to continue. *)
Lemma run_no_call (evs : list Event) (m m' : Machine) (out : list Effect) :
  refreshing m = [] ->
  forallb is_refresh_event evs = true ->
  run m evs = Some (m', out) ->
  evs = [] /\ m' = m /\ out = [].
Proof.
  intros Hcalls Hall Hrun. destruct evs as [|ev evs].
  - cbn in Hrun. inversion Hrun. now repeat split.
  - cbn [forallb] in Hall. apply andb_true_iff in Hall. destruct Hall as [Hev _].
    cbn [run] in Hrun.
    destruct ev; try discriminate Hev; cbn [step] in Hrun;
      rewrite Hcalls in Hrun; discriminate Hrun.
Qed.

Lemma take_single (call c : RefreshCall) (calls rest : list RefreshCall) :
  (List.length (c :: calls) <= 1)%nat ->
  take call (c :: calls) = Some rest ->
  c = call /\ calls = [] /\ rest = [].
Proof.
  intros Hlen H. destruct calls as [|c' calls]; [|cbn in Hlen; lia].
  cbn [take] in H. destruct (RefreshCall_eqb call c) eqn:Heq; [|discriminate H].
  injection H as <-. split; [|now split].
  destruct call, c; try discriminate Heq; cbn in Heq; apply Z.eqb_eq in Heq;
    now subst.
Qed.

Lemma reschedules_app (l1 l2 : list Effect) :
  reschedules (l1 ++ l2) = (reschedules l1 + reschedules l2)%nat.
Proof. unfold reschedules. now rewrite filter_app, length_app. Qed.

(** One call and its retries, with nothing else running. *)
Lemma refresh_call_outcome (evs : list Event) :
  forall (m m' : Machine) (out : list Effect),
    (List.length (refreshing m) <= 1)%nat ->
    forallb is_refresh_event evs = true ->
    run m evs = Some (m', out) ->
    (reschedules out + disconnects out <= 1)%nat /\
    (reschedules out = 0%nat -> disconnects out = 0%nat ->
     controller m' = controller m) /\
    (reschedules out = 1%nat ->
     exists t : option string,
       In t (refreshed evs) /\ controller m' = set_token t (controller m)) /\
    (disconnects out = 1%nat ->
     controller m' = controller m \/ controller m' = set_token None (controller m)).
Proof.
  induction evs as [|ev evs IH]; intros m m' out Hlen Hall Hrun.
  - cbn in Hrun. inversion Hrun; subst. cbn.
    repeat split; auto; try lia; discriminate.
  - cbn [forallb] in Hall. apply andb_true_iff in Hall. destruct Hall as [Hev Hall].
    cbn [run] in Hrun.
    destruct (step m ev) as [[m1 o1]|] eqn:Hstep; [|discriminate].
    destruct (run m1 evs) as [[m2 o2]|] eqn:Hrest; [|discriminate].
    inversion Hrun; subst m2 out; clear Hrun.
    destruct ev; try discriminate Hev; cbn [step] in Hstep.
    + (* the call continues after its wait *)
      destruct (take (Ready retryCount0) (refreshing m)) as [calls|] eqn:Htake;
        [|discriminate].
      inversion Hstep; subst m1 o1; clear Hstep.
      destruct (refreshing m) as [|c calls0] eqn:Hcalls; [discriminate Htake|].
      destruct (take_single _ _ _ _ Hlen Htake) as (-> & -> & ->).
      apply IH in Hrest; [|cbn; lia|exact Hall].
      cbn [controller refreshed] in Hrest |- *.
      destruct Hrest as (H1 & H2 & H3 & H4).
      unfold reschedules, disconnects in *.
      cbn [app filter is_SetTimeoutRefresh is_Disconnect]. now repeat split.
    + (* the reply *)
      destruct (take (InFlight retryCount0) (refreshing m)) as [calls|] eqn:Htake;
        [|discriminate].
      destruct (refreshing m) as [|c calls0] eqn:Hcalls; [discriminate Htake|].
      destruct (take_single _ _ _ _ Hlen Htake) as (-> & -> & ->).
      unfold DirectLineStreaming.refreshToken_subscriber in Hstep.
      destruct reply as [t|status].
      { inversion Hstep; subst m1 o1; clear Hstep.
        apply run_no_call in Hrest; [|reflexivity|exact Hall].
        destruct Hrest as (-> & -> & ->).
        cbn. repeat split; auto; try lia; try discriminate.
        intros _. exists t. split; [now left | reflexivity]. }
      destruct ((status =? 403) || (status =? 404)).
      { inversion Hstep; subst m1 o1; clear Hstep.
        apply run_no_call in Hrest; [|reflexivity|exact Hall].
        destruct Hrest as (-> & -> & ->).
        cbn. repeat split; auto; try lia; discriminate. }
      destruct (retryCount0 >? 0).
      * assert (exists call, m1 = mkMachine (controller m) (connecting m) (observing m)
                                    (timers m) (suspended call) /\ o1 = [])
          as (call & -> & ->).
        { destruct (refreshToken_cases (controller m) (retryCount0 - 1))
            as [(_ & E)|[(_ & E)|(_ & _ & E)]];
            rewrite E in Hstep; inversion Hstep; subst; clear Hstep;
            [ exists None | exists (Some (Ready (retryCount0 - 1)))
            | exists (Some (Waiting (retryCount0 - 1))) ];
            split; reflexivity. }
        assert (List.length (suspended call) <= 1)%nat as Hlen1
          by (destruct call; cbn; lia).
        apply IH in Hrest; [|exact Hlen1|exact Hall].
        cbn [controller refreshed app] in Hrest |- *. exact Hrest.
      * inversion Hstep; subst m1 o1; clear Hstep.
        apply run_no_call in Hrest; [|reflexivity|exact Hall].
        destruct Hrest as (-> & -> & ->).
        cbn. repeat split; auto; try lia; discriminate.
Qed.

(** X13.  One refresh tick, followed through its retries while
    nothing else runs, ends in at most one of two ways: it schedules the
    next tick, or it disconnects the transport, never both and never
    twice.  If it does neither (it is waiting, or its request is in
    flight) the state is untouched.  It schedules the next tick only after
    a successful reply, whose token it has stored; and whenever it changes
    the token otherwise, it has cleared it and disconnected. *)
Theorem refresh_tick_outcome (evs : list Event) :
  forall (m m' : Machine) (retryCount0 : Z) (out : list Effect),
    refreshing m = [] ->
    forallb is_refresh_event evs = true ->
    run m (RefreshTick retryCount0 :: evs) = Some (m', out) ->
    (reschedules out + disconnects out <= 1)%nat /\
    (reschedules out = 0%nat -> disconnects out = 0%nat ->
     controller m' = controller m) /\
    (reschedules out = 1%nat ->
     exists t : option string,
       In t (refreshed evs) /\ controller m' = set_token t (controller m)) /\
    (disconnects out = 1%nat ->
     controller m' = controller m \/ controller m' = set_token None (controller m)).
Proof.
  intros m m' rc out Hcalls Hall Hrun. cbn [run] in Hrun.
  destruct (step m (RefreshTick rc)) as [[m1 o1]|] eqn:Hstep; [|discriminate].
  destruct (run m1 evs) as [[m2 o2]|] eqn:Hrest; [|discriminate].
  inversion Hrun; subst m2 out; clear Hrun.
  assert (exists call, m1 = mkMachine (controller m) (connecting m) (observing m)
                                (timers m) (suspended call) /\ o1 = [])
    as (call & -> & ->).
  { cbn [step] in Hstep. rewrite Hcalls in Hstep.
    destruct (refreshToken_cases (controller m) rc)
      as [(_ & E)|[(_ & E)|(_ & _ & E)]];
      rewrite E in Hstep; inversion Hstep; subst; clear Hstep;
      [ exists None | exists (Some (Ready rc)) | exists (Some (Waiting rc)) ];
      split; reflexivity. }
  assert (List.length (suspended call) <= 1)%nat as Hlen1
    by (destruct call; cbn; lia).
  apply (refresh_call_outcome evs) in Hrest; [exact Hrest | exact Hlen1 | exact Hall].
Qed.

(** X14.  Errors that are not fatal, no more of them than the budget,
    and then a successful reply: the tick sends one request per reply,
    stores the new token, schedules the next tick with the full budget and
    does not disconnect; no call is left under way. *)
Theorem refresh_recovers_after_errors (m : Machine) (errs : list AjaxReply)
  (retryCount0 : Z) (t : option string) :
  connectionStatus (controller m) = Online ->
  forallb is_retryable errs = true ->
  Z.of_nat (List.length errs) <= retryCount0 ->
  run m (RefreshTick retryCount0
         :: refresh_events retryCount0 (errs ++ [AjaxResponse t]))
  = Some (mkMachine (set_token t (controller m)) (connecting m) (observing m)
                    (timers m) (refreshing m),
          repeat (AjaxPostRefresh (token (controller m))) (S (List.length errs))
          ++ [SetTimeoutRefresh MAX_RETRY_COUNT]) /\
  token (set_token t (controller m)) = t.
Proof.
  intros Hcs Hall Hlen. split; [|reflexivity].
  rewrite refresh_tick_online by exact Hcs.
  rewrite refresh_events_app.
  rewrite (refresh_retries errs _ retryCount0 (refreshing m)); auto.
  cbn [controller connecting observing timers refresh_events].
  rewrite (refresh_round _ _ _ (refreshing m)) by reflexivity.
  cbn [controller connecting observing timers
       DirectLineStreaming.refreshToken_subscriber suspended app run].
  replace (S (List.length errs)) with (List.length errs + 1)%nat by lia.
  rewrite repeat_app. cbn [repeat]. now rewrite <- app_assoc.
Qed.

(** X15.  After [end()] the refresher stops: on a controller whose
    status is [Ended] a refresh tick sends nothing, schedules nothing and
    changes nothing, whatever its budget and however many ticks fire. *)
Theorem ended_controller_ignores_ticks (m : Machine) (ticks : list Z) :
  connectionStatus (controller m) = Ended ->
  run m (map RefreshTick ticks) = Some (m, []).
Proof.
  intros Hcs. induction ticks as [|rc ticks IH]; [reflexivity|].
  cbn [map run step]. unfold DirectLineStreaming.refreshToken. rewrite Hcs.
  cbn [ConnectionStatus_eqb suspended app].
  replace (mkMachine (controller m) (connecting m) (observing m) (timers m)
             (refreshing m)) with m by now destruct m.
  now rewrite IH.
Qed.

(** X16.  What the disconnection callback does after a refresh has
    failed, on a controller that was online.  After the budget ran out,
    the token is null and the callback signals "Token unavailable": no
    reconnect.  After a 403 or a 404 the token is still there, and with
    retry budget left the callback publishes [Connecting] and schedules a
    reconnect with the token that was refused. *)
Theorem refresh_failure_then_disconnection (m : Machine) (e : string) :
  connectionStatus (controller m) = Online ->
  (forall (retryCount0 : Z) (errs : list AjaxReply),
      0 <= retryCount0 ->
      forallb is_retryable errs = true ->
      List.length errs = S (Z.to_nat retryCount0) ->
      exists (m' : Machine) (out : list Effect),
        run m (RefreshTick retryCount0 :: refresh_events retryCount0 errs)
        = Some (m', out) /\
        token (controller m') = None /\
        DirectLineStreaming.disconnectionHandler (controller m') e
        = (set_token None (controller m), [SubscriberError "Token unavailable"])) /\
  (forall retryCount0 status : Z,
      is_fatal status = true ->
      truthy (token (controller m)) = true ->
      retryCount (controller m) > 1 ->
      exists (m' : Machine) (out : list Effect),
        run m [RefreshTick retryCount0; RefreshResumed retryCount0;
               RefreshReplied retryCount0 (AjaxError status)]
        = Some (m', out) /\
        token (controller m') = token (controller m) /\
        DirectLineStreaming.disconnectionHandler (controller m') e
        = (set_connectionStatus Connecting
             (set_retryCount (retryCount (controller m) - 1) (controller m)),
           [StatusNext Connecting; SetTimeoutConnect])).
Proof.
  intros Hcs. split.
  - intros rc errs Hnn Hall Hlen. eexists _, _.
    split; [now apply refresh_exhausts|]. split; [reflexivity|].
    cbn [controller]. unfold DirectLineStreaming.disconnectionHandler.
    cbn [connectionStatus set_token token truthy]. rewrite Hcs. reflexivity.
  - intros rc status Hfatal Htok Hrc. eexists _, _. split.
    + rewrite refresh_once by exact Hcs.
      unfold DirectLineStreaming.refreshToken_subscriber.
      unfold is_fatal in Hfatal. rewrite Hfatal. cbn [suspended app run]. reflexivity.
    + cbn [controller]. split; [reflexivity|].
      destruct (disconnectionHandler_cases (controller m) e)
        as [(? & E)|[(_ & ? & E)|[(_ & _ & _ & E)|(_ & _ & ? & E)]]];
        try congruence; try lia.
Qed.

End RefresherMore.

(** Two ticks, one of them firing before the handshake is answered. *)
Lemma refresh_tick_requests_bounded_witness :
  run (J := demo_JSON) (init demo_options)
      [RefreshTick 0; Answered demo_handshake; RefreshResumed 0; OnlineObserved;
       RefreshReplied 0 (AjaxResponse (Some "fresh"%string));
       RefreshTick 3; RefreshResumed 3; RefreshReplied 3 (AjaxError 500);
       RefreshResumed 2]
  = Some ({| controller := set_token (Some "fresh"%string) demo_online_state;
             connecting := 0; observing := 0; timers := 0;
             refreshing := [InFlight 2] |},
          [StatusNext Online; AjaxPostRefresh (Some "secret"%string);
           SetTimeoutRefresh 3; AjaxPostRefresh (Some "fresh"%string);
           AjaxPostRefresh (Some "fresh"%string)]) /\
  (posts [StatusNext Online; AjaxPostRefresh (Some "secret"%string);
          SetTimeoutRefresh 3; AjaxPostRefresh (Some "fresh"%string);
          AjaxPostRefresh (Some "fresh"%string)]
   + requests_pending [InFlight 2]
   <= requests_pending (refreshing (init demo_options))
      + requests_allowed
          [RefreshTick 0; Answered demo_handshake; RefreshResumed 0; OnlineObserved;
           RefreshReplied 0 (AjaxResponse (Some "fresh"%string));
           RefreshTick 3; RefreshResumed 3; RefreshReplied 3 (AjaxError 500);
           RefreshResumed 2])%nat.
Proof.
  assert (run (J := demo_JSON) (init demo_options)
            [RefreshTick 0; Answered demo_handshake; RefreshResumed 0; OnlineObserved;
             RefreshReplied 0 (AjaxResponse (Some "fresh"%string));
             RefreshTick 3; RefreshResumed 3; RefreshReplied 3 (AjaxError 500);
             RefreshResumed 2]
          = Some ({| controller := set_token (Some "fresh"%string) demo_online_state;
                     connecting := 0; observing := 0; timers := 0;
                     refreshing := [InFlight 2] |},
                  [StatusNext Online; AjaxPostRefresh (Some "secret"%string);
                   SetTimeoutRefresh 3; AjaxPostRefresh (Some "fresh"%string);
                   AjaxPostRefresh (Some "fresh"%string)])) as Hrun
    by (vm_compute; reflexivity).
  split; [exact Hrun|].
  destruct (refresh_tick_requests_bounded (J := demo_JSON) _ _ _ _ Hrun) as (Hbound & _).
  exact Hbound.
Defined.

(** A tick with a budget of one: an error, the retry, and a 403. *)
Lemma refresh_tick_outcome_witness :
  refreshing demo_online = [] /\
  run (J := demo_JSON) demo_online
      [RefreshTick 1; RefreshResumed 1; RefreshReplied 1 (AjaxError 500);
       RefreshResumed 0; RefreshReplied 0 (AjaxError 403)]
  = Some (demo_online,
          [AjaxPostRefresh (Some "secret"%string);
           AjaxPostRefresh (Some "secret"%string); Disconnect]) /\
  (reschedules [AjaxPostRefresh (Some "secret"%string);
                AjaxPostRefresh (Some "secret"%string); Disconnect]
   + disconnects [AjaxPostRefresh (Some "secret"%string);
                  AjaxPostRefresh (Some "secret"%string); Disconnect] <= 1)%nat.
Proof.
  assert (run (J := demo_JSON) demo_online
            [RefreshTick 1; RefreshResumed 1; RefreshReplied 1 (AjaxError 500);
             RefreshResumed 0; RefreshReplied 0 (AjaxError 403)]
          = Some (demo_online,
                  [AjaxPostRefresh (Some "secret"%string);
                   AjaxPostRefresh (Some "secret"%string); Disconnect])) as Hrun
    by (vm_compute; reflexivity).
  split; [reflexivity|]. split; [exact Hrun|].
  destruct (refresh_tick_outcome (J := demo_JSON)
              [RefreshResumed 1; RefreshReplied 1 (AjaxError 500);
               RefreshResumed 0; RefreshReplied 0 (AjaxError 403)]
              demo_online _ 1 _ eq_refl eq_refl Hrun) as (Hone & _).
  exact Hone.
Defined.

Lemma refresh_recovers_after_errors_witness :
  connectionStatus (controller demo_online) = Online /\
  forallb is_retryable [AjaxError 500; AjaxError 0] = true /\
  Z.of_nat (List.length [AjaxError 500; AjaxError 0]) <= 3 /\
  run (J := demo_JSON) demo_online
      (RefreshTick 3
       :: refresh_events 3
            ([AjaxError 500; AjaxError 0] ++ [AjaxResponse (Some "fresh"%string)]))
  = Some ({| controller := set_token (Some "fresh"%string) demo_online_state;
             connecting := 0; observing := 0; timers := 0;
             refreshing := [] |},
          [AjaxPostRefresh (Some "secret"%string); AjaxPostRefresh (Some "secret"%string);
           AjaxPostRefresh (Some "secret"%string); SetTimeoutRefresh MAX_RETRY_COUNT]).
Proof.
  assert (Z.of_nat (List.length [AjaxError 500; AjaxError 0]) <= 3) as Hlen
    by (cbn; lia).
  split; [reflexivity|]. split; [reflexivity|]. split; [exact Hlen|].
  destruct (refresh_recovers_after_errors (J := demo_JSON) demo_online
              [AjaxError 500; AjaxError 0] 3 (Some "fresh"%string)
              eq_refl eq_refl Hlen) as (Hrun & _).
  exact Hrun.
Defined.

Lemma ended_controller_ignores_ticks_witness :
  connectionStatus
    (controller {| controller := set_connectionStatus Ended demo_online_state;
                   connecting := 0; observing := 0; timers := 0;
                   refreshing := [] |}) = Ended /\
  run (J := demo_JSON)
      {| controller := set_connectionStatus Ended demo_online_state;
         connecting := 0; observing := 0; timers := 0; refreshing := [] |}
      (map RefreshTick [0; 3])
  = Some ({| controller := set_connectionStatus Ended demo_online_state;
             connecting := 0; observing := 0; timers := 0; refreshing := [] |}, []).
Proof.
  split; [reflexivity|].
  exact (ended_controller_ignores_ticks (J := demo_JSON)
           {| controller := set_connectionStatus Ended demo_online_state;
              connecting := 0; observing := 0; timers := 0; refreshing := [] |}
           [0; 3] eq_refl).
Defined.

Lemma refresh_failure_then_disconnection_witness :
  connectionStatus (controller demo_online) = Online /\
  (exists (m' : Machine) (out : list Effect),
      run (J := demo_JSON) demo_online (RefreshTick 0 :: refresh_events 0 [AjaxError 500])
      = Some (m', out) /\
      token (controller m') = None /\
      DirectLineStreaming.disconnectionHandler (controller m') "closed"
      = (set_token None demo_online_state, [SubscriberError "Token unavailable"])) /\
  (exists (m' : Machine) (out : list Effect),
      run (J := demo_JSON) demo_online
          [RefreshTick 3; RefreshResumed 3; RefreshReplied 3 (AjaxError 403)]
      = Some (m', out) /\
      token (controller m') = Some "secret"%string /\
      DirectLineStreaming.disconnectionHandler (controller m') "closed"
      = (set_connectionStatus Connecting
           (set_retryCount (retryCount demo_online_state - 1) demo_online_state),
         [StatusNext Connecting; SetTimeoutConnect])).
Proof.
  split; [reflexivity|].
  destruct (refresh_failure_then_disconnection (J := demo_JSON) demo_online "closed"
              eq_refl) as (Hexhausted & Hfatal).
  split.
  - apply (Hexhausted 0 [AjaxError 500]); [lia | reflexivity | reflexivity].
  - apply (Hfatal 3 403); [reflexivity | reflexivity | cbn; lia].
Defined.

(** ** Outbound activities *)

Section OutboundMore.
Context `{J : JSON}.

(** X17.  [postActivity] takes the upload path exactly for a message
    that has at least one attachment.  On the plain path, a response
    publishes the id exactly when its status is 200, it has exactly one
    stream and that stream parses; the transport is then left alone.  Any
    other response disconnects the transport once and signals one error on
    the result channel, and never an id as well.  A throw of [send]
    itself reaches neither the result channel nor the transport. *)
Theorem post_activity_outcomes (activity : Activity) (sent : Sent) :
  (has_attachments activity = true <->
   type activity = "message"%string /\
   exists (media : Media) (others : list Media),
     attachments activity = Some (media :: others)) /\
  (forall e : string, sent = SendThrows e -> postActivity_plain sent = Rejected e) /\
  (forall resp : IReceiveResponse,
      sent = SendResponse resp ->
      (exists (stream0 : ContentStream) (id : option string),
          statusCode resp = 200 /\
          resp_streams resp = Some [stream0] /\
          parse_Id (readAsString stream0) = Some id /\
          postActivity_plain sent = Resolved ([], [ResultNext id]))
      \/
      ((statusCode resp <> 200 \/
        (forall stream0 : ContentStream, resp_streams resp <> Some [stream0]) \/
        (exists stream0 : ContentStream,
            resp_streams resp = Some [stream0] /\
            parse_Id (readAsString stream0) = None)) /\
       exists e : string,
         postActivity_plain sent = Resolved ([Disconnect], [ResultError e]))).
Proof.
  split; [|split].
  - unfold has_attachments. rewrite andb_true_iff, String.eqb_eq. split.
    + intros [Htype Hatt]. split; [exact Htype|].
      destruct (attachments activity) as [[|media others]|]; try discriminate Hatt.
      now exists media, others.
    + intros [Htype (media & others & ->)]. split; [exact Htype | reflexivity].
  - intros e ->. reflexivity.
  - intros resp ->. unfold postActivity_plain.
    destruct (Z.eqb_spec (statusCode resp) 200) as [Hcode|Hcode]; cbn [negb];
      [|right; split; [now left | now eexists]].
    destruct (resp_streams resp) as [l|] eqn:Hstreams;
      [|right; split; [right; left; intros stream0; discriminate | now eexists]].
    destruct l as [|stream0 [|stream1 l]].
    + right. split; [right; left; intros stream0; discriminate | now eexists].
    + cbn [List.length Nat.eqb negb].
      destruct (parse_Id (readAsString stream0)) as [id|] eqn:Hid.
      * left. now exists stream0, id.
      * right. split; [right; right; now exists stream0 | now eexists].
    + right. split; [right; left; intros s0; discriminate | now eexists].
Qed.

(** X18.  The two outbound paths treat one and the same response
    differently.  A response that is not a 200 but has one stream with an
    id: the upload path, which never looks at the status, publishes the
    id; the plain path signals "PostActivity returned ..." and disconnects
    the transport. *)
Theorem outbound_paths_differ_on_status (resp : IReceiveResponse)
  (stream0 : ContentStream) (id : option string) :
  statusCode resp <> 200 ->
  resp_streams resp = Some [stream0] ->
  parse_Id (readAsString stream0) = Some id ->
  DirectLineStreaming.upload_response resp = Resolved [ResultNext id] /\
  postActivity_plain (SendResponse resp)
  = Resolved ([Disconnect],
              [ResultError (String.append "PostActivity returned "
                              (decimalZ (statusCode resp)))]).
Proof.
  intros Hcode Hstreams Hid. split.
  - unfold DirectLineStreaming.upload_response. rewrite Hstreams. cbn. now rewrite Hid.
  - unfold postActivity_plain.
    destruct (Z.eqb_spec (statusCode resp) 200); [contradiction | reflexivity].
Qed.

Lemma fetch_attachments_in_range (sources : list Media)
  (completions : list (nat * AjaxGet)) :
  forall (acc l : list HttpContent),
    DirectLineStreaming.fetch_attachments sources completions acc = Resolved l ->
    Forall (fun c => (fst c < List.length sources)%nat) completions.
Proof.
  induction completions as [|[i r] completions IH]; intros acc l H; [constructor|].
  cbn [DirectLineStreaming.fetch_attachments] in H.
  destruct r as [response|status]; [|discriminate H].
  destruct (nth_error sources i) as [media|] eqn:Hnth; [|discriminate H].
  constructor; [|eapply IH; eauto].
  cbn [fst]. apply nth_error_Some. congruence.
Qed.

Lemma attachment_streams_types (sources : list Media) (d : Media)
  (completions : list (nat * AjaxGet)) :
  forallb is_GetResponse completions = true ->
  Forall (fun c => (fst c < List.length sources)%nat) completions ->
  map hc_type (flat_map (attachment_stream sources) completions)
  = map (fun i => contentType (nth i sources d)) (map fst completions) /\
  List.length (flat_map (attachment_stream sources) completions)
  = List.length completions.
Proof.
  induction completions as [|[i r] completions IH]; intros Hall Hrange;
    [split; reflexivity|].
  cbn [forallb] in Hall. apply andb_true_iff in Hall. destruct Hall as [Hr Hall].
  inversion Hrange as [|? ? Hi Hrange']; subst. cbn [fst] in Hi.
  destruct r as [response|status]; [|discriminate Hr].
  destruct (IH Hall Hrange') as [IH1 IH2].
  cbn [flat_map attachment_stream map fst].
  rewrite (nth_error_nth' sources d Hi). cbn [app map hc_type List.length].
  now rewrite IH1, IH2.
Qed.

Lemma types_in_source_order (rest pre : list Media) (d : Media) :
  map (fun i => contentType (nth i (pre ++ rest) d))
      (seq (List.length pre) (List.length rest))
  = map contentType rest.
Proof.
  revert pre. induction rest as [|media rest IH]; intros pre; [reflexivity|].
  cbn [List.length seq map]. rewrite app_nth2 by lia. rewrite Nat.sub_diag.
  cbn [nth]. f_equal.
  replace (pre ++ media :: rest) with ((pre ++ [media]) ++ rest)
    by now rewrite <- app_assoc.
  replace (S (List.length pre)) with (List.length (pre ++ [media]))
    by (rewrite length_app; cbn; lia).
  apply IH.
Qed.

(** X19.  When every fetch answers once, the first upload of a call
    carries, after the envelope, exactly one stream per attachment: the
    content types of the streams are those of the [attachments] array up
    to order, and the request has one stream more than there are
    attachments. *)
Theorem upload_carries_each_attachment_once (s : State) (message : Activity)
  (completions : list (nat * AjaxGet)) (request : StreamingRequest) :
  DirectLineStreaming.postMessageWithAttachments s message [] completions
  = DirectLineStreaming.UploadSent request ->
  NoDup (map fst completions) ->
  let sources := match attachments message with Some l => l | None => [] end in
  Permutation (map hc_type (tl (req_streams request))) (map contentType sources) /\
  List.length (req_streams request) = S (List.length sources) /\
  List.length completions = List.length sources.
Proof.
  intros Hsent Hnodup sources.
  unfold DirectLineStreaming.postMessageWithAttachments in Hsent. fold sources in Hsent.
  destruct (DirectLineStreaming.fetch_attachments sources completions [])
    as [l|e] eqn:Hfetch; [|discriminate Hsent].
  destruct (DirectLineStreaming.all_completed sources completions) eqn:Hall;
    [|discriminate Hsent].
  injection Hsent as <-.
  pose proof (fetch_attachments_in_range _ _ _ _ Hfetch) as Hrange.
  apply fetch_attachments_resolved in Hfetch. destruct Hfetch as [-> Hresp].
  cbn [app DirectLineStreaming.upload_request req_streams tl List.length].
  destruct (attachment_streams_types sources (mkMedia "" "") completions Hresp Hrange)
    as [Htypes Hlen].
  assert (Permutation (map fst completions) (seq 0 (List.length sources))) as Hperm.
  { apply NoDup_Permutation; [exact Hnodup | apply seq_NoDup|].
    intros i. rewrite in_seq. split.
    - intros Hin. apply in_map_iff in Hin. destruct Hin as (c & <- & Hc).
      rewrite Forall_forall in Hrange. specialize (Hrange c Hc). lia.
    - intros [_ Hi]. now apply (all_completed_In sources). }
  assert (List.length completions = List.length sources) as Hcount.
  { apply Permutation_length in Hperm. now rewrite length_map, length_seq in Hperm. }
  split; [|split; [now rewrite Hlen, Hcount | exact Hcount]].
  rewrite Htypes.
  rewrite <- (types_in_source_order sources [] (mkMedia "" "")).
  cbn [app List.length]. now apply Permutation_map.
Qed.

(** X20.  The list of fetched streams belongs to the call, not to the
    subscription (line 231): when the observable of one call is
    subscribed a second time, the second upload carries the attachment
    streams of the first upload again, before those it fetched itself. *)
Theorem second_subscription_sends_streams_again (s : State) (message : Activity)
  (completions1 completions2 : list (nat * AjaxGet))
  (request1 request2 : StreamingRequest) :
  DirectLineStreaming.postMessageWithAttachments s message [] completions1
  = DirectLineStreaming.UploadSent request1 ->
  DirectLineStreaming.postMessageWithAttachments s message
    (tl (req_streams request1)) completions2
  = DirectLineStreaming.UploadSent request2 ->
  let sources := match attachments message with Some l => l | None => [] end in
  hd_error (req_streams request2) = hd_error (req_streams request1) /\
  tl (req_streams request2)
  = tl (req_streams request1) ++ flat_map (attachment_stream sources) completions2 /\
  List.length (req_streams request2)
  = (List.length (req_streams request1) + List.length completions2)%nat.
Proof.
  intros Hsent1 Hsent2 sources.
  unfold DirectLineStreaming.postMessageWithAttachments in Hsent1, Hsent2.
  fold sources in Hsent1, Hsent2.
  destruct (DirectLineStreaming.fetch_attachments sources completions1 [])
    as [l1|e] eqn:Hfetch1; [|discriminate Hsent1].
  destruct (DirectLineStreaming.all_completed sources completions1);
    [|discriminate Hsent1].
  injection Hsent1 as <-.
  cbn [DirectLineStreaming.upload_request req_streams tl] in Hsent2 |- *.
  destruct (DirectLineStreaming.fetch_attachments sources completions2 l1)
    as [l2|e] eqn:Hfetch2; [|discriminate Hsent2].
  destruct (DirectLineStreaming.all_completed sources completions2);
    [|discriminate Hsent2].
  injection Hsent2 as <-.
  pose proof (fetch_attachments_in_range _ _ _ _ Hfetch2) as Hrange.
  apply fetch_attachments_resolved in Hfetch2. destruct Hfetch2 as [-> Hresp].
  destruct (attachment_streams_types sources (mkMedia "" "") completions2 Hresp Hrange)
    as [_ Hlen].
  cbn [DirectLineStreaming.upload_request req_streams tl hd_error List.length].
  split; [reflexivity|]. split; [reflexivity|].
  rewrite length_app, Hlen. lia.
Qed.

End OutboundMore.

Lemma outbound_paths_differ_on_status_witness :
  statusCode {| statusCode := 500;
                resp_streams := Some [mkContentStream "application/json" "{Id:42}"] |}
  <> 200 /\
  parse_Id (JSON := demo_JSON)
    (readAsString (mkContentStream "application/json" "{Id:42}"))
  = Some (Some "42"%string) /\
  DirectLineStreaming.upload_response (J := demo_JSON)
    {| statusCode := 500;
       resp_streams := Some [mkContentStream "application/json" "{Id:42}"] |}
  = Resolved [ResultNext (Some "42"%string)] /\
  postActivity_plain (J := demo_JSON)
    (SendResponse
       {| statusCode := 500;
          resp_streams := Some [mkContentStream "application/json" "{Id:42}"] |})
  = Resolved ([Disconnect], [ResultError "PostActivity returned 500"]).
Proof.
  assert (statusCode
            {| statusCode := 500;
               resp_streams := Some [mkContentStream "application/json" "{Id:42}"] |}
          <> 200) as Hcode by (cbn; discriminate).
  assert (parse_Id (JSON := demo_JSON)
            (readAsString (mkContentStream "application/json" "{Id:42}"))
          = Some (Some "42"%string)) as Hid by (vm_compute; reflexivity).
  split; [exact Hcode|]. split; [exact Hid|].
  exact (outbound_paths_differ_on_status (J := demo_JSON) _ _ _ Hcode eq_refl Hid).
Defined.

Lemma upload_carries_each_attachment_once_witness :
  NoDup (map fst [(1%nat, GetResponse "PDF"); (0%nat, GetResponse "PNG")]) /\
  Permutation ["application/pdf"; "image/png"]%string
              ["image/png"; "application/pdf"]%string.
Proof.
  assert (NoDup (map fst [(1%nat, GetResponse "PDF"); (0%nat, GetResponse "PNG")]))
    as Hnodup.
  { cbn. constructor; [intros [H|[]]; discriminate H|].
    constructor; [intros []|constructor]. }
  assert (DirectLineStreaming.postMessageWithAttachments (J := demo_JSON)
            demo_online_state
            (demo_activity "m" (Some [mkMedia "image/png" "http://host/a.png";
                                      mkMedia "application/pdf" "http://host/b.pdf"]))
            [] [(1%nat, GetResponse "PDF"); (0%nat, GetResponse "PNG")]
          = DirectLineStreaming.UploadSent
              {| verb := "PUT";
                 path := "/v3/directline/conversations/c1/users/user/upload";
                 req_streams :=
                   [ {| hc_type := "application/vnd.microsoft.activity";
                        hc_contentLength := 34;
                        hc_stream := "{type:message,from:{id:user},id:m}" |};
                     {| hc_type := "application/pdf"; hc_contentLength := 3;
                        hc_stream := "PDF" |};
                     {| hc_type := "image/png"; hc_contentLength := 3;
                        hc_stream := "PNG" |} ] |}) as Hsent
    by (vm_compute; reflexivity).
  split; [exact Hnodup|].
  destruct (upload_carries_each_attachment_once (J := demo_JSON) _ _ _ _ Hsent Hnodup)
    as (Hperm & _).
  exact Hperm.
Defined.

Lemma second_subscription_sends_streams_again_witness :
  exists request2 : StreamingRequest,
    DirectLineStreaming.postMessageWithAttachments (J := demo_JSON) demo_online_state
      (demo_activity "m" (Some [mkMedia "image/png" "http://host/a.png"]))
      [ {| hc_type := "image/png"; hc_contentLength := 3; hc_stream := "PNG" |} ]
      [(0%nat, GetResponse "PNG")]
    = DirectLineStreaming.UploadSent request2 /\
    List.length (req_streams request2) = 3%nat.
Proof.
  assert (DirectLineStreaming.postMessageWithAttachments (J := demo_JSON)
            demo_online_state
            (demo_activity "m" (Some [mkMedia "image/png" "http://host/a.png"]))
            [] [(0%nat, GetResponse "PNG")]
          = DirectLineStreaming.UploadSent
              {| verb := "PUT";
                 path := "/v3/directline/conversations/c1/users/user/upload";
                 req_streams :=
                   [ {| hc_type := "application/vnd.microsoft.activity";
                        hc_contentLength := 34;
                        hc_stream := "{type:message,from:{id:user},id:m}" |};
                     {| hc_type := "image/png"; hc_contentLength := 3;
                        hc_stream := "PNG" |} ] |}) as Hsent1
    by (vm_compute; reflexivity).
  assert (DirectLineStreaming.postMessageWithAttachments (J := demo_JSON)
            demo_online_state
            (demo_activity "m" (Some [mkMedia "image/png" "http://host/a.png"]))
            [ {| hc_type := "image/png"; hc_contentLength := 3; hc_stream := "PNG" |} ]
            [(0%nat, GetResponse "PNG")]
          = DirectLineStreaming.UploadSent
              {| verb := "PUT";
                 path := "/v3/directline/conversations/c1/users/user/upload";
                 req_streams :=
                   [ {| hc_type := "application/vnd.microsoft.activity";
                        hc_contentLength := 34;
                        hc_stream := "{type:message,from:{id:user},id:m}" |};
                     {| hc_type := "image/png"; hc_contentLength := 3;
                        hc_stream := "PNG" |};
                     {| hc_type := "image/png"; hc_contentLength := 3;
                        hc_stream := "PNG" |} ] |}) as Hsent2
    by (vm_compute; reflexivity).
  eexists. split; [exact Hsent2|].
  destruct (second_subscription_sends_streams_again (J := demo_JSON) _ _ _ _ _ _
              Hsent1 Hsent2) as (_ & _ & Hlen).
  exact Hlen.
Defined.

(** ** The retry delay and the agent string *)

Lemma getRetryDelay_range (fl : Q -> Q) (random : Q) :
  (forall a b : Q, a <= b -> fl a <= fl b)%Q ->
  (forall z : Z, (Z.abs z <= 2 ^ 53)%Z -> fl (inject_Z z) == inject_Z z)%Q ->
  (0 <= random)%Q -> (random < 1)%Q ->
  (3000 <= fl (3000 + fl (random * 12000)) /\
   fl (3000 + fl (random * 12000)) <= 15000)%Q.
Proof.
  intros Hmono Hfix H0 H1.
  assert (fl 0 == 0)%Q as F0 by (apply (Hfix 0%Z); cbn; lia).
  assert (fl 3000 == 3000)%Q as F1 by (apply (Hfix 3000%Z); cbn; lia).
  assert (fl 12000 == 12000)%Q as F2 by (apply (Hfix 12000%Z); cbn; lia).
  assert (fl 15000 == 15000)%Q as F3 by (apply (Hfix 15000%Z); cbn; lia).
  assert (0 <= random * 12000)%Q as P0.
  { apply Qmult_le_0_compat; [exact H0 | discriminate]. }
  assert (random * 12000 <= 12000)%Q as P1.
  { apply Qle_trans with (1 * 12000)%Q; [|discriminate].
    apply Qmult_le_compat_r; [now apply Qlt_le_weak | discriminate]. }
  assert (forall x y : Q, x == y -> x <= y)%Q as Hle.
  { intros x y Hxy. apply Qle_lteq. now right. }
  assert (0 <= fl (random * 12000))%Q as Q0.
  { apply Qle_trans with (fl 0%Q); [apply Hle; symmetry; exact F0 | now apply Hmono]. }
  assert (fl (random * 12000) <= 12000)%Q as Q1.
  { apply Qle_trans with (fl 12000%Q); [now apply Hmono | apply Hle; exact F2]. }
  split.
  - apply Qle_trans with (fl 3000%Q); [apply Hle; symmetry; exact F1|].
    apply Hmono. apply Qle_trans with (3000 + 0)%Q; [apply Hle; reflexivity|].
    apply Qplus_le_compat; [apply Qle_refl | exact Q0].
  - apply Qle_trans with (fl 15000%Q); [|apply Hle; exact F3].
    apply Hmono. apply Qle_trans with (3000 + 12000)%Q; [|apply Hle; reflexivity].
    apply Qplus_le_compat; [apply Qle_refl | exact Q1].
Qed.

(** X21.  The retry delay lies between 3000 and 15000 milliseconds
    for every value in [0, 1) of the random source, whatever the rounding
    of the two floating-point operations, as long as it is monotone and
    leaves the integers up to 2^53 alone; in exact arithmetic the delay
    stays below 15000. *)
Theorem retry_delay_bounds (fl : Q -> Q) (random : Q) :
  (forall a b : Q, a <= b -> fl a <= fl b)%Q ->
  (forall z : Z, (Z.abs z <= 2 ^ 53)%Z -> fl (inject_Z z) == inject_Z z)%Q ->
  (0 <= random)%Q -> (random < 1)%Q ->
  3000 <= getRetryDelay fl random <= 15000 /\
  getRetryDelay (fun q => q) random < 15000.
Proof.
  intros Hmono Hfix H0 H1.
  destruct (getRetryDelay_range fl random Hmono Hfix H0 H1) as [Hlo Hhi].
  unfold getRetryDelay. split; [split|].
  - rewrite <- (Qfloor_Z 3000). now apply Qfloor_resp_le.
  - rewrite <- (Qfloor_Z 15000). now apply Qfloor_resp_le.
  - rewrite Zlt_Qlt. eapply Qle_lt_trans; [apply Qfloor_le|].
    setoid_replace (inject_Z 15000) with (3000 + 1 * 12000)%Q by reflexivity.
    apply Qplus_lt_r. apply Qmult_lt_compat_r; [reflexivity | exact H1].
Qed.

Lemma retry_delay_bounds_witness :
  3000 <= getRetryDelay (fun q => q) (1 # 2) <= 15000 /\
  getRetryDelay (fun q => q) (1 # 2) < 15000.
Proof.
  apply (retry_delay_bounds (fun q => q) (1 # 2)).
  - intros a b Hab. exact Hab.
  - intros z _. reflexivity.
  - discriminate.
  - reflexivity.
Defined.

Lemma append_cancel_l (p a b : string) :
  String.append p a = String.append p b -> a = b.
Proof.
  induction p as [|c p IH]; cbn [String.append]; intros H; [exact H|].
  injection H as H. now apply IH.
Qed.

Lemma append_cancel_paren (a b : string) :
  String.append a ")" = String.append b ")" -> a = b.
Proof.
  revert b. induction a as [|c a IH]; intros [|d b]; cbn [String.append]; intros H.
  - reflexivity.
  - injection H as _ H. destruct b; discriminate H.
  - injection H as _ H. destruct a; discriminate H.
  - injection H as -> H. f_equal. now apply IH.
Qed.

(** X22.  The agent string begins with the protocol version and
    tells custom agents apart: two settings give the same string exactly
    when they name the same agent, an absent one counting as the empty
    one. *)
Theorem bot_agent_identifies_custom_agent (a b : option string) :
  String.prefix DIRECT_LINE_VERSION (getBotAgent a) = true /\
  (getBotAgent a = getBotAgent b <->
   match a with Some c => c | None => ""%string end
   = match b with Some c => c | None => ""%string end).
Proof.
  split.
  - unfold getBotAgent. apply prefix_append.
  - split.
    + unfold getBotAgent.
      set (x := match a with Some c => c | None => ""%string end).
      set (y := match b with Some c => c | None => ""%string end).
      intros H.
      apply append_cancel_l in H. apply append_cancel_l in H.
      apply append_cancel_paren in H.
      destruct x as [|cx x], y as [|cy y]; cbn [String.eqb negb] in H.
      * reflexivity.
      * apply (append_cancel_l "directlineStreaming" "" _) in H. discriminate H.
      * apply (append_cancel_l "directlineStreaming" _ "") in H. discriminate H.
      * apply (append_cancel_l "directlineStreaming") in H.
        now apply (append_cancel_l "; ") in H.
    + intros H. unfold getBotAgent. now rewrite H.
Qed.

(** ** The test helper [lazyConcat] *)

Lemma values_nexts {T : Type} (vs : list T) (ns : list (Notification T)) :
  values (map Next vs ++ ns) = vs ++ values ns.
Proof.
  induction vs as [|v vs IH]; [reflexivity|]. cbn. now rewrite IH.
Qed.

(** X23.  [lazyConcat] forwards the values of the observables it
    pulled, in order, and then at most one terminal notification, which is
    the last thing the subscriber receives.  It pulls lazily: nothing is
    pulled after an observable that does not complete.  When every
    observable completes, the subscriber receives all values of all of them
    in order and then [complete]. *)
Theorem lazy_concat_delivery {T : Type} (items : list (Pull T)) :
  values (lazyConcat items) = flat_map yielded (firstn (pulls items) items) /\
  (exists tail : list (Notification T),
      lazyConcat items = map Next (values (lazyConcat items)) ++ tail /\
      (tail = [] \/ exists t, tail = [t] /\ is_terminal t = true)) /\
  (forall (k : nat) (p : Pull T),
      nth_error items k = Some p -> completes p = false ->
      (pulls items <= S k)%nat) /\
  (forallb completes items = true ->
   lazyConcat items = map Next (flat_map yielded items) ++ [Complete] /\
   pulls items = S (List.length items)).
Proof.
  induction items as [|p items (IH1 & (tail & IH2 & IH3) & IH4 & IH5)].
  - split; [reflexivity|]. split; [|split].
    + exists [Complete]. split; [reflexivity|]. right. now exists Complete.
    + intros [|k] p H; discriminate H.
    + intros _. split; reflexivity.
  - destruct p as [o|e].
    + cbn [lazyConcat pulls completes]. destruct (ending o) as [|e|] eqn:Hend.
      * split; [|split; [|split]].
        -- rewrite values_nexts, IH1. cbn [firstn flat_map yielded]. reflexivity.
        -- exists tail. split; [|exact IH3].
           rewrite values_nexts, map_app, <- app_assoc. now rewrite <- IH2.
        -- intros [|k] p H Hp.
           ++ injection H as <-. cbn [completes] in Hp. rewrite Hend in Hp.
              discriminate Hp.
           ++ cbn [nth_error] in H. specialize (IH4 k p H Hp). lia.
        -- intros Hall. cbn [forallb] in Hall. apply andb_true_iff in Hall.
           destruct (IH5 (proj2 Hall)) as [-> ->].
           cbn [flat_map yielded List.length]. now rewrite map_app, <- app_assoc.
      * split; [|split; [|split]].
        -- rewrite values_nexts. cbn. now rewrite !app_nil_r.
        -- exists [Error e]. split; [|right; now exists (Error e)].
           rewrite values_nexts. cbn. now rewrite app_nil_r.
        -- intros k p _ _. lia.
        -- intros Hall. cbn [forallb completes] in Hall. rewrite Hend in Hall.
           discriminate Hall.
      * split; [|split; [|split]].
        -- rewrite values_nexts. cbn. now rewrite !app_nil_r.
        -- exists []. split; [|now left].
           rewrite values_nexts. cbn. now rewrite !app_nil_r.
        -- intros k p _ _. lia.
        -- intros Hall. cbn [forallb completes] in Hall. rewrite Hend in Hall.
           discriminate Hall.
    + split; [reflexivity|]. split; [|split].
      * exists [Error e]. split; [reflexivity|]. right. now exists (Error e).
      * intros k p _ _. cbn. lia.
      * intros Hall. discriminate Hall.
Qed.
